(** * siis: the trade state machine of the strategy execution core

    A shallow embedding of
      - [src/strategy/strategytrade.py]          (class [StrategyTrade]),
      - [src/strategy/strategyindmargintrade.py] (class [StrategyIndMarginTrade]),
      - the entry filter of [CryptoAlphaStrategyTrader.process]
        in [src/strategy/cryptoalpha/castrategytrader.py],
    and the properties of the specification that concern them.

    Conventions of the embedding.
      - Python numbers held in price, quantity, rate and time slots are read
        as exact rationals ([Qc], canonical fractions, so that equality of
        numbers is Leibniz equality); float rounding is not modelled there.
        Division is Python's: a zero divisor raises [ZeroDivisionError].
        The fill accounting of [order_signal], whose results depend on
        rounding, is embedded a second time on binary64 floats in
        [Float64].
      - An object is a record of its [__slots__]; a method takes the record
        and gives back the record after its assignments.  A method that can
        raise returns a [result]: either [Returned v self'] or
        [Raised ex self'], where [self'] holds the assignments made before
        the exception left the method (the object outlives the exception).
      - Order ids and client reference ids are strings, [None] is [None]. *)

From Stdlib Require Import ZArith QArith Qcanon String List Field.
From stdpp Require Import base option list strings gmap numbers.
From Stdlib Require Floats.

Local Open Scope Qc_scope.

(** ** Python values, exceptions, and the small pieces of semantics used *)

Module Py.

(** Values that are stored where the program does not fix a type
    (the entries of the [_stats] dict, and [_trade_type] after a load). *)
#[warnings="-register-all"]
Inductive value :=
  | VNone
  | VBool (b : bool)
  | VInt (z : Z)
  | VFloat (q : Qc)
  | VStr (s : string)
  | VDict (d : gmap string value)
  | VMethod (name : string).   (* a bound method object, e.g. [self.version] *)

Inductive exn :=
  | AttributeError (attr : string)
  | TypeError
  | ZeroDivisionError
  | IndexError.

(** Outcome of a method call on an object of type [S]. *)
Inductive result (S A : Type) :=
  | Returned (a : A) (self : S)
  | Raised (ex : exn) (self : S).
Arguments Returned {S A} a self.
Arguments Raised {S A} ex self.

Definition state_of {S A} (r : result S A) : S :=
  match r with Returned _ s => s | Raised _ s => s end.

Definition raised {S A} (r : result S A) : option exn :=
  match r with Returned _ _ => None | Raised ex _ => Some ex end.

(** [a / b] on numbers. *)
Definition truediv (a b : Qc) : exn + Qc :=
  if decide (b = 0) then inl ZeroDivisionError else inr (a / b).

(** Sequencing of an expression that may raise inside a method body. *)
Definition attempt {S A B} (c : exn + A) (self : S) (k : A -> result S B)
  : result S B :=
  match c with inl ex => Raised ex self | inr a => k a end.

(** Truth value of an optional number ([None], [0] and [0.0] are false). *)
Definition truthy_num (v : option Qc) : bool :=
  match v with Some q => bool_decide (q <> 0) | None => false end.

(** Truth value of an optional string ([None] and [''] are false). *)
Definition truthy_str (v : option string) : bool :=
  match v with Some s => bool_decide (s <> EmptyString) | None => false end.

(** [v == z] for an integer constant [z]. *)
Definition eq_int (v : value) (z : Z) : bool :=
  match v with
  | VInt z' => bool_decide (z' = z)
  | VFloat q => bool_decide (q = Qc_of_Z z)
  | VBool b => bool_decide ((if b then 1%Z else 0%Z) = z)
  | _ => false
  end.

(** [l[i]] on a list. *)
Definition index {A} (l : list A) (i : nat) : exn + A :=
  match l !! i with Some a => inr a | None => inl IndexError end.

(** A call passing [nargs] positional arguments to a method declared with
    the parameters [params] (after [self]) and no defaults: Python checks
    the arity before the body runs. *)
Definition call_positional {A} (params : list string) (nargs : nat) (body : A)
  : exn + A :=
  if decide (length params = nargs) then inr body else inl TypeError.

(** *** More of Python's semantics, for the methods that read the [_stats]
    dict and compare what they find *)

(** Truth value of a value. *)
Definition truthy (v : value) : bool :=
  match v with
  | VNone => false
  | VBool b => b
  | VInt z => bool_decide (z <> 0%Z)
  | VFloat q => bool_decide (q <> 0)
  | VStr s => bool_decide (s <> EmptyString)
  | VDict d => match map_to_list d with [] => false | _ => true end
  | VMethod _ => true
  end.

(** [v == s] for a string constant [s]. *)
Definition eq_str (v : value) (s : string) : bool :=
  match v with VStr s' => bool_decide (s' = s) | _ => false end.

(** The number a value is in an ordering comparison with a float
    ([bool] is a subtype of [int]); no number for the other values. *)
Definition as_number (v : value) : option Qc :=
  match v with
  | VInt z => Some (Qc_of_Z z)
  | VFloat q => Some q
  | VBool b => Some (if b then 1 else 0)
  | _ => None
  end.

(** Exceptions of dict access, beside the ones above. *)
Inductive error :=
  | KeyError (key : string)
  | Exn (ex : exn).

(** [d[key]]. *)
Definition getitem (d : gmap string value) (key : string) : error + value :=
  match d !! key with Some v => inr v | None => inl (KeyError key) end.

(** [a > v] and [a < v] for a float [a]. *)
Definition gt_value (a : Qc) (v : value) : error + bool :=
  match as_number v with
  | Some q => inr (bool_decide (q < a))
  | None => inl (Exn TypeError)
  end.

Definition lt_value (a : Qc) (v : value) : error + bool :=
  match as_number v with
  | Some q => inr (bool_decide (a < q))
  | None => inl (Exn TypeError)
  end.

(** [a > b] where [b] may be [None]. *)
Definition gt_opt (a : Qc) (b : option Qc) : exn + bool :=
  match b with
  | Some q => inr (bool_decide (q < a))
  | None => inl TypeError
  end.

(** Sequencing of expressions that may raise. *)
Definition and_then {E A B} (c : E + A) (k : A -> E + B) : E + B :=
  match c with inl ex => inl ex | inr a => k a end.

End Py.
Import Py.

Notation "x <- c 'within' self ;; k" := (attempt c self (fun x => k))
  (at level 200, c at level 100, self at level 0, right associativity).

Notation "'do' s <- r ;; k" :=
  (match r with Returned _ s => k | Raised ex s => Raised ex s end)
  (at level 10, s name, r at level 99, k at level 200).

Notation "x <~ c ;; k" := (and_then c (fun x => k))
  (at level 200, c at level 99, right associativity).

(** The number [v] when [v is not None and v > 0]. *)
Definition pos_of (v : option Qc) : option Qc :=
  match v with
  | Some q => if decide (0 < q) then Some q else None
  | None => None
  end.

(** ** [StrategyTrade]: the base class (strategy/strategytrade.py) *)

Module StrategyTrade.

Definition TRADE_UNDEFINED : Z := -1.
Definition TRADE_BUY_SELL : Z := 0.
Definition TRADE_ASSET : Z := 0.
Definition TRADE_SPOT : Z := 0.
Definition TRADE_MARGIN : Z := 1.
Definition TRADE_IND_MARGIN : Z := 2.

Definition STATE_UNDEFINED : Z := -1.
Definition STATE_NEW : Z := 0.
Definition STATE_REJECTED : Z := 1.
Definition STATE_DELETED : Z := 2.
Definition STATE_CANCELED : Z := 3.
Definition STATE_OPENED : Z := 4.
Definition STATE_PARTIALLY_FILLED : Z := 5.
Definition STATE_FILLED : Z := 6.

(** [__slots__] of the class, in the order of the source. *)
Definition slots : list string :=
  ["_trade_type"; "_entry_state"; "_exit_state"; "_timeframe"; "_operations";
   "_user_trade"; "_next_operation_id"; "id"; "dir"; "op"; "oq"; "tp"; "sl";
   "aep"; "axp"; "eot"; "xot"; "e"; "x"; "pl"; "ptp"; "_stats"].

(** The object: one field per slot.  [_trade_type] is a [value] because the
    program stores an integer there in [__init__] and whatever the dict
    holds in [loads]; [tp] and [sl] may be [None]. *)
Record t := mk {
  _trade_type : value;
  _entry_state : Z;
  _exit_state : Z;
  _timeframe : Qc;
  _operations : list value;
  _user_trade : option bool;
  _next_operation_id : Z;
  id : Z;
  dir : Z;
  op : Qc;
  oq : Qc;
  tp : option Qc;
  sl : option Qc;
  aep : Qc;
  axp : Qc;
  eot : Qc;
  xot : Qc;
  e : Qc;
  x : Qc;
  pl : Qc;
  ptp : Qc;
  _stats : gmap string value
}.

(** Assignment to one slot ([self.f = v]). *)
Definition set_entry_state (v : Z) (self : t) : t :=
  {| _trade_type := _trade_type self; _entry_state := v;
     _exit_state := _exit_state self; _timeframe := _timeframe self;
     _operations := _operations self; _user_trade := _user_trade self;
     _next_operation_id := _next_operation_id self; id := id self;
     dir := dir self; op := op self; oq := oq self; tp := tp self;
     sl := sl self; aep := aep self; axp := axp self; eot := eot self;
     xot := xot self; e := e self; x := x self; pl := pl self;
     ptp := ptp self; _stats := _stats self |}.
Definition set_exit_state (v : Z) (self : t) : t :=
  {| _trade_type := _trade_type self; _entry_state := _entry_state self;
     _exit_state := v; _timeframe := _timeframe self;
     _operations := _operations self; _user_trade := _user_trade self;
     _next_operation_id := _next_operation_id self; id := id self;
     dir := dir self; op := op self; oq := oq self; tp := tp self;
     sl := sl self; aep := aep self; axp := axp self; eot := eot self;
     xot := xot self; e := e self; x := x self; pl := pl self;
     ptp := ptp self; _stats := _stats self |}.
Definition set_tp (v : option Qc) (self : t) : t :=
  {| _trade_type := _trade_type self; _entry_state := _entry_state self;
     _exit_state := _exit_state self; _timeframe := _timeframe self;
     _operations := _operations self; _user_trade := _user_trade self;
     _next_operation_id := _next_operation_id self; id := id self;
     dir := dir self; op := op self; oq := oq self; tp := v; sl := sl self;
     aep := aep self; axp := axp self; eot := eot self; xot := xot self;
     e := e self; x := x self; pl := pl self; ptp := ptp self;
     _stats := _stats self |}.
Definition set_sl (v : option Qc) (self : t) : t :=
  {| _trade_type := _trade_type self; _entry_state := _entry_state self;
     _exit_state := _exit_state self; _timeframe := _timeframe self;
     _operations := _operations self; _user_trade := _user_trade self;
     _next_operation_id := _next_operation_id self; id := id self;
     dir := dir self; op := op self; oq := oq self; tp := tp self; sl := v;
     aep := aep self; axp := axp self; eot := eot self; xot := xot self;
     e := e self; x := x self; pl := pl self; ptp := ptp self;
     _stats := _stats self |}.
Definition set_aep (v : Qc) (self : t) : t :=
  {| _trade_type := _trade_type self; _entry_state := _entry_state self;
     _exit_state := _exit_state self; _timeframe := _timeframe self;
     _operations := _operations self; _user_trade := _user_trade self;
     _next_operation_id := _next_operation_id self; id := id self;
     dir := dir self; op := op self; oq := oq self; tp := tp self;
     sl := sl self; aep := v; axp := axp self; eot := eot self;
     xot := xot self; e := e self; x := x self; pl := pl self;
     ptp := ptp self; _stats := _stats self |}.
Definition set_axp (v : Qc) (self : t) : t :=
  {| _trade_type := _trade_type self; _entry_state := _entry_state self;
     _exit_state := _exit_state self; _timeframe := _timeframe self;
     _operations := _operations self; _user_trade := _user_trade self;
     _next_operation_id := _next_operation_id self; id := id self;
     dir := dir self; op := op self; oq := oq self; tp := tp self;
     sl := sl self; aep := aep self; axp := v; eot := eot self;
     xot := xot self; e := e self; x := x self; pl := pl self;
     ptp := ptp self; _stats := _stats self |}.
Definition set_eot (v : Qc) (self : t) : t :=
  {| _trade_type := _trade_type self; _entry_state := _entry_state self;
     _exit_state := _exit_state self; _timeframe := _timeframe self;
     _operations := _operations self; _user_trade := _user_trade self;
     _next_operation_id := _next_operation_id self; id := id self;
     dir := dir self; op := op self; oq := oq self; tp := tp self;
     sl := sl self; aep := aep self; axp := axp self; eot := v;
     xot := xot self; e := e self; x := x self; pl := pl self;
     ptp := ptp self; _stats := _stats self |}.
Definition set_xot (v : Qc) (self : t) : t :=
  {| _trade_type := _trade_type self; _entry_state := _entry_state self;
     _exit_state := _exit_state self; _timeframe := _timeframe self;
     _operations := _operations self; _user_trade := _user_trade self;
     _next_operation_id := _next_operation_id self; id := id self;
     dir := dir self; op := op self; oq := oq self; tp := tp self;
     sl := sl self; aep := aep self; axp := axp self; eot := eot self;
     xot := v; e := e self; x := x self; pl := pl self; ptp := ptp self;
     _stats := _stats self |}.
Definition set_e (v : Qc) (self : t) : t :=
  {| _trade_type := _trade_type self; _entry_state := _entry_state self;
     _exit_state := _exit_state self; _timeframe := _timeframe self;
     _operations := _operations self; _user_trade := _user_trade self;
     _next_operation_id := _next_operation_id self; id := id self;
     dir := dir self; op := op self; oq := oq self; tp := tp self;
     sl := sl self; aep := aep self; axp := axp self; eot := eot self;
     xot := xot self; e := v; x := x self; pl := pl self; ptp := ptp self;
     _stats := _stats self |}.
Definition set_x (v : Qc) (self : t) : t :=
  {| _trade_type := _trade_type self; _entry_state := _entry_state self;
     _exit_state := _exit_state self; _timeframe := _timeframe self;
     _operations := _operations self; _user_trade := _user_trade self;
     _next_operation_id := _next_operation_id self; id := id self;
     dir := dir self; op := op self; oq := oq self; tp := tp self;
     sl := sl self; aep := aep self; axp := axp self; eot := eot self;
     xot := xot self; e := e self; x := v; pl := pl self; ptp := ptp self;
     _stats := _stats self |}.
Definition set_pl (v : Qc) (self : t) : t :=
  {| _trade_type := _trade_type self; _entry_state := _entry_state self;
     _exit_state := _exit_state self; _timeframe := _timeframe self;
     _operations := _operations self; _user_trade := _user_trade self;
     _next_operation_id := _next_operation_id self; id := id self;
     dir := dir self; op := op self; oq := oq self; tp := tp self;
     sl := sl self; aep := aep self; axp := axp self; eot := eot self;
     xot := xot self; e := e self; x := x self; pl := v; ptp := ptp self;
     _stats := _stats self |}.
Definition set_stats (v : gmap string value) (self : t) : t :=
  {| _trade_type := _trade_type self; _entry_state := _entry_state self;
     _exit_state := _exit_state self; _timeframe := _timeframe self;
     _operations := _operations self; _user_trade := _user_trade self;
     _next_operation_id := _next_operation_id self; id := id self;
     dir := dir self; op := op self; oq := oq self; tp := tp self;
     sl := sl self; aep := aep self; axp := axp self; eot := eot self;
     xot := xot self; e := e self; x := x self; pl := pl self;
     ptp := ptp self; _stats := v |}.

Definition set_dir (v : Z) (self : t) : t :=
  {| _trade_type := _trade_type self; _entry_state := _entry_state self;
     _exit_state := _exit_state self; _timeframe := _timeframe self;
     _operations := _operations self; _user_trade := _user_trade self;
     _next_operation_id := _next_operation_id self; id := id self; dir := v;
     op := op self; oq := oq self; tp := tp self; sl := sl self;
     aep := aep self; axp := axp self; eot := eot self; xot := xot self;
     e := e self; x := x self; pl := pl self; ptp := ptp self;
     _stats := _stats self |}.
Definition set_op (v : Qc) (self : t) : t :=
  {| _trade_type := _trade_type self; _entry_state := _entry_state self;
     _exit_state := _exit_state self; _timeframe := _timeframe self;
     _operations := _operations self; _user_trade := _user_trade self;
     _next_operation_id := _next_operation_id self; id := id self;
     dir := dir self; op := v; oq := oq self; tp := tp self; sl := sl self;
     aep := aep self; axp := axp self; eot := eot self; xot := xot self;
     e := e self; x := x self; pl := pl self; ptp := ptp self;
     _stats := _stats self |}.
Definition set_oq (v : Qc) (self : t) : t :=
  {| _trade_type := _trade_type self; _entry_state := _entry_state self;
     _exit_state := _exit_state self; _timeframe := _timeframe self;
     _operations := _operations self; _user_trade := _user_trade self;
     _next_operation_id := _next_operation_id self; id := id self;
     dir := dir self; op := op self; oq := v; tp := tp self; sl := sl self;
     aep := aep self; axp := axp self; eot := eot self; xot := xot self;
     e := e self; x := x self; pl := pl self; ptp := ptp self;
     _stats := _stats self |}.

(** The [_stats] dict built by [__init__] (and the default of [loads]). *)
Definition initial_stats : gmap string value :=
  list_to_map
    [("best-price", VFloat 0); ("best-timestamp", VFloat 0);
     ("worst-price", VFloat 0); ("worst-timestamp", VFloat 0);
     ("entry-maker", VBool false); ("exit-maker", VBool false);
     ("entry-fees", VFloat 0); ("exit-fees", VFloat 0);
     ("conditions", VDict ∅)].

Definition __init__ (trade_type : Z) (timeframe : Qc) : t :=
  {| _trade_type := VInt trade_type;
     _entry_state := STATE_NEW; _exit_state := STATE_NEW;
     _timeframe := timeframe;
     _operations := []; _user_trade := Some false; _next_operation_id := 1;
     id := 0; dir := 0;
     op := 0; oq := 0;
     tp := Some 0; sl := Some 0;
     aep := 0; axp := 0;
     eot := 0; xot := 0;
     e := 0; x := 0;
     pl := 0;
     ptp := 1;
     _stats := initial_stats |}.

(** [is_active]: [False], [True], or no return statement reached ([None]). *)
Definition is_active (self : t) : option bool :=
  if decide (_exit_state self = STATE_FILLED) then Some false
  else if decide (0 < e self /\ x self < e self) then Some true
  else None.

Definition is_opened (self : t) : bool :=
  bool_decide (_entry_state self = STATE_OPENED).

Definition is_canceled (self : t) : bool :=
  if decide (_entry_state self = STATE_REJECTED) then true
  else if decide (_entry_state self = STATE_CANCELED /\ e self <= 0) then true
  else if decide (_exit_state self = STATE_CANCELED /\ x self <= 0) then true
  else false.

Definition is_closed (self : t) : bool :=
  bool_decide (_exit_state self = STATE_FILLED) && bool_decide (e self <= x self).

Definition is_entry_timeout (self : t) (timestamp timeout : Qc) : bool :=
  bool_decide (_entry_state self = STATE_OPENED)
  && bool_decide (e self = 0)
  && bool_decide (0 < eot self)
  && bool_decide (timeout <= timestamp - eot self).

Definition is_valid (self : t) (timestamp validity : Qc) : bool :=
  (bool_decide (_entry_state self = STATE_OPENED)
   || bool_decide (_entry_state self = STATE_PARTIALLY_FILLED))
  && bool_decide (e self < oq self)
  && bool_decide (timestamp - eot self <= validity).

(** [state_to_str], the display string; its ['closed'] case is the one the
    specification uses to define a closed trade. *)
Definition state_to_str (self : t) : string :=
  if decide (_entry_state self = STATE_NEW) then "new"
  else if decide (_entry_state self = STATE_OPENED) then "opened"
  else if decide (_entry_state self = STATE_REJECTED) then "rejected"
  else if decide (_exit_state self = STATE_REJECTED /\ x self < e self)
  then "problem"
  else if decide (e self < oq self
                  /\ (_entry_state self = STATE_PARTIALLY_FILLED
                      \/ _entry_state self = STATE_OPENED))
  then "filling"
  else if decide (0 < e self /\ x self < e self
                  /\ (_exit_state self = STATE_PARTIALLY_FILLED
                      \/ _exit_state self = STATE_OPENED))
  then "closing"
  else if decide ((0 < e self /\ e self <= x self)
                  \/ (_entry_state self = STATE_FILLED
                      /\ _exit_state self = STATE_FILLED))
  then "closed"
  else if decide (oq self <= e self) then "filled"
  else if decide (_entry_state self = STATE_CANCELED /\ e self <= 0)
  then "canceled"
  else "waiting".

Definition trade_type_to_str (self : t) : string :=
  if eq_int (_trade_type self) TRADE_ASSET then "asset"
  else if eq_int (_trade_type self) TRADE_MARGIN then "margin"
  else if eq_int (_trade_type self) TRADE_MARGIN then "indisible-margin"
  else "undefined".

(** *** Persistence

    The dict exchanged with the persistence layer has a fixed set of keys;
    it is a record with one optional field per key ([None]: the key is
    missing).  For the entries read with [data.get(k)] or
    [data.get(k, None)] a missing key and a [None] entry are the same [None].
    The ['type'] entry is a [value]: [dumps] writes a string there. *)
Record dump := mk_dump {
  d_version : option value;             (* 'version' *)
  d_id : option Z;                      (* 'id' *)
  d_type : option value;                (* 'type' *)
  d_entry_state : option Z;             (* 'entry-state' *)
  d_exit_state : option Z;              (* 'exit-state' *)
  d_timeframe : option Qc;              (* 'timeframe' *)
  d_user_trade : option bool;           (* 'user-trade' *)
  d_avg_entry_price : option Qc;        (* 'avg-entry-price' *)
  d_avg_exit_price : option Qc;         (* 'avg-exit-price' *)
  d_take_profit_price : option Qc;      (* 'take-profit-price' *)
  d_stop_loss_price : option Qc;        (* 'stop-loss-price' *)
  d_direction : option Z;               (* 'direction' *)
  d_entry_open_time : option Qc;        (* 'entry-open-time' *)
  d_exit_open_time : option Qc;         (* 'exit-open-time' *)
  d_order_qty : option Qc;              (* 'order-qty' *)
  d_filled_entry_qty : option Qc;       (* 'filled-entry-qty' *)
  d_filled_exit_qty : option Qc;        (* 'filled-exit-qty' *)
  d_profit_loss_rate : option Qc;       (* 'profit-loss-rate' *)
  d_statistics : option (gmap string value)   (* 'statistics' *)
}.

Definition dumps (self : t) : dump :=
  {| d_version := Some (VMethod "version");
     d_id := Some (id self);
     d_type := Some (VStr (trade_type_to_str self));
     d_entry_state := Some (_entry_state self);
     d_exit_state := Some (_exit_state self);
     d_timeframe := Some (_timeframe self);
     d_user_trade := _user_trade self;
     d_avg_entry_price := Some (aep self);
     d_avg_exit_price := Some (axp self);
     d_take_profit_price := tp self;
     d_stop_loss_price := sl self;
     d_direction := Some (dir self);
     d_entry_open_time := Some (eot self);
     d_exit_open_time := Some (xot self);
     d_order_qty := Some (oq self);
     d_filled_entry_qty := Some (e self);
     d_filled_exit_qty := Some (x self);
     d_profit_loss_rate := Some (pl self);
     d_statistics := Some (_stats self) |}.

(** Parameters of [loads] after [self]. *)
Definition loads_params : list string := ["data"].

(** [loads(self, data)]: every assignment of the body, then [return True].
    The slots [op] and [ptp] are not assigned. *)
Definition loads (self : t) (data : dump) : bool * t :=
  (true,
   {| id := default (-1)%Z (d_id data);
      _trade_type := default (VInt 0) (d_type data);
      _entry_state := default 0%Z (d_entry_state data);
      _exit_state := default 0%Z (d_exit_state data);
      _timeframe := default 0 (d_timeframe data);
      _user_trade := d_user_trade data;
      _operations := [];
      _next_operation_id := -1;
      dir := default 0%Z (d_direction data);
      oq := default 0 (d_order_qty data);
      tp := d_take_profit_price data;
      sl := d_stop_loss_price data;
      aep := default 0 (d_avg_entry_price data);
      axp := default 0 (d_avg_exit_price data);
      eot := default 0 (d_entry_open_time data);
      xot := default 0 (d_exit_open_time data);
      e := default 0 (d_filled_entry_qty data);
      x := default 0 (d_filled_exit_qty data);
      pl := default 0 (d_profit_loss_rate data);
      _stats := default initial_stats (d_statistics data);
      op := op self;
      ptp := ptp self |}).

(** *** The other methods of [StrategyTrade] *)

Definition close_direction (self : t) : Z := - dir self.

Definition can_delete (self : t) : bool :=
  if decide (_entry_state self = STATE_FILLED /\ _exit_state self = STATE_FILLED)
  then true
  else if decide (oq self <= e self /\ (e self <= x self \/ oq self <= x self))
  then true
  else if decide (0 < e self /\ x self < e self) then false
  else if decide (_entry_state self = STATE_NEW
                  \/ _entry_state self = STATE_OPENED) then false
  else if decide (0 < e self
                  /\ (_exit_state self = STATE_NEW
                      \/ _exit_state self = STATE_OPENED)) then false
  else true.

Definition is_opening (self : t) : bool :=
  bool_decide (_entry_state self = STATE_OPENED)
  || bool_decide (_entry_state self = STATE_PARTIALLY_FILLED).

Definition is_closing (self : t) : bool :=
  bool_decide (_exit_state self = STATE_OPENED)
  || bool_decide (_exit_state self = STATE_PARTIALLY_FILLED).

Definition direction_to_str (self : t) : string :=
  if decide (0 < dir self)%Z then "long"
  else if decide (dir self < 0)%Z then "short"
  else "".

Definition direction_from_str (self : t) (direction : string) : t :=
  if decide (direction = "long") then set_dir 1 self
  else if decide (direction = "short") then set_dir (-1) self
  else set_dir 0 self.

(** [trade_type_from_str(self, trade_type)] is a static method whose first
    parameter is not used. *)
Definition trade_type_from_str (trade_type : string) : Z :=
  if decide (trade_type = "asset") then TRADE_ASSET
  else if decide (trade_type = "margin") then TRADE_MARGIN
  else if decide (trade_type = "ind-margin") then TRADE_IND_MARGIN
  else TRADE_UNDEFINED.

Definition trade_state_to_str (self : t) (trade_state : Z) : string :=
  if decide (trade_state = STATE_NEW) then "new"
  else if eq_int (_trade_type self) STATE_REJECTED then "rejected"
  else if eq_int (_trade_type self) STATE_DELETED then "deleted"
  else if eq_int (_trade_type self) STATE_CANCELED then "canceled"
  else if eq_int (_trade_type self) STATE_OPENED then "opened"
  else if eq_int (_trade_type self) STATE_PARTIALLY_FILLED
  then "partially-filled"
  else if eq_int (_trade_type self) STATE_FILLED then "filled"
  else "undefined".

(** [trade_state_from_str(self, trade_state)] is a static method: [self] is
    its first positional argument, here a trade. *)
Definition trade_state_from_str (self : t) (trade_state : string) : Z :=
  if decide (trade_state = "new") then STATE_NEW
  else if eq_str (_trade_type self) "rejected" then STATE_REJECTED
  else if eq_str (_trade_type self) "deleted" then STATE_DELETED
  else if eq_str (_trade_type self) "canceled" then STATE_CANCELED
  else if eq_str (_trade_type self) "opened" then STATE_OPENED
  else if eq_str (_trade_type self) "partially-filled"
  then STATE_PARTIALLY_FILLED
  else if eq_str (_trade_type self) "filled" then STATE_FILLED
  else STATE_UNDEFINED.

(** [update_stats(self, last_price, timestamp)].  The entries of [_stats]
    are read with [self._stats[key]] and compared with the float
    [last_price]. *)
Definition update_stats (self : t) (last_price timestamp : Qc) : error + t :=
  match is_active self with
  | Some true =>
      if decide (0 < dir self)%Z then
        best <~ getitem (_stats self) "best-price" ;;
        above <~ gt_value last_price best ;;
        let stats :=
          if above
          then <["best-timestamp" := VFloat timestamp]>
                 (<["best-price" := VFloat last_price]> (_stats self))
          else _stats self in
        worst <~ getitem stats "worst-price" ;;
        below <~ lt_value last_price worst ;;
        unset <~ (if below then inr true
                  else (worst <~ getitem stats "worst-price" ;;
                        inr (negb (truthy worst)))) ;;
        let stats :=
          if unset
          then <["worst-timestamp" := VFloat timestamp]>
                 (<["worst-price" := VFloat last_price]> stats)
          else stats in
        inr (set_stats stats self)
      else if decide (dir self < 0)%Z then
        best <~ getitem (_stats self) "best-price" ;;
        below <~ lt_value last_price best ;;
        unset <~ (if below then inr true
                  else (best <~ getitem (_stats self) "best-price" ;;
                        inr (negb (truthy best)))) ;;
        let stats :=
          if unset
          then <["best-timestamp" := VFloat timestamp]>
                 (<["best-price" := VFloat last_price]> (_stats self))
          else _stats self in
        worst <~ getitem stats "worst-price" ;;
        above <~ gt_value last_price worst ;;
        let stats :=
          if above
          then <["worst-timestamp" := VFloat timestamp]>
                 (<["worst-price" := VFloat last_price]> stats)
          else stats in
        inr (set_stats stats self)
      else inr self
  | _ => inr self
  end.

Definition best_price (self : t) : error + value :=
  getitem (_stats self) "best-price".

Definition worst_price (self : t) : error + value :=
  getitem (_stats self) "worst-price".

Definition get_stats (self : t) : gmap string value := _stats self.

(** [self._stats['conditions'][name] = data]: the entry must be there and be
    a dict. *)
Definition add_condition (self : t) (name : string) (data : value) : error + t :=
  conditions <~ getitem (_stats self) "conditions" ;;
  match conditions with
  | VDict c =>
      inr (set_stats
             (<["conditions" := VDict (<[name := data]> c)]> (_stats self)) self)
  | _ => inl (Exn TypeError)
  end.

Definition get_conditions (self : t) : error + value :=
  getitem (_stats self) "conditions".

End StrategyTrade.

(** ** Events of the broker channel (notifier/signal.py is not part of the
    sources; the signals are the ones the two handlers test for).  A signal
    carries its payload: a dict with fixed keys for [OPENED] and [TRADED]
    (optional keys are optional fields), the order id for [DELETED] and
    [CANCELED]. *)

Module Signal.

Record opened_data := mk_opened {
  o_id : string;                 (* data['id'] *)
  o_timestamp : Qc;              (* data['timestamp'] *)
  o_stop_loss : option Qc;       (* data.get('stop-loss') *)
  o_take_profit : option Qc      (* data.get('take-profit') *)
}.

Record traded_data := mk_traded {
  t_id : string;                     (* data['id'] *)
  t_filled : option Qc;              (* data.get('filled') *)
  t_cumulative_filled : option Qc;   (* data.get('cumulative-filled') *)
  t_avg_price : option Qc;           (* data.get('avg-price') *)
  t_exec_price : option Qc           (* data.get('exec-price') *)
}.

Record position_data := mk_position {
  p_exec_price : option Qc           (* data.get('exec-price') *)
}.

Inductive signal :=
  | SIGNAL_ORDER_OPENED (data : opened_data)
  | SIGNAL_ORDER_DELETED (data : string)
  | SIGNAL_ORDER_CANCELED (data : string)
  | SIGNAL_ORDER_UPDATED
  | SIGNAL_ORDER_TRADED (data : traded_data)
  | SIGNAL_POSITION_DELETED (data : position_data).

End Signal.
Import Signal.

(** ** Orders and the broker (trader/order.py and the trader are external)

    An [Order] is the record of the attributes the trade reads and writes.
    The broker is an abstract state with the three operations the trade
    calls; [create_order] and [set_ref_order_id] give back the order they
    have filled in. *)

Module Order.

Inductive order_type :=
  | ORDER_MARKET | ORDER_LIMIT | ORDER_STOP | ORDER_TAKE_PROFIT_LIMIT.

Record t := mk {
  market_id : string;
  direction : Z;
  order_type_ : option order_type;
  order_price : option Qc;
  quantity : Qc;
  reduce_only : bool;
  ref_order_id : option string;
  order_id : option string;
  position_id : option string;
  created_time : option Qc
}.

End Order.

Record Trader (broker : Type) := mk_Trader {
  (* Order(trader, market_id): a new order for the market *)
  new_order : string -> Order.t;
  (* order.is_market() *)
  is_market : Order.t -> bool;
  (* trader.set_ref_order_id(order) *)
  set_ref_order_id : Order.t -> broker -> Order.t * broker;
  (* trader.create_order(order) *)
  create_order : Order.t -> broker -> bool * Order.t * broker;
  (* trader.cancel_order(order_id) *)
  cancel_order : string -> broker -> bool * broker
}.
Arguments new_order {broker}.
Arguments is_market {broker}.
Arguments set_ref_order_id {broker}.
Arguments create_order {broker}.
Arguments cancel_order {broker}.

(** ** [StrategyIndMarginTrade] (strategy/strategyindmargintrade.py) *)

Module StrategyIndMarginTrade.

Module ST := StrategyTrade.

(** [__slots__] added by the subclass. *)
Definition slots : list string :=
  ["create_ref_oid"; "stop_ref_oid"; "limit_ref_oid"; "create_oid";
   "stop_oid"; "limit_oid"; "position_id"; "stop_order_qty";
   "limit_order_qty"].

(** Both classes declare [__slots__] and the root is [object]: an instance
    has no [__dict__], and an assignment to a name outside the slots of the
    two classes raises [AttributeError]. *)
Definition has_slot (name : string) : bool :=
  bool_decide (name ∈ ST.slots ++ slots).

Record t := mk {
  super :> StrategyTrade.t;
  create_ref_oid : option string;
  stop_ref_oid : option string;
  limit_ref_oid : option string;
  create_oid : option string;
  stop_oid : option string;
  limit_oid : option string;
  position_id : option string;
  stop_order_qty : Qc;
  limit_order_qty : Qc
}.

(** Assignment to one slot of the subclass ([self.f = v]). *)
Definition set_create_ref_oid (v : option string) (self : t) : t :=
  {| super := super self; create_ref_oid := v;
     stop_ref_oid := stop_ref_oid self; limit_ref_oid := limit_ref_oid self;
     create_oid := create_oid self; stop_oid := stop_oid self;
     limit_oid := limit_oid self; position_id := position_id self;
     stop_order_qty := stop_order_qty self;
     limit_order_qty := limit_order_qty self |}.
Definition set_stop_ref_oid (v : option string) (self : t) : t :=
  {| super := super self; create_ref_oid := create_ref_oid self;
     stop_ref_oid := v; limit_ref_oid := limit_ref_oid self;
     create_oid := create_oid self; stop_oid := stop_oid self;
     limit_oid := limit_oid self; position_id := position_id self;
     stop_order_qty := stop_order_qty self;
     limit_order_qty := limit_order_qty self |}.
Definition set_limit_ref_oid (v : option string) (self : t) : t :=
  {| super := super self; create_ref_oid := create_ref_oid self;
     stop_ref_oid := stop_ref_oid self; limit_ref_oid := v;
     create_oid := create_oid self; stop_oid := stop_oid self;
     limit_oid := limit_oid self; position_id := position_id self;
     stop_order_qty := stop_order_qty self;
     limit_order_qty := limit_order_qty self |}.
Definition set_create_oid (v : option string) (self : t) : t :=
  {| super := super self; create_ref_oid := create_ref_oid self;
     stop_ref_oid := stop_ref_oid self; limit_ref_oid := limit_ref_oid self;
     create_oid := v; stop_oid := stop_oid self; limit_oid := limit_oid self;
     position_id := position_id self; stop_order_qty := stop_order_qty self;
     limit_order_qty := limit_order_qty self |}.
Definition set_stop_oid (v : option string) (self : t) : t :=
  {| super := super self; create_ref_oid := create_ref_oid self;
     stop_ref_oid := stop_ref_oid self; limit_ref_oid := limit_ref_oid self;
     create_oid := create_oid self; stop_oid := v;
     limit_oid := limit_oid self; position_id := position_id self;
     stop_order_qty := stop_order_qty self;
     limit_order_qty := limit_order_qty self |}.
Definition set_limit_oid (v : option string) (self : t) : t :=
  {| super := super self; create_ref_oid := create_ref_oid self;
     stop_ref_oid := stop_ref_oid self; limit_ref_oid := limit_ref_oid self;
     create_oid := create_oid self; stop_oid := stop_oid self;
     limit_oid := v; position_id := position_id self;
     stop_order_qty := stop_order_qty self;
     limit_order_qty := limit_order_qty self |}.
Definition set_position_id (v : option string) (self : t) : t :=
  {| super := super self; create_ref_oid := create_ref_oid self;
     stop_ref_oid := stop_ref_oid self; limit_ref_oid := limit_ref_oid self;
     create_oid := create_oid self; stop_oid := stop_oid self;
     limit_oid := limit_oid self; position_id := v;
     stop_order_qty := stop_order_qty self;
     limit_order_qty := limit_order_qty self |}.
Definition set_stop_order_qty (v : Qc) (self : t) : t :=
  {| super := super self; create_ref_oid := create_ref_oid self;
     stop_ref_oid := stop_ref_oid self; limit_ref_oid := limit_ref_oid self;
     create_oid := create_oid self; stop_oid := stop_oid self;
     limit_oid := limit_oid self; position_id := position_id self;
     stop_order_qty := v; limit_order_qty := limit_order_qty self |}.
Definition set_limit_order_qty (v : Qc) (self : t) : t :=
  {| super := super self; create_ref_oid := create_ref_oid self;
     stop_ref_oid := stop_ref_oid self; limit_ref_oid := limit_ref_oid self;
     create_oid := create_oid self; stop_oid := stop_oid self;
     limit_oid := limit_oid self; position_id := position_id self;
     stop_order_qty := stop_order_qty self; limit_order_qty := v |}.

(** Assignment to a slot inherited from [StrategyTrade]. *)
Definition upd (f : StrategyTrade.t -> StrategyTrade.t) (self : t) : t :=
  {| super := f (super self); create_ref_oid := create_ref_oid self;
     stop_ref_oid := stop_ref_oid self; limit_ref_oid := limit_ref_oid self;
     create_oid := create_oid self; stop_oid := stop_oid self;
     limit_oid := limit_oid self; position_id := position_id self;
     stop_order_qty := stop_order_qty self;
     limit_order_qty := limit_order_qty self |}.

Definition __init__ (timeframe : Qc) : t :=
  {| super := ST.__init__ ST.TRADE_IND_MARGIN timeframe;
     create_ref_oid := None; stop_ref_oid := None; limit_ref_oid := None;
     create_oid := None; stop_oid := None; limit_oid := None;
     position_id := None;
     stop_order_qty := 0; limit_order_qty := 0 |}.

(** *** Child order management *)

Section WithTrader.
Context {broker : Type} (trader : Trader broker).

(** The common head of [modify_take_profit] and [modify_stop_loss]:
    [if self.<child>_oid: if trader.cancel_order(...): <clear> else: return False].
    Gives [false] when the method returns [False] there. *)
Definition cancel_child (oid : option string) (clear : t -> t) (self : t)
    (b : broker) : bool * t * broker :=
  match oid with
  | Some o =>
      if truthy_str (Some o) then
        let '(ok, b) := cancel_order trader o b in
        if ok then (true, clear self, b) else (false, self, b)
      else (true, self, b)
  | None => (true, self, b)
  end.

Definition modify_take_profit (self : t) (market_id : string) (price : Qc)
    (b : broker) : bool * t * broker :=
  let '(go_on, self, b) :=
    cancel_child (limit_oid self)
      (fun self => set_limit_order_qty 0
                     (set_limit_oid None (set_limit_ref_oid None self)))
      self b in
  if negb go_on then (false, self, b)
  else if decide (ST.e self = ST.x self) then (true, self, b)
  else if decide (ST.e self < ST.x self) then (false, self, b)
  else if decide (0 < ST.e self) then
    let o := new_order trader market_id in
    let order :=
      {| Order.market_id := Order.market_id o;
         Order.direction := ST.dir self;
         Order.order_type_ := Some Order.ORDER_TAKE_PROFIT_LIMIT;
         Order.order_price := Some price;
         Order.quantity := ST.e self - ST.x self;
         Order.reduce_only := Order.reduce_only o;
         Order.ref_order_id := Order.ref_order_id o;
         Order.order_id := Order.order_id o;
         Order.position_id := Order.position_id o;
         Order.created_time := Order.created_time o |} in
    let '(order, b) := set_ref_order_id trader order b in
    let self := set_limit_ref_oid (Order.ref_order_id order) self in
    let self :=
      upd (ST.set_stats
             (<["exit-maker" := VBool (negb (is_market trader order))]>
                (ST._stats self))) self in
    let '(ok, order, b) := create_order trader order b in
    if ok then
      let self := set_limit_oid (Order.order_id order) self in
      let self := set_limit_order_qty (Order.quantity order) self in
      let self := upd (ST.set_tp (Some price)) self in
      (true, self, b)
    else
      let self := set_limit_ref_oid None self in
      let self := set_limit_order_qty 0 self in
      (false, self, b)
  else (false, self, b).

Definition modify_stop_loss (self : t) (market_id : string) (price : Qc)
    (b : broker) : bool * t * broker :=
  let '(go_on, self, b) :=
    cancel_child (stop_oid self)
      (fun self => set_stop_oid None (set_stop_ref_oid None self))
      self b in
  if negb go_on then (false, self, b)
  else if decide (ST.e self = ST.x self) then (true, self, b)
  else if decide (ST.e self < ST.x self) then (false, self, b)
  else if decide (0 < ST.e self) then
    let o := new_order trader market_id in
    let order :=
      {| Order.market_id := Order.market_id o;
         Order.direction := ST.dir self;
         Order.order_type_ := Some Order.ORDER_STOP;
         Order.order_price := Some price;
         Order.quantity := ST.e self - ST.x self;
         Order.reduce_only := true;
         Order.ref_order_id := Order.ref_order_id o;
         Order.order_id := Order.order_id o;
         Order.position_id := Order.position_id o;
         Order.created_time := Order.created_time o |} in
    let '(order, b) := set_ref_order_id trader order b in
    let self := set_stop_ref_oid (Order.ref_order_id order) self in
    let self :=
      upd (ST.set_stats
             (<["exit-maker" := VBool (negb (is_market trader order))]>
                (ST._stats self))) self in
    let '(ok, order, b) := create_order trader order b in
    if ok then
      let self := set_stop_oid (Order.order_id order) self in
      let self := set_stop_order_qty (Order.quantity order) self in
      let self := upd (ST.set_sl (Some price)) self in
      (true, self, b)
    else
      let self := set_stop_ref_oid None self in
      let self := set_stop_order_qty 0 self in
      (false, self, b)
  else (false, self, b).

End WithTrader.

(** *** Fill accounting *)

(** The quantity [filled] of a [TRADED] event, given the quantity [done]
    already accounted ([self.e] for the entry, [self.x] for an exit). *)
Definition fill_qty (data : traded_data) (done : Qc) : Qc :=
  match pos_of (t_cumulative_filled data) with
  | Some c => c - done
  | None =>
      match pos_of (t_filled data) with
      | Some f => f
      | None => 0
      end
  end.

(** The statement that occurs in [order_signal] and in [position_signal]:
    [[
      if self.dir > 0:
          self.pl += ((p * filled) - (self.aep * self.e)) / (self.aep * self.e)
      elif self.dir < 0:
          self.pl += ((self.aep * self.e) - (p * filled)) / (self.aep * self.e)
    ]] *)
Definition add_exec_pl (self : t) (p filled : Qc) : result t unit :=
  if decide (0 < ST.dir self)%Z then
    r <- truediv (p * filled - ST.aep self * ST.e self)
                 (ST.aep self * ST.e self) within self ;;
    Returned tt (upd (ST.set_pl (ST.pl self + r)) self)
  else if decide (ST.dir self < 0)%Z then
    r <- truediv (ST.aep self * ST.e self - p * filled)
                 (ST.aep self * ST.e self) within self ;;
    Returned tt (upd (ST.set_pl (ST.pl self + r)) self)
  else Returned tt self.

(** [SIGNAL_ORDER_TRADED] with [data['id'] == self.create_oid]. *)
Definition order_traded_entry (self : t) (data : traded_data) : result t unit :=
  let filled := fill_qty data (ST.e self) in
  aep' <- match pos_of (t_avg_price data) with
          | Some a => inr a
          | None =>
              match pos_of (t_exec_price data) with
              | Some p =>
                  truediv (ST.aep self * ST.e self + p * filled)
                          (ST.e self + filled)
              | None => inr (ST.op self)
              end
          end within self ;;
  let self := upd (ST.set_aep aep') self in
  let self :=
    match t_cumulative_filled data with
    | Some c => upd (ST.set_e c) self
    | None => upd (ST.set_e (ST.e self + filled)) self
    end in
  if decide (ST.oq self <= ST.e self) then
    let self := upd (ST.set_entry_state ST.STATE_FILLED) self in
    (* self._create_oid = None: [_create_oid] is not a slot *)
    Raised (AttributeError "_create_oid") self
  else
    Returned tt (upd (ST.set_entry_state ST.STATE_PARTIALLY_FILLED) self).

(** The price part of the exit branch: [pl] and [axp]. *)
Definition order_traded_exit_prices (self : t) (data : traded_data)
    (filled : Qc) : result t unit :=
  match pos_of (t_avg_price data) with
  | Some a =>
      do self <-
        (if decide (0 < ST.dir self)%Z then
           r <- truediv (a - ST.aep self) (ST.aep self) within self ;;
           Returned tt (upd (ST.set_pl r) self)
         else if decide (ST.dir self < 0)%Z then
           r <- truediv (ST.aep self - a) (ST.aep self) within self ;;
           Returned tt (upd (ST.set_pl r) self)
         else Returned tt self) ;;
      Returned tt (upd (ST.set_axp a) self)
  | None =>
      match pos_of (t_exec_price data) with
      | Some p =>
          do self <- add_exec_pl self p filled ;;
          r <- truediv (ST.axp self * ST.x self + p * filled)
                       (ST.x self + filled) within self ;;
          Returned tt (upd (ST.set_axp r) self)
      | None => Returned tt self
      end
  end.

(** [SIGNAL_ORDER_TRADED] with [data['id']] the limit or the stop order
    (and not the entry order). *)
Definition order_traded_exit (self : t) (data : traded_data) : result t unit :=
  let filled := fill_qty data (ST.x self) in
  do self <- order_traded_exit_prices self data filled ;;
  let self :=
    match t_cumulative_filled data with
    | Some c => upd (ST.set_x c) self
    | None => upd (ST.set_x (ST.x self + filled)) self
    end in
  if decide (ST.oq self <= ST.x self) then
    let self := upd (ST.set_exit_state ST.STATE_FILLED) self in
    if decide (Some (t_id data) = limit_oid self) then
      (* self._limit_oid = None: [_limit_oid] is not a slot *)
      Raised (AttributeError "_limit_oid") self
    else if decide (Some (t_id data) = stop_oid self) then
      (* self._stop_oid = None: [_stop_oid] is not a slot *)
      Raised (AttributeError "_stop_oid") self
    else Returned tt self
  else
    Returned tt (upd (ST.set_exit_state ST.STATE_PARTIALLY_FILLED) self).

(** [order_signal(self, signal_type, data, ref_order_id, instrument)];
    the parameter [instrument] is not used by the body and is left out. *)
Definition order_signal (self : t) (sig : signal) (ref_order_id : option string)
    : result t unit :=
  match sig with
  | SIGNAL_ORDER_OPENED data =>
      if decide (ref_order_id = create_ref_oid self) then
        let self := set_create_oid (Some (o_id data)) self in
        let self := upd (ST.set_eot (o_timestamp data)) self in
        let self :=
          if truthy_num (o_stop_loss data)
          then upd (ST.set_sl (o_stop_loss data)) self else self in
        let self :=
          if truthy_num (o_take_profit data)
          then upd (ST.set_tp (o_take_profit data)) self else self in
        Returned tt (upd (ST.set_entry_state ST.STATE_OPENED) self)
      else if decide (ref_order_id = stop_ref_oid self) then
        let self := set_stop_oid (Some (o_id data)) self in
        Returned tt (upd (ST.set_xot (o_timestamp data)) self)
      else if decide (ref_order_id = limit_ref_oid self) then
        let self := set_limit_oid (Some (o_id data)) self in
        Returned tt (upd (ST.set_xot (o_timestamp data)) self)
      else Returned tt self
  | SIGNAL_ORDER_DELETED data =>
      if decide (Some data = create_oid self) then
        let self := set_create_ref_oid None self in
        let self := set_create_oid None self in
        Returned tt (upd (ST.set_entry_state ST.STATE_DELETED) self)
      else if decide (Some data = limit_oid self) then
        Returned tt (set_limit_oid None (set_limit_ref_oid None self))
      else if decide (Some data = stop_oid self) then
        Returned tt (set_stop_oid None (set_stop_ref_oid None self))
      else Returned tt self
  | SIGNAL_ORDER_CANCELED data =>
      if decide (Some data = create_oid self) then
        let self := set_create_ref_oid None self in
        let self := set_create_oid None self in
        Returned tt (upd (ST.set_entry_state ST.STATE_CANCELED) self)
      else if decide (Some data = limit_oid self) then
        Returned tt (set_limit_oid None (set_limit_ref_oid None self))
      else if decide (Some data = stop_oid self) then
        Returned tt (set_stop_oid None (set_stop_ref_oid None self))
      else Returned tt self
  | SIGNAL_ORDER_UPDATED => Returned tt self
  | SIGNAL_ORDER_TRADED data =>
      if decide (Some (t_id data) = create_oid self) then
        order_traded_entry self data
      else if decide (Some (t_id data) = limit_oid self
                      \/ Some (t_id data) = stop_oid self) then
        order_traded_exit self data
      else Returned tt self
  | SIGNAL_POSITION_DELETED _ => Returned tt self
  end.

(** [position_signal(self, signal_type, data, ref_order_id, instrument)];
    [ref_order_id] and [instrument] are not used by the body. *)
Definition position_signal (self : t) (sig : signal) : result t unit :=
  match sig with
  | SIGNAL_POSITION_DELETED data =>
      let self := set_position_id None self in
      let self := set_create_oid None self in
      let self := set_create_ref_oid None self in
      do self <-
        (if decide (ST.x self < ST.e self) then
           let filled := ST.e self - ST.x self in
           match pos_of (p_exec_price data) with
           | Some p => add_exec_pl self p filled
           | None => Returned tt self
           end
         else Returned tt self) ;;
      Returned tt (upd (ST.set_exit_state ST.STATE_FILLED) self)
  | _ => Returned tt self
  end.

(** *** Persistence *)

Record dump := mk_dump {
  d_super :> ST.dump;                    (* data = super().dumps() *)
  d_create_ref_oid : option string;      (* 'create-ref-oid' *)
  d_stop_ref_oid : option string;        (* 'stop-ref-oid' *)
  d_limit_ref_oid : option string;       (* 'limit-ref-oid' *)
  d_create_oid : option string;          (* 'create-oid' *)
  d_stop_oid : option string;            (* 'stop-oid' *)
  d_limit_oid : option string;           (* 'limit-oid' *)
  d_position_id : option string;         (* 'position-id' *)
  d_stop_order_qty : option Qc;          (* 'stop-order-qty' *)
  d_limit_order_qty : option Qc          (* 'limit-order-qty' *)
}.

Definition dumps (self : t) : dump :=
  {| d_super := ST.dumps self;
     d_create_ref_oid := create_ref_oid self;
     d_stop_ref_oid := stop_ref_oid self;
     d_limit_ref_oid := limit_ref_oid self;
     d_create_oid := create_oid self;
     d_stop_oid := stop_oid self;
     d_limit_oid := limit_oid self;
     d_position_id := position_id self;
     d_stop_order_qty := Some (stop_order_qty self);
     d_limit_order_qty := Some (limit_order_qty self) |}.

(** [loads(self, data, strategy_service)].  Its first statement is the call
    [super().loads(data, strategy_service)], two positional arguments for
    the one parameter of [StrategyTrade.loads]. *)
Definition loads (self : t) (data : dump) (strategy_service : value)
    : result t bool :=
  r <- call_positional ST.loads_params 2 (ST.loads self data) within self ;;
  let '(ok, base) := r in
  let self := upd (fun _ => base) self in
  if negb ok then Returned false self
  else
    Returned true
      {| super := base;
         create_ref_oid := d_create_ref_oid data;
         stop_ref_oid := d_stop_ref_oid data;
         limit_ref_oid := d_limit_ref_oid data;
         create_oid := d_create_oid data;
         stop_oid := d_stop_oid data;
         limit_oid := d_limit_oid data;
         position_id := d_position_id data;
         stop_order_qty := default 0 (d_stop_order_qty data);
         limit_order_qty := default 0 (d_limit_order_qty data) |}.

(** *** The other methods of [StrategyIndMarginTrade] *)

Section MoreWithTrader.
Context {broker : Type} (trader : Trader broker).

(** The three [if self.<order>_oid: if trader.cancel_order(...): <clear>]
    statements of [remove]; a refused cancel is passed over. *)
Definition remove (self : t) (b : broker) : t * broker :=
  let '(_, self, b) :=
    cancel_child trader (create_oid self)
      (fun self => upd (ST.set_entry_state ST.STATE_CANCELED)
                     (set_create_oid None (set_create_ref_oid None self)))
      self b in
  let '(_, self, b) :=
    cancel_child trader (stop_oid self)
      (fun self => set_stop_order_qty 0
                     (set_stop_oid None (set_stop_ref_oid None self)))
      self b in
  let '(_, self, b) :=
    cancel_child trader (limit_oid self)
      (fun self => set_limit_order_qty 0
                     (set_limit_oid None (set_limit_ref_oid None self)))
      self b in
  (self, b).

Definition cancel_open (self : t) (b : broker) : bool * t * broker :=
  cancel_child trader (create_oid self)
    (fun self => upd (ST.set_entry_state ST.STATE_CANCELED)
                   (set_create_oid None (set_create_ref_oid None self)))
    self b.

(** [close(self, trader, market_id)].  The cancel of the limit order clears
    [limit_ref_oid] only, the cancel of the stop order clears [stop_ref_oid]
    and [stop_oid]; the market order is built with [Order(trader, market_id)]
    and its reference id is kept in [stop_ref_oid]. *)
Definition close (self : t) (market_id : string) (b : broker)
    : bool * t * broker :=
  let '(_, self, b) :=
    cancel_child trader (create_oid self)
      (fun self => upd (ST.set_entry_state ST.STATE_CANCELED)
                     (set_create_oid None (set_create_ref_oid None self)))
      self b in
  let '(_, self, b) :=
    cancel_child trader (stop_oid self)
      (fun self => set_stop_oid None (set_stop_ref_oid None self))
      self b in
  let '(_, self, b) :=
    cancel_child trader (limit_oid self)
      (fun self => set_limit_ref_oid None self)
      self b in
  if decide (ST.e self = ST.x self) then (true, self, b)
  else if decide (ST.e self < ST.x self) then (false, self, b)
  else
    let o := new_order trader market_id in
    let order :=
      {| Order.market_id := Order.market_id o;
         Order.direction := - ST.dir self;
         Order.order_type_ := Some Order.ORDER_MARKET;
         Order.order_price := Order.order_price o;
         Order.quantity := ST.e self - ST.x self;
         Order.reduce_only := Order.reduce_only o;
         Order.ref_order_id := Order.ref_order_id o;
         Order.order_id := Order.order_id o;
         Order.position_id := Order.position_id o;
         Order.created_time := Order.created_time o |} in
    let '(order, b) := set_ref_order_id trader order b in
    let self := set_stop_ref_oid (Order.ref_order_id order) self in
    let self :=
      upd (ST.set_stats
             (<["exit-maker" := VBool (negb (is_market trader order))]>
                (ST._stats self))) self in
    let '(ok, order, b) := create_order trader order b in
    if ok then (true, self, b)
    else (false, set_stop_ref_oid None self, b).

End MoreWithTrader.

(** [order_id and (order_id == self.create_oid or ...)]: an id that is
    [None] or empty matches nothing. *)
Definition is_target_order (self : t) (order_id ref_order_id : option string)
    : bool :=
  if truthy_str order_id
     && (bool_decide (order_id = create_oid self)
         || bool_decide (order_id = stop_oid self)
         || bool_decide (order_id = limit_oid self))
  then true
  else if truthy_str ref_order_id
          && (bool_decide (ref_order_id = create_ref_oid self)
              || bool_decide (ref_order_id = stop_ref_oid self)
              || bool_decide (ref_order_id = limit_ref_oid self))
  then true
  else false.

(** [is_target_position] has no final [return]: [True] or [None]. *)
Definition is_target_position (self : t) (position_id_ ref_order_id : option string)
    : option bool :=
  if truthy_str position_id_ && bool_decide (position_id_ = position_id self)
  then Some true
  else if truthy_str ref_order_id
          && bool_decide (ref_order_id = create_ref_oid self)
  then Some true
  else None.

(** [is_closing] of the subclass: the value of
    [(self.limit_ref_oid or self.stop_ref_oid) or <state is OPENED> or
     <state is PARTIALLY_FILLED>], a reference id or a boolean. *)
Definition is_closing (self : t) : value :=
  let ref := if truthy_str (limit_ref_oid self) then limit_ref_oid self
             else stop_ref_oid self in
  match ref with
  | Some r =>
      if truthy_str (Some r) then VStr r
      else VBool (bool_decide (ST._exit_state self = ST.STATE_OPENED)
                  || bool_decide (ST._exit_state self = ST.STATE_PARTIALLY_FILLED))
  | None =>
      VBool (bool_decide (ST._exit_state self = ST.STATE_OPENED)
             || bool_decide (ST._exit_state self = ST.STATE_PARTIALLY_FILLED))
  end.

End StrategyIndMarginTrade.

(** ** The entry filter of [CryptoAlphaStrategyTrader.process]
    (strategy/cryptoalpha/castrategytrader.py)

    Signals, timeframe indicators and the region check belong to modules
    outside the sources; [process] reads them through the attributes below. *)

Module StrategySignal.

Record t := mk {
  timeframe : Qc;
  dir : Z;
  price : Qc;
  sl : option Qc;
  tp : option Qc
}.

Definition set_sl (v : option Qc) (entry : t) : t :=
  {| timeframe := timeframe entry; dir := dir entry; price := price entry;
     sl := v; tp := tp entry |}.

End StrategySignal.

Module CryptoAlphaStrategyTrader.

Module SS := StrategySignal.

(** What the filter reads from the trader during one call of [process], for
    a trader whose timeframe table holds the parent and the take-profit
    timeframes: the subscriptions [self.timeframes[...]] are taken to
    succeed, and the indicators to return numbers. *)
Record t := mk {
  min_traded_timeframe : Qc;
  max_traded_timeframe : Qc;
  (* self.parent_timeframe(tf) *)
  parent_timeframe : Qc -> Qc;
  (* self.check_regions(entry, self.region_allow) *)
  check_regions : SS.t -> bool;
  (* self.timeframes[tf].atr.stop_loss(dir) *)
  atr_stop_loss : Qc -> Z -> Qc;
  (* self.timeframes[REF_TIMEFRAME].price.last *)
  last_price : Qc;
  (* self.timeframes[TP_TIMEFRAME].pivotpoint.last_resistances *)
  last_resistances : list Qc
}.

(** One iteration of [for entry in entries:].  [inr None] is [continue],
    [inr (Some entry)] is [retained_entries.append(entry)] with the entry as
    the body has left it; the third component is the local [tp]. *)
Definition filter_entry (self : t) (entry : SS.t)
    : exn + option (SS.t * option Qc) :=
  let parent_entry_tf := parent_timeframe self (SS.timeframe entry) in
  if negb (bool_decide (min_traded_timeframe self <= SS.timeframe entry)
           && bool_decide (SS.timeframe entry <= max_traded_timeframe self))
  then inr None
  else if negb (check_regions self entry) then inr None
  else
    let entry :=
      if negb (truthy_num (SS.sl entry)) then
        let sl := atr_stop_loss self parent_entry_tf (SS.dir entry) in
        if decide (sl < last_price self) then SS.set_sl (Some sl) entry
        else entry
      else entry in
    (* defines a target *)
    if negb (truthy_num (SS.tp entry)) then
      if decide (0 < length (last_resistances self))%nat then
        match index (last_resistances self) 2 with
        | inl ex => inl ex
        | inr tp => inr (Some (entry, Some tp))
        end
      else inr (Some (entry, None))
    else inr (Some (entry, None)).

(** The loop: [retained_entries]. *)
Fixpoint retain_entries (self : t) (entries : list SS.t) : exn + list SS.t :=
  match entries with
  | [] => inr []
  | entry :: entries =>
      match filter_entry self entry with
      | inl ex => inl ex
      | inr kept =>
          match retain_entries self entries with
          | inl ex => inl ex
          | inr retained =>
              inr (match kept with
                   | Some (entry, _) => entry :: retained
                   | None => retained
                   end)
          end
      end
  end.

(** The arguments of one call
    [self.process_entry(timestamp, signal_price, entry.tp, entry.sl, entry.timeframe)]. *)
Record process_entry_call := mk_call {
  c_price : Qc;
  c_take_profit : option Qc;
  c_stop_loss : option Qc;
  c_timeframe : Qc
}.

(** [for entry in retained_entries:] at the end of [process]
    ([height = 0], [signal_price = entry.price + height]). *)
Definition submit_entry (entry : SS.t) : process_entry_call :=
  let height := 0 in
  let signal_price := SS.price entry + height in
  {| c_price := signal_price; c_take_profit := SS.tp entry;
     c_stop_loss := SS.sl entry; c_timeframe := SS.timeframe entry |}.

(** The calls of [process_entry] made by [process] for the candidate
    [entries], when the sections between the filter and the submission
    complete. *)
Definition submitted_entries (self : t) (entries : list SS.t)
    : exn + list process_entry_call :=
  match retain_entries self entries with
  | inl ex => inl ex
  | inr retained => inr (map submit_entry retained)
  end.

(** *** The market filter ([filter_market]) *)

(** What [filter_market] reads of a market ([trader.market(...)]): its
    trade kind with the constant it is compared to, price and volume. *)
Record market := mk_market {
  m_trade : Z;                   (* market.trade *)
  m_TRADE_BUY_SELL : Z;          (* market.TRADE_BUY_SELL *)
  m_price : option Qc;           (* market.price *)
  m_vol24h_quote : option Qc     (* market.vol24h_quote *)
}.

(** What [filter_market] reads of the trader: the broker's market
    ([None]: [self.strategy.trader()] is missing, [Some None]: the
    market is), whether a trade is held, and the two thresholds. *)
Record filter_view := mk_filter_view {
  f_market : option (option market);
  f_has_trades : bool;           (* bool(self.trades) *)
  f_min_price : Qc;
  f_min_vol24h : Qc
}.

(** [self._last_filter_cache], set to [(0, False, False)] by [__init__]. *)
Definition filter_cache : Type := Qc * bool * bool.

Definition initial_filter_cache : filter_cache := (0, false, false).

(** [filter_market(self, timestamp)]: the pair returned and the cache
    afterwards. *)
Definition filter_market (cache : filter_cache) (view : filter_view)
    (timestamp : Qc) : (bool * bool) * filter_cache :=
  let '(cached_at, accept, compute) := cache in
  if decide (timestamp - cached_at < Qc_of_Z (60 * 60)) then
    ((accept, compute), cache)
  else
    match f_market view with
    | None => ((false, false), (timestamp, false, false))
    | Some None => ((false, false), (timestamp, false, false))
    | Some (Some market) =>
        if decide (m_trade market <> m_TRADE_BUY_SELL market) then
          ((false, false), (timestamp, false, false))
        else if negb (f_has_trades view)
                && match m_price market with
                   | Some price => bool_decide (price < f_min_price view)
                   | None => false
                   end
        then ((true, false), (timestamp, true, false))
        else if negb (f_has_trades view)
                && match m_vol24h_quote market with
                   | Some vol => bool_decide (vol < f_min_vol24h view)
                   | None => false
                   end
        then ((true, false), (timestamp, true, false))
        else ((true, true), (timestamp, true, true))
    end.

(** *** The stop-loss update in the exit section of [process] *)

(** [a > b] where either side may be [None]. *)
Definition gt_opts (a b : option Qc) : exn + bool :=
  match a, b with
  | Some a, Some b => inr (bool_decide (b < a))
  | _, _ => inl TypeError
  end.

(** The stop-loss update:
    [[
      stop_loss = trade.sl
      sl = self.timeframes[trade_parent_tf].atr.stop_loss(trade.direction)
      if (not trade.sl or last_price > trade.entry_price) and sl > stop_loss:
          stop_loss = sl
      if stop_loss > trade.sl:
          trade.sl = stop_loss
    ]] *)
Definition update_stop_loss (self : t) (trade : StrategyTrade.t)
    : exn + StrategyTrade.t :=
  let stop_loss := StrategyTrade.sl trade in
  let trade_parent_tf := parent_timeframe self (StrategyTrade._timeframe trade) in
  let sl := atr_stop_loss self trade_parent_tf (StrategyTrade.dir trade) in
  follow <~ (if negb (truthy_num (StrategyTrade.sl trade))
                || bool_decide (StrategyTrade.aep trade < last_price self)
             then gt_opt sl stop_loss
             else inr false) ;;
  let stop_loss := if follow then Some sl else stop_loss in
  higher <~ gt_opts stop_loss (StrategyTrade.sl trade) ;;
  inr (if higher then StrategyTrade.set_sl stop_loss trade else trade).

(** *** The decision of [process_entry] *)

(** The value of [do_order] when the order is executed or not: [activity],
    then the cancelations of the signal.  [order_quantity] and [price] are
    the quantity and the price (signal price plus spread) computed before,
    [direction] is [Order.LONG]. *)
Definition entry_do_order (activity : bool) (max_trades : Z)
    (min_notional : Qc) (trades : list StrategyTrade.t)
    (order_quantity price : Qc) (direction : Z) (timestamp timeframe : Qc)
    : bool :=
  let do_order := activity in
  let do_order :=
    if decide (order_quantity <= 0 \/ order_quantity * price < min_notional)
    then false else do_order in
  match trades with
  | [] => do_order
  | _ =>
      let do_order :=
        if decide (max_trades <= Z.of_nat (length trades))%Z
        then false else do_order in
      let do_order :=
        fold_left
          (fun do_order trade =>
             if decide (StrategyTrade._timeframe trade = timeframe)
             then false else do_order)
          trades do_order in
      match list.last trades with
      | Some trade =>
          if decide (StrategyTrade.dir trade = direction
                     /\ timestamp - StrategyTrade.eot trade < timeframe)
          then false else do_order
      | None => do_order
      end
  end.

End CryptoAlphaStrategyTrader.

(** ** The fill accounting in binary64

    Python's [float] is an IEEE 754 binary64 number, and so are the
    quantities and prices of a trade and of the events of a broker.  This
    module embeds the [SIGNAL_ORDER_TRADED] branch of
    [StrategyIndMarginTrade.order_signal] once more, statement by statement
    as above, with the numbers as the kernel's binary64 floats: addition,
    subtraction, multiplication and division round to nearest, ties to even,
    as Python's do, and a division by [0.0] or [-0.0] raises
    [ZeroDivisionError]. *)

Module Float64.

Import PrimFloat.
Local Open Scope float_scope.

(** [a / b] on floats. *)
Definition truediv (a b : float) : exn + float :=
  if b =? 0 then inl ZeroDivisionError else inr (a / b).

(** The number [v] when [v is not None and v > 0]. *)
Definition pos_of (v : option float) : option float :=
  match v with
  | Some q => if 0 <? q then Some q else None
  | None => None
  end.

(** The payload of [SIGNAL_ORDER_TRADED]. *)
Record traded_data := mk_traded {
  t_id : string;                       (* data['id'] *)
  t_filled : option float;             (* data.get('filled') *)
  t_cumulative_filled : option float;  (* data.get('cumulative-filled') *)
  t_avg_price : option float;          (* data.get('avg-price') *)
  t_exec_price : option float          (* data.get('exec-price') *)
}.

(** The slots of a [StrategyIndMarginTrade] that the branch reads or
    writes. *)
Record t := mk {
  create_oid : option string;
  stop_oid : option string;
  limit_oid : option string;
  dir : Z;
  op : float;
  oq : float;
  aep : float;
  axp : float;
  e : float;
  x : float;
  pl : float;
  _entry_state : Z;
  _exit_state : Z
}.

Definition set_aep (v : float) (self : t) : t :=
  {| create_oid := create_oid self; stop_oid := stop_oid self;
     limit_oid := limit_oid self; dir := dir self; op := op self;
     oq := oq self; aep := v; axp := axp self; e := e self; x := x self;
     pl := pl self; _entry_state := _entry_state self;
     _exit_state := _exit_state self |}.

Definition set_axp (v : float) (self : t) : t :=
  {| create_oid := create_oid self; stop_oid := stop_oid self;
     limit_oid := limit_oid self; dir := dir self; op := op self;
     oq := oq self; aep := aep self; axp := v; e := e self; x := x self;
     pl := pl self; _entry_state := _entry_state self;
     _exit_state := _exit_state self |}.

Definition set_e (v : float) (self : t) : t :=
  {| create_oid := create_oid self; stop_oid := stop_oid self;
     limit_oid := limit_oid self; dir := dir self; op := op self;
     oq := oq self; aep := aep self; axp := axp self; e := v; x := x self;
     pl := pl self; _entry_state := _entry_state self;
     _exit_state := _exit_state self |}.

Definition set_x (v : float) (self : t) : t :=
  {| create_oid := create_oid self; stop_oid := stop_oid self;
     limit_oid := limit_oid self; dir := dir self; op := op self;
     oq := oq self; aep := aep self; axp := axp self; e := e self; x := v;
     pl := pl self; _entry_state := _entry_state self;
     _exit_state := _exit_state self |}.

Definition set_pl (v : float) (self : t) : t :=
  {| create_oid := create_oid self; stop_oid := stop_oid self;
     limit_oid := limit_oid self; dir := dir self; op := op self;
     oq := oq self; aep := aep self; axp := axp self; e := e self; x := x self;
     pl := v; _entry_state := _entry_state self;
     _exit_state := _exit_state self |}.

Definition set_entry_state (v : Z) (self : t) : t :=
  {| create_oid := create_oid self; stop_oid := stop_oid self;
     limit_oid := limit_oid self; dir := dir self; op := op self;
     oq := oq self; aep := aep self; axp := axp self; e := e self; x := x self;
     pl := pl self; _entry_state := v; _exit_state := _exit_state self |}.

Definition set_exit_state (v : Z) (self : t) : t :=
  {| create_oid := create_oid self; stop_oid := stop_oid self;
     limit_oid := limit_oid self; dir := dir self; op := op self;
     oq := oq self; aep := aep self; axp := axp self; e := e self; x := x self;
     pl := pl self; _entry_state := _entry_state self; _exit_state := v |}.

(** [[
      if data.get('cumulative-filled') is not None and data['cumulative-filled'] > 0:
          filled = data['cumulative-filled'] - done
      elif data.get('filled') is not None and data['filled'] > 0:
          filled = data['filled']
      else:
          filled = 0
    ]] with [done] the slot [e] or [x]. *)
Definition fill_qty (data : traded_data) (done : float) : float :=
  match pos_of (t_cumulative_filled data) with
  | Some c => c - done
  | None =>
      match pos_of (t_filled data) with
      | Some f => f
      | None => 0
      end
  end.

(** [[
      if self.dir > 0:
          self.pl += ((p * filled) - (self.aep * self.e)) / (self.aep * self.e)
      elif self.dir < 0:
          self.pl += ((self.aep * self.e) - (p * filled)) / (self.aep * self.e)
    ]] *)
Definition add_exec_pl (self : t) (p filled : float) : result t unit :=
  if decide (0 < dir self)%Z then
    r <- truediv (p * filled - aep self * e self) (aep self * e self)
      within self ;;
    Returned tt (set_pl (pl self + r) self)
  else if decide (dir self < 0)%Z then
    r <- truediv (aep self * e self - p * filled) (aep self * e self)
      within self ;;
    Returned tt (set_pl (pl self + r) self)
  else Returned tt self.

(** [SIGNAL_ORDER_TRADED] with [data['id'] == self.create_oid]. *)
Definition order_traded_entry (self : t) (data : traded_data) : result t unit :=
  let filled := fill_qty data (e self) in
  aep' <- match pos_of (t_avg_price data) with
          | Some a => inr a
          | None =>
              match pos_of (t_exec_price data) with
              | Some p =>
                  truediv (aep self * e self + p * filled) (e self + filled)
              | None => inr (op self)
              end
          end within self ;;
  let self := set_aep aep' self in
  let self :=
    match t_cumulative_filled data with
    | Some c => set_e c self
    | None => set_e (e self + filled) self
    end in
  if oq self <=? e self then
    let self := set_entry_state StrategyTrade.STATE_FILLED self in
    (* self._create_oid = None: [_create_oid] is not a slot *)
    Raised (AttributeError "_create_oid") self
  else
    Returned tt (set_entry_state StrategyTrade.STATE_PARTIALLY_FILLED self).

(** The price part of the exit branch: [pl] and [axp]. *)
Definition order_traded_exit_prices (self : t) (data : traded_data)
    (filled : float) : result t unit :=
  match pos_of (t_avg_price data) with
  | Some a =>
      do self <-
        (if decide (0 < dir self)%Z then
           r <- truediv (a - aep self) (aep self) within self ;;
           Returned tt (set_pl r self)
         else if decide (dir self < 0)%Z then
           r <- truediv (aep self - a) (aep self) within self ;;
           Returned tt (set_pl r self)
         else Returned tt self) ;;
      Returned tt (set_axp a self)
  | None =>
      match pos_of (t_exec_price data) with
      | Some p =>
          do self <- add_exec_pl self p filled ;;
          r <- truediv (axp self * x self + p * filled) (x self + filled)
            within self ;;
          Returned tt (set_axp r self)
      | None => Returned tt self
      end
  end.

(** [SIGNAL_ORDER_TRADED] with [data['id']] the limit or the stop order
    (and not the entry order). *)
Definition order_traded_exit (self : t) (data : traded_data) : result t unit :=
  let filled := fill_qty data (x self) in
  do self <- order_traded_exit_prices self data filled ;;
  let self :=
    match t_cumulative_filled data with
    | Some c => set_x c self
    | None => set_x (x self + filled) self
    end in
  if oq self <=? x self then
    let self := set_exit_state StrategyTrade.STATE_FILLED self in
    if decide (Some (t_id data) = limit_oid self) then
      (* self._limit_oid = None: [_limit_oid] is not a slot *)
      Raised (AttributeError "_limit_oid") self
    else if decide (Some (t_id data) = stop_oid self) then
      (* self._stop_oid = None: [_stop_oid] is not a slot *)
      Raised (AttributeError "_stop_oid") self
    else Returned tt self
  else
    Returned tt (set_exit_state StrategyTrade.STATE_PARTIALLY_FILLED self).

(** [order_signal(self, Signal.SIGNAL_ORDER_TRADED, data, ref_order_id,
    instrument)]; the branch uses neither [ref_order_id] nor [instrument]. *)
Definition order_signal_traded (self : t) (data : traded_data)
    : result t unit :=
  if decide (Some (t_id data) = create_oid self) then
    order_traded_entry self data
  else if decide (Some (t_id data) = limit_oid self
                  \/ Some (t_id data) = stop_oid self) then
    order_traded_exit self data
  else Returned tt self.

(** The exact value of a finite float. *)
Definition exact (f : float) : option Q :=
  match FloatOps.Prim2SF f with
  | SpecFloat.S754_zero _ => Some 0%Q
  | SpecFloat.S754_finite s m ex =>
      Some ((if s then -1 else 1) * inject_Z (Z.pos m) * (2 ^ ex))%Q
  | _ => None
  end.

End Float64.

(** * Notions of the specification and sample inputs *)

Module ST := StrategyTrade.
Module IM := StrategyIndMarginTrade.
Module CA := CryptoAlphaStrategyTrader.

(** A subclass instance read as an instance of its base class. *)
Coercion IM.super : IM.t >-> ST.t.

(** Integer literals as numbers. *)
Definition num (z : Z) : Qc := Qc_of_Z z.

(** A closed trade in the words of the specification's data model. *)
Definition spec_closed (self : ST.t) : Prop :=
  (ST._entry_state self = ST.STATE_FILLED /\ ST._exit_state self = ST.STATE_FILLED)
  \/ (0 < ST.e self /\ ST.e self <= ST.x self).

(** An entry timeout in the words of the specification's trade policies. *)
Definition spec_entry_timeout (self : ST.t) (timestamp timeout : Qc) : Prop :=
  ST._entry_state self = ST.STATE_OPENED /\ ST.e self = 0
  /\ timeout <= timestamp - ST.eot self.

(** Entry and exit marked filled with 2 of 5 units sold (the state a deleted
    position leaves behind). *)
Definition trade_filled_states_open_qty : ST.t :=
  ST.set_exit_state ST.STATE_FILLED
    (ST.set_entry_state ST.STATE_FILLED
       (ST.set_x (num 2) (ST.set_e (num 5)
          (ST.__init__ ST.TRADE_IND_MARGIN (num 60))))).

(** An opened entry order whose open time was never recorded ([eot = 0]). *)
Definition trade_opened_no_eot : ST.t :=
  ST.set_entry_state ST.STATE_OPENED (ST.__init__ ST.TRADE_IND_MARGIN (num 60)).

(** The fields [dumps] writes and [loads] reads back, the trade type apart. *)
Definition same_persisted_fields (a b : ST.t) : Prop :=
  ST.id a = ST.id b
  /\ ST._entry_state a = ST._entry_state b
  /\ ST._exit_state a = ST._exit_state b
  /\ ST._timeframe a = ST._timeframe b
  /\ ST._user_trade a = ST._user_trade b
  /\ ST.dir a = ST.dir b
  /\ ST.oq a = ST.oq b
  /\ ST.tp a = ST.tp b /\ ST.sl a = ST.sl b
  /\ ST.aep a = ST.aep b /\ ST.axp a = ST.axp b
  /\ ST.eot a = ST.eot b /\ ST.xot a = ST.xot b
  /\ ST.e a = ST.e b /\ ST.x a = ST.x b
  /\ ST.pl a = ST.pl b
  /\ ST._stats a = ST._stats b.

(** A broker that refuses every request. *)
Definition refusing_trader : Trader unit :=
  {| new_order := fun market_id =>
       {| Order.market_id := market_id; Order.direction := 0;
          Order.order_type_ := None; Order.order_price := None;
          Order.quantity := 0; Order.reduce_only := false;
          Order.ref_order_id := None; Order.order_id := None;
          Order.position_id := None; Order.created_time := None |};
     is_market := fun _ => false;
     set_ref_order_id := fun order b => (order, b);
     create_order := fun order b => (false, order, b);
     cancel_order := fun _ b => (false, b) |}.

(** A long trade of 5 units filled at 100, with a limit child ["L1"] at 110 and
    a stop child ["S1"] at 90, both for the 5 units. *)
Definition trade_with_children : IM.t :=
  IM.set_limit_order_qty (num 5) (IM.set_stop_order_qty (num 5)
    (IM.set_limit_oid (Some "L1") (IM.set_limit_ref_oid (Some "rL1")
      (IM.set_stop_oid (Some "S1") (IM.set_stop_ref_oid (Some "rS1")
        (IM.upd (fun b =>
                   ST.set_tp (Some (num 110)) (ST.set_sl (Some (num 90))
                     (ST.set_entry_state ST.STATE_FILLED
                        (ST.set_aep (num 100) (ST.set_e (num 5)
                           (ST.set_oq (num 5) (ST.set_op (num 100)
                              (ST.set_dir 1 b))))))))
           (IM.__init__ (num 60)))))))).

(** A trader whose take-profit timeframe shows the resistances 110, 120, 130
    and that accepts every timeframe from 1 to 86400. *)
Definition trader_three_resistances : CA.t :=
  {| CA.min_traded_timeframe := num 1;
     CA.max_traded_timeframe := num 86400;
     CA.parent_timeframe := fun tf => tf * num 4;
     CA.check_regions := fun _ => true;
     CA.atr_stop_loss := fun _ _ => num 95;
     CA.last_price := num 100;
     CA.last_resistances := [num 110; num 120; num 130] |}.

(** A long entry signal at 100 on the 15 minutes timeframe, with a stop and
    without a take-profit. *)
Definition entry_without_target : StrategySignal.t :=
  {| StrategySignal.timeframe := num 900; StrategySignal.dir := 1;
     StrategySignal.price := num 100;
     StrategySignal.sl := Some (num 95); StrategySignal.tp := None |}.

(** A long trade of 5 units bought at 100 of which 2 are sold, with its
    position ["P1"] (scenario 4 of the specification). *)
Definition long_5_bought_2_sold : IM.t :=
  IM.set_position_id (Some "P1")
    (IM.upd (fun b =>
               ST.set_exit_state ST.STATE_PARTIALLY_FILLED
                 (ST.set_entry_state ST.STATE_FILLED
                    (ST.set_x (num 2) (ST.set_e (num 5) (ST.set_aep (num 100)
                       (ST.set_oq (num 5) (ST.set_op (num 100)
                          (ST.set_dir 1 b))))))))
       (IM.__init__ (num 60))).

(** A long trade of 10 units at 100 whose entry order ["E1"] is opened and
    not yet filled. *)
Definition opened_entry_10 : IM.t :=
  IM.set_create_oid (Some "E1") (IM.set_create_ref_oid (Some "rE1")
    (IM.upd (fun b =>
               ST.set_entry_state ST.STATE_OPENED
                 (ST.set_eot (num 1000)
                    (ST.set_oq (num 10) (ST.set_op (num 100) (ST.set_dir 1 b)))))
       (IM.__init__ (num 60)))).

(** [TRADED {id: 'E1', cumulative-filled: 10, avg-price: 100}]. *)
Definition entry_filled_event : traded_data :=
  {| t_id := "E1"; t_filled := None; t_cumulative_filled := Some (num 10);
     t_avg_price := Some (num 100); t_exec_price := None |}.

(** [TRADED {id: 'L1', cumulative-filled: 5, avg-price: 110}]. *)
Definition limit_filled_event : traded_data :=
  {| t_id := "L1"; t_filled := None; t_cumulative_filled := Some (num 5);
     t_avg_price := Some (num 110); t_exec_price := None |}.

(** [TRADED {id: 'E1', exec-price: 100}]: a price and no quantity. *)
Definition exec_only_event : traded_data :=
  {| t_id := "E1"; t_filled := None; t_cumulative_filled := None;
     t_avg_price := None; t_exec_price := Some (num 100) |}.

(** The average entry price [order_signal] assigns on an entry fill that
    brings the cumulative filled quantity to [c > 0]. *)
Definition entry_price_after (self : IM.t) (data : traded_data) (c : Qc) : Qc :=
  match pos_of (t_avg_price data) with
  | Some a => a
  | None =>
      match pos_of (t_exec_price data) with
      | Some p => (ST.aep self * ST.e self + p * (c - ST.e self)) / c
      | None => ST.op self
      end
  end.

(** The condition under which the price part of the exit branch divides by
    zero on an event with a positive cumulative quantity. *)
Definition exit_prices_fail (self : IM.t) (data : traded_data) : Prop :=
  match pos_of (t_avg_price data) with
  | Some _ => ST.dir self <> 0%Z /\ ST.aep self = 0
  | None =>
      match pos_of (t_exec_price data) with
      | Some _ => ST.dir self <> 0%Z /\ ST.aep self * ST.e self = 0
      | None => False
      end
  end.


(** The cumulative filled quantity and the exec-price an event carries
    (0 when the key is missing). *)
Definition cum_of (d : traded_data) : Qc := default 0 (t_cumulative_filled d).
Definition price_of (d : traded_data) : Qc := default 0 (t_exec_price d).

(** A [TRADED] event on the order [oid] that carries a cumulative filled
    quantity and a positive exec-price, and no avg-price. *)
Definition exec_fill_on (oid : string) (d : traded_data) : Prop :=
  t_id d = oid /\ t_avg_price d = None
  /\ is_Some (t_cumulative_filled d)
  /\ exists p, t_exec_price d = Some p /\ 0 < p.

(** The cumulative quantities increase strictly, starting above [prev]. *)
Fixpoint increasing_from (prev : Qc) (evs : list traded_data) : Prop :=
  match evs with
  | [] => True
  | d :: evs => prev < cum_of d /\ increasing_from (cum_of d) evs
  end.

(** Sum of the exec prices, each weighted by its step's increment of the
    cumulative quantity. *)
Fixpoint notional_from (prev : Qc) (evs : list traded_data) : Qc :=
  match evs with
  | [] => 0
  | d :: evs => price_of d * (cum_of d - prev) + notional_from (cum_of d) evs
  end.

(** Sum of the increments. *)
Fixpoint volume_from (prev : Qc) (evs : list traded_data) : Qc :=
  match evs with
  | [] => 0
  | d :: evs => (cum_of d - prev) + volume_from (cum_of d) evs
  end.

(** The quantity-weighted average of the per-step exec prices. *)
Definition weighted_average_price (evs : list traded_data) : Qc :=
  notional_from 0 evs / volume_from 0 evs.

(** The events applied in order to the trade.  The trade object outlives a
    call that raises: the next event finds the state the call left. *)
Definition apply_traded (self : IM.t) (ref_order_id : option string)
    (evs : list traded_data) : IM.t :=
  fold_left
    (fun s d => state_of (IM.order_signal s (SIGNAL_ORDER_TRADED d) ref_order_id))
    evs self.

(** The last cumulative quantity of the events ([prev] when there is none). *)
Fixpoint last_cum (prev : Qc) (evs : list traded_data) : Qc :=
  match evs with
  | [] => prev
  | d :: evs => last_cum (cum_of d) evs
  end.


(** [TRADED {id: 'E1', cumulative-filled: 4, exec-price: 100}] and
    [TRADED {id: 'E1', cumulative-filled: 10, exec-price: 103}]. *)
Definition first_partial_fill : traded_data :=
  {| t_id := "E1"; t_filled := None; t_cumulative_filled := Some (num 4);
     t_avg_price := None; t_exec_price := Some (num 100) |}.

Definition second_fill : traded_data :=
  {| t_id := "E1"; t_filled := Some (num 6);
     t_cumulative_filled := Some (num 10);
     t_avg_price := None; t_exec_price := Some (num 103) |}.

(** * Notions and sample inputs for the further properties *)

(** The slots that hold filled quantities, average prices, the ordered
    quantity, the direction and the profit-loss rate. *)
Definition same_accounting (a b : ST.t) : Prop :=
  ST.e a = ST.e b /\ ST.x a = ST.x b /\ ST.aep a = ST.aep b
  /\ ST.axp a = ST.axp b /\ ST.pl a = ST.pl b /\ ST.oq a = ST.oq b
  /\ ST.dir a = ST.dir b.

(** Two traders that answer cancel requests alike. *)
Definition same_cancels {broker} (t1 t2 : Trader broker) : Prop :=
  forall o b, cancel_order t1 o b = cancel_order t2 o b.

(** The requests a broker receives. *)
Inductive broker_call :=
  | Cancel (oid : string)
  | Create (order : Order.t).

Definition is_cancel (c : broker_call) : Prop :=
  match c with Cancel _ => True | Create _ => False end.

(** A broker that records the requests it receives, in order, and answers
    each of them with [accept]; it gives every order the reference ["ref"]. *)
Definition recording_trader (accept : bool) : Trader (list broker_call) :=
  {| new_order := fun market_id =>
       {| Order.market_id := market_id; Order.direction := 0;
          Order.order_type_ := None; Order.order_price := None;
          Order.quantity := 0; Order.reduce_only := false;
          Order.ref_order_id := None; Order.order_id := None;
          Order.position_id := None; Order.created_time := None |};
     is_market := fun order =>
       match Order.order_type_ order with
       | Some Order.ORDER_MARKET => true
       | _ => false
       end;
     set_ref_order_id := fun order log =>
       ({| Order.market_id := Order.market_id order;
           Order.direction := Order.direction order;
           Order.order_type_ := Order.order_type_ order;
           Order.order_price := Order.order_price order;
           Order.quantity := Order.quantity order;
           Order.reduce_only := Order.reduce_only order;
           Order.ref_order_id := Some "ref";
           Order.order_id := Order.order_id order;
           Order.position_id := Order.position_id order;
           Order.created_time := Order.created_time order |}, log);
     create_order := fun order log => (accept, order, log ++ [Create order]);
     cancel_order := fun oid log => (accept, log ++ [Cancel oid]) |}.

(** A broker that records and accepts cancel requests, and refuses to create
    an order. *)
Definition cancel_only_trader : Trader (list broker_call) :=
  {| new_order := new_order (recording_trader true);
     is_market := is_market (recording_trader true);
     set_ref_order_id := set_ref_order_id (recording_trader true);
     create_order := fun order log => (false, order, log);
     cancel_order := cancel_order (recording_trader true) |}.

(** A broker that records the requests it receives and accepts them all; it
    gives every order the reference ["ref"] and, when it creates an order,
    leaves it as [adjust] makes it (an order id, a rounded quantity). *)
Definition adjusting_trader (adjust : Order.t -> Order.t)
    : Trader (list broker_call) :=
  {| new_order := new_order (recording_trader true);
     is_market := is_market (recording_trader true);
     set_ref_order_id := set_ref_order_id (recording_trader true);
     create_order := fun order log =>
       (true, adjust order, log ++ [Create order]);
     cancel_order := cancel_order (recording_trader true) |}.

(** The broker gives the order the id ["L2"] and halves its quantity. *)
Definition halve_quantity (order : Order.t) : Order.t :=
  {| Order.market_id := Order.market_id order;
     Order.direction := Order.direction order;
     Order.order_type_ := Order.order_type_ order;
     Order.order_price := Order.order_price order;
     Order.quantity := Order.quantity order / num 2;
     Order.reduce_only := Order.reduce_only order;
     Order.ref_order_id := Order.ref_order_id order;
     Order.order_id := Some "L2";
     Order.position_id := Order.position_id order;
     Order.created_time := Order.created_time order |}.

(** The [TRADED] signals. *)
Definition is_traded (sig : signal) : Prop :=
  match sig with SIGNAL_ORDER_TRADED _ => True | _ => False end.

(** The best and the worst price of the statistics bracket [last_price]:
    the best price is the highest of a long trade and the lowest of a short
    one. *)
Definition stats_bracket (direction : Z) (stats : gmap string value)
    (last_price : Qc) : Prop :=
  exists best worst : Qc,
    (stats !! "best-price" ≫= as_number) = Some best
    /\ (stats !! "worst-price" ≫= as_number) = Some worst
    /\ ((0 < direction)%Z -> worst <= last_price /\ last_price <= best)
    /\ ((direction < 0)%Z -> best <= last_price /\ last_price <= worst).

(** The two entries a price update writes. *)
Definition record_price (key tkey : string) (last_price timestamp : Qc)
    (stats : gmap string value) : gmap string value :=
  <[tkey := VFloat timestamp]> (<[key := VFloat last_price]> stats).

(** The calls [filter_market(timestamp)] of a run, each with the view of the
    trader at that time, and the pairs they return. *)
Fixpoint run_filter (cache : CA.filter_cache)
    (calls : list (CA.filter_view * Qc)) : list (bool * bool) :=
  match calls with
  | [] => []
  | (view, timestamp) :: calls =>
      let '(answer, cache) := CA.filter_market cache view timestamp in
      answer :: run_filter cache calls
  end.

(** Computing implies accepting. *)
Definition sound_answer (answer : bool * bool) : Prop :=
  snd answer = true -> fst answer = true.

(** An entry the filter of [process] accepts and that has no take-profit. *)
Definition accepted_without_target (self : CA.t) (entry : StrategySignal.t)
    : Prop :=
  CA.min_traded_timeframe self <= StrategySignal.timeframe entry
  /\ StrategySignal.timeframe entry <= CA.max_traded_timeframe self
  /\ CA.check_regions self entry = true
  /\ truthy_num (StrategySignal.tp entry) = false.

(** What the filter may have done to a candidate it retains: nothing, or
    given it the ATR stop of the parent timeframe, when it had no stop and
    that stop is below the last price. *)
Definition retained_from (self : CA.t) (entry retained : StrategySignal.t)
    : Prop :=
  CA.min_traded_timeframe self <= StrategySignal.timeframe entry
  /\ StrategySignal.timeframe entry <= CA.max_traded_timeframe self
  /\ CA.check_regions self entry = true
  /\ (retained = entry
      \/ (truthy_num (StrategySignal.sl entry) = false
          /\ CA.atr_stop_loss self
               (CA.parent_timeframe self (StrategySignal.timeframe entry))
               (StrategySignal.dir entry) < CA.last_price self
          /\ retained
             = StrategySignal.set_sl
                 (Some (CA.atr_stop_loss self
                          (CA.parent_timeframe self (StrategySignal.timeframe entry))
                          (StrategySignal.dir entry))) entry)).

(** The trade of [long_5_bought_2_sold] once its 5 units are sold and the
    exit is marked filled. *)
Definition closed_trade : ST.t :=
  ST.set_exit_state ST.STATE_FILLED
    (ST.set_x (num 5) (IM.super long_5_bought_2_sold)).

(** [trade_with_children] once its 5 units are sold. *)
Definition trade_with_children_sold : IM.t :=
  IM.upd (ST.set_x (num 5)) trade_with_children.

(** A long trade of 10 units at 100 whose entry order is submitted under
    the reference ["rE1"] and not yet opened. *)
Definition submitted_entry_10 : IM.t :=
  IM.set_create_ref_oid (Some "rE1")
    (IM.upd (fun b => ST.set_oq (num 10) (ST.set_op (num 100) (ST.set_dir 1 b)))
       (IM.__init__ (num 60))).

(** [OPENED {id: 'E1', timestamp: 1000}]. *)
Definition entry_opened_event : opened_data :=
  {| o_id := "E1"; o_timestamp := num 1000;
     o_stop_loss := None; o_take_profit := None |}.

(** A trader without trades on a buy/sell market priced 100 with a volume of
    1000, above both thresholds. *)
Definition view_liquid_market : CA.filter_view :=
  {| CA.f_market :=
       Some (Some {| CA.m_trade := 1; CA.m_TRADE_BUY_SELL := 1;
                     CA.m_price := Some (num 100);
                     CA.m_vol24h_quote := Some (num 1000) |});
     CA.f_has_trades := false;
     CA.f_min_price := num 1;
     CA.f_min_vol24h := num 100 |}.

(** A trade that ordered 10 units: the entry order ["E1"] is opened and
    filled for 5 units at 100, the rest of it is canceled, a take-profit
    order is placed at 110, opened as ["L1"], and filled for the 5 units. *)
Definition partial_entry_sold_out : IM.t :=
  let s := state_of (IM.order_signal submitted_entry_10
                       (SIGNAL_ORDER_OPENED entry_opened_event) (Some "rE1")) in
  let s := state_of (IM.order_signal s
                       (SIGNAL_ORDER_TRADED
                          {| t_id := "E1"; t_filled := None;
                             t_cumulative_filled := Some (num 5);
                             t_avg_price := Some (num 100);
                             t_exec_price := None |}) None) in
  let s := state_of (IM.order_signal s (SIGNAL_ORDER_CANCELED "E1") None) in
  let s := snd (fst (IM.modify_take_profit (recording_trader true) s "BTCUSD"
                       (num 110) [])) in
  let s := state_of (IM.order_signal s
                       (SIGNAL_ORDER_OPENED
                          {| o_id := "L1"; o_timestamp := num 2000;
                             o_stop_loss := None; o_take_profit := None |})
                       (Some "ref")) in
  state_of (IM.order_signal s
              (SIGNAL_ORDER_TRADED
                 {| t_id := "L1"; t_filled := None;
                    t_cumulative_filled := Some (num 5);
                    t_avg_price := Some (num 110);
                    t_exec_price := None |}) None).


(** * Notions and sample inputs for the binary64 fill accounting *)

Module F := Float64.

Section Recurrence.

Context {N : Type} (add sub mul div : N -> N -> N).

(** The update of the specification,
    [aep' = (aep * e + exec_price * filled) / (e + filled)] with [filled]
    the increment of the cumulative quantity, applied in order to the steps
    (cumulative quantity, exec price) of a sequence of fills, from the
    average price [aep] and the quantity [e]. *)
Fixpoint incremental_average (aep e : N) (steps : list (N * N)) : N :=
  match steps with
  | [] => aep
  | (c, p) :: steps =>
      incremental_average
        (div (add (mul aep e) (mul p (sub c e))) (add e (sub c e))) c steps
  end.

End Recurrence.

Module Float64Fills.

Import PrimFloat.
Local Open Scope float_scope.

(* A decimal literal is the nearest binary64 number, as in Python. *)
Local Set Warnings "-inexact-float".

(** The cumulative filled quantity and the exec-price an event carries
    (0 when the key is missing). *)
Definition cum_of (d : F.traded_data) : float :=
  default 0 (F.t_cumulative_filled d).

Definition price_of (d : F.traded_data) : float :=
  default 0 (F.t_exec_price d).


(** A [TRADED] event on the order [oid] that carries a positive cumulative
    filled quantity and a positive exec-price, and no avg-price. *)
Definition exec_fill_on (oid : string) (d : F.traded_data) : Prop :=
  F.t_id d = oid /\ F.t_avg_price d = None
  /\ (exists c, F.t_cumulative_filled d = Some c /\ (0 <? c) = true)
  /\ exists p, F.t_exec_price d = Some p /\ (0 <? p) = true.

(** The cumulative quantities increase strictly, starting above [prev]. *)
Fixpoint increasing_from (prev : float) (evs : list F.traded_data) : Prop :=
  match evs with
  | [] => True
  | d :: evs => (prev <? cum_of d) = true /\ increasing_from (cum_of d) evs
  end.


(** The last cumulative quantity of the events ([prev] when there is none). *)
Fixpoint last_cum (prev : float) (evs : list F.traded_data) : float :=
  match evs with
  | [] => prev
  | d :: evs => last_cum (cum_of d) evs
  end.

(** The events handled in order by the trade: what each call raised, if it
    raised, and the trade in the end.  The trade object outlives a call
    that raises: the next event finds the state that call left. *)
Fixpoint run_traded (self : F.t) (evs : list F.traded_data)
    : list (option exn) * F.t :=
  match evs with
  | [] => ([], self)
  | d :: evs =>
      let r := F.order_signal_traded self d in
      let rest := run_traded (state_of r) evs in
      (raised r :: fst rest, snd rest)
  end.


(** The quantity-weighted average of the per-step exec prices, each step
    weighted by its increment of the cumulative quantity, on the exact
    values of the floats. *)
Fixpoint notional_from (prev : Q) (evs : list F.traded_data) : option Q :=
  match evs with
  | [] => Some 0%Q
  | d :: evs =>
      c ← F.exact (cum_of d);
      p ← F.exact (price_of d);
      rest ← notional_from c evs;
      Some (p * (c - prev) + rest)%Q
  end.

Definition weighted_average_price (evs : list F.traded_data) : option Q :=
  n ← notional_from 0%Q evs;
  c ← F.exact (last_cum 0 evs);
  Some (n / c)%Q.


(** The average entry price the entry branch assigns on an event that
    carries the positive cumulative quantity [c]. *)
Definition entry_price_after (self : F.t) (data : F.traded_data) (c : float)
    : float :=
  match F.pos_of (F.t_avg_price data) with
  | Some a => a
  | None =>
      match F.pos_of (F.t_exec_price data) with
      | Some p =>
          (F.aep self * F.e self + p * (c - F.e self))
          / (F.e self + (c - F.e self))
      | None => F.op self
      end
  end.

(** The state a fill leaves: [FILLED] when the cumulative quantity [c] has
    reached the ordered quantity, [PARTIALLY_FILLED] otherwise. *)
Definition state_after (oq c : float) : Z :=
  if oq <=? c then StrategyTrade.STATE_FILLED
  else StrategyTrade.STATE_PARTIALLY_FILLED.

(** A trade that ordered 10 units at 100 under the entry order ["E1"], with
    nothing filled. *)
Definition fresh_entry_10 : F.t :=
  {| F.create_oid := Some "E1"; F.stop_oid := None; F.limit_oid := None;
     F.dir := 1; F.op := 100; F.oq := 10; F.aep := 0; F.axp := 0;
     F.e := 0; F.x := 0; F.pl := 0;
     F._entry_state := StrategyTrade.STATE_OPENED;
     F._exit_state := StrategyTrade.STATE_NEW |}.

(** The same trade with 0.7 units bought at 100.1. *)
Definition entry_10_bought_07 : F.t :=
  F.set_entry_state StrategyTrade.STATE_PARTIALLY_FILLED
    (F.set_e 0.7 (F.set_aep 100.1 fresh_entry_10)).

(** [TRADED {id: 'E1', cumulative-filled: c, exec-price: p}]. *)
Definition exec_fill (c p : float) : F.traded_data :=
  {| F.t_id := "E1"; F.t_filled := None; F.t_cumulative_filled := Some c;
     F.t_avg_price := None; F.t_exec_price := Some p |}.

End Float64Fills.

Module FF := Float64Fills.

(** The steps of a sequence of fills in exact arithmetic: cumulative
    quantities that increase strictly from [prev], the sum of the prices
    weighted by the increments, and the last cumulative quantity. *)
Fixpoint steps_increasing (prev : Qc) (steps : list (Qc * Qc)) : Prop :=
  match steps with
  | [] => True
  | (c, _) :: steps => prev < c /\ steps_increasing c steps
  end.

Fixpoint steps_notional (prev : Qc) (steps : list (Qc * Qc)) : Qc :=
  match steps with
  | [] => 0
  | (c, p) :: steps => p * (c - prev) + steps_notional c steps
  end.

Fixpoint steps_last (prev : Qc) (steps : list (Qc * Qc)) : Qc :=
  match steps with
  | [] => prev
  | (c, _) :: steps => steps_last c steps
  end.

(** * Properties *)

(** ** Closed trades and entry timeout *)

Lemma andb_bool_decide (P Q : Prop) `{Decision P, Decision Q} :
  bool_decide P && bool_decide Q = true <-> P /\ Q.
Proof. rewrite andb_true_iff, !bool_decide_eq_true. tauto. Qed.

(** [is_closed] is not equivalent to the specification's definition of a
    closed trade.  With both states FILLED
    but [x = 2 < e = 5] the definition holds and [is_closed()] is false. *)
Lemma is_closed_differs_from_spec_closed :
  ~ (forall self : ST.t, ST.is_closed self = true <-> spec_closed self).
Proof.
  intros H. destruct (H trade_filled_states_open_qty) as [_ Hback].
  assert (Hc : ST.is_closed trade_filled_states_open_qty = true).
  { apply Hback. left. split; reflexivity. }
  vm_compute in Hc. discriminate Hc.
Qed.

(** What [is_closed()] tests: it is true exactly when the exit state is FILLED
    and the filled exit quantity has reached the filled entry quantity. *)
Theorem is_closed_iff (self : ST.t) :
  ST.is_closed self = true
  <-> ST._exit_state self = ST.STATE_FILLED /\ ST.e self <= ST.x self.
Proof. unfold ST.is_closed. apply andb_bool_decide. Qed.

(** The definition of the specification is the ['closed'] case of the
    display helper [state_to_str], not [is_closed]. *)
Lemma state_to_str_closed (self : ST.t) :
  ST.state_to_str self = "closed" -> spec_closed self.
Proof.
  unfold ST.state_to_str, spec_closed.
  repeat case_decide; try discriminate; intros _; tauto.
Qed.

(** C9, as stated, fails: an opened, unfilled entry whose [eot] is 0 is never
    reported as timed out, whatever the elapsed time. *)
Lemma is_entry_timeout_differs_from_spec :
  ~ (forall (self : ST.t) (timestamp timeout : Qc),
        ST.is_entry_timeout self timestamp timeout = true
        <-> spec_entry_timeout self timestamp timeout).
Proof.
  intros H.
  destruct (H trade_opened_no_eot (num 100) (num 10)) as [_ Hback].
  assert (Hc : ST.is_entry_timeout trade_opened_no_eot (num 100) (num 10) = true).
  { apply Hback. repeat split. by apply (bool_decide_unpack _). }
  vm_compute in Hc. discriminate Hc.
Qed.

(** C9, amended: [is_entry_timeout(timestamp, timeout)] is true exactly when
    the entry state is OPENED, nothing is filled, the entry open time is
    set ([eot > 0]) and [timestamp - eot >= timeout]. *)
Theorem is_entry_timeout_iff (self : ST.t) (timestamp timeout : Qc) :
  ST.is_entry_timeout self timestamp timeout = true
  <-> ST._entry_state self = ST.STATE_OPENED /\ ST.e self = 0
      /\ 0 < ST.eot self /\ timeout <= timestamp - ST.eot self.
Proof.
  unfold ST.is_entry_timeout.
  rewrite !andb_true_iff, !bool_decide_eq_true. tauto.
Qed.

(** ** Modifying a child order when the broker refuses the cancel *)

Lemma cancel_child_refused {broker} (trader : Trader broker) (clear : IM.t -> IM.t)
    (self : IM.t) (b b' : broker) (oid : string) :
  oid <> EmptyString ->
  cancel_order trader oid b = (false, b') ->
  IM.cancel_child trader (Some oid) clear self b = (false, self, b').
Proof.
  intros Hoid Hcancel. unfold IM.cancel_child, truthy_str.
  rewrite bool_decide_eq_true_2 by exact Hoid.
  rewrite Hcancel. reflexivity.
Qed.

(** C8: with a live limit (resp. stop) child, a refused [cancel_order] makes
    [modify_take_profit] (resp. [modify_stop_loss]) return [False] with the
    trade exactly as it was before the call. *)
Theorem modify_refused_cancel_keeps_trade :
  (forall broker (trader : Trader broker) (self : IM.t) market_id price
          (b b' : broker) (oid : string),
      IM.limit_oid self = Some oid -> oid <> EmptyString ->
      cancel_order trader oid b = (false, b') ->
      IM.modify_take_profit trader self market_id price b = (false, self, b'))
  /\ (forall broker (trader : Trader broker) (self : IM.t) market_id price
             (b b' : broker) (oid : string),
         IM.stop_oid self = Some oid -> oid <> EmptyString ->
         cancel_order trader oid b = (false, b') ->
         IM.modify_stop_loss trader self market_id price b = (false, self, b')).
Proof.
  split; intros broker trader self market_id price b b' oid Holds Hoid Hcancel.
  - unfold IM.modify_take_profit. rewrite Holds.
    rewrite (cancel_child_refused trader _ self b b' oid Hoid Hcancel).
    reflexivity.
  - unfold IM.modify_stop_loss. rewrite Holds.
    rewrite (cancel_child_refused trader _ self b b' oid Hoid Hcancel).
    reflexivity.
Qed.

Lemma modify_refused_cancel_keeps_trade_witness :
  IM.modify_take_profit refusing_trader trade_with_children "BTCUSD" (num 112) tt
    = (false, trade_with_children, tt)
  /\ IM.modify_stop_loss refusing_trader trade_with_children "BTCUSD" (num 92) tt
    = (false, trade_with_children, tt).
Proof.
  destruct modify_refused_cancel_keeps_trade as [Htp Hsl].
  split.
  - apply (Htp unit refusing_trader trade_with_children _ _ tt tt "L1");
      [reflexivity | discriminate | reflexivity].
  - apply (Hsl unit refusing_trader trade_with_children _ _ tt tt "S1");
      [reflexivity | discriminate | reflexivity].
Defined.

(** ** Persistence *)

(** What [StrategyTrade.loads] restores from [StrategyTrade.dumps]: every
    persisted field but the trade type, which becomes the string that
    [trade_type_to_str] gave. *)
Lemma base_loads_dumps (self t : ST.t) :
  let t' := snd (ST.loads self (ST.dumps t)) in
  fst (ST.loads self (ST.dumps t)) = true
  /\ same_persisted_fields t' t
  /\ ST._trade_type t' = VStr (ST.trade_type_to_str t).
Proof.
  destruct t. cbn. unfold same_persisted_fields. cbn. tauto.
Qed.

(** C3 on the code: [loads(dumps(t))] of an indivisible-margin trade raises
    [TypeError] before any field is restored, and the base class restores
    the trade type as a string, never as the integer it was. *)
Theorem loads_dumps_does_not_restore :
  (forall (self t : IM.t) (strategy_service : value),
      IM.loads self (IM.dumps t) strategy_service = Raised TypeError self)
  /\ (forall (self t : ST.t) (z : Z),
         ST._trade_type t = VInt z ->
         ST._trade_type (snd (ST.loads self (ST.dumps t))) <> ST._trade_type t).
Proof.
  split.
  - intros self t strategy_service. reflexivity.
  - intros self t z Hz. rewrite Hz. cbn. discriminate.
Qed.

Lemma loads_dumps_does_not_restore_witness :
  IM.loads (IM.__init__ (num 60)) (IM.dumps trade_with_children) VNone
    = Raised TypeError (IM.__init__ (num 60))
  /\ ST._trade_type
       (snd (ST.loads (ST.__init__ ST.TRADE_IND_MARGIN (num 60))
               (ST.dumps (IM.super trade_with_children))))
     <> VInt ST.TRADE_IND_MARGIN.
Proof.
  destruct loads_dumps_does_not_restore as [Hind Hbase].
  split.
  - apply Hind.
  - apply (Hbase _ (IM.super trade_with_children) ST.TRADE_IND_MARGIN). reflexivity.
Defined.

(** ** The take-profit of a retained entry *)

(** The filter never changes the take-profit of the entry it retains. *)
Lemma filter_entry_keeps_tp (self : CA.t) (entry entry' : StrategySignal.t)
    (tp : option Qc) :
  CA.filter_entry self entry = inr (Some (entry', tp)) ->
  StrategySignal.tp entry' = StrategySignal.tp entry.
Proof.
  unfold CA.filter_entry. intros H.
  repeat match type of H with
         | context [if ?c then _ else _] => destruct c
         | context [match ?c with _ => _ end] => destruct c
         end; inversion H; subst; reflexivity.
Qed.

(** C7 on the code: a retained entry that lacks a take-profit is submitted
    with the take-profit it came with, although three resistances are
    there; the resistance read into the local [tp] is dropped. *)
Theorem retained_entry_submitted_without_target (self : CA.t)
    (entry : StrategySignal.t) (r0 r1 r2 : Qc) (more : list Qc) :
  CA.min_traded_timeframe self <= StrategySignal.timeframe entry ->
  StrategySignal.timeframe entry <= CA.max_traded_timeframe self ->
  CA.check_regions self entry = true ->
  truthy_num (StrategySignal.tp entry) = false ->
  CA.last_resistances self = r0 :: r1 :: r2 :: more ->
  exists call,
    CA.submitted_entries self [entry] = inr [call]
    /\ CA.c_take_profit call = StrategySignal.tp entry
    /\ truthy_num (CA.c_take_profit call) = false.
Proof.
  intros Hmin Hmax Hreg Htp Hres.
  unfold CA.submitted_entries. cbn [CA.retain_entries].
  destruct (CA.filter_entry self entry) as [ex | [[entry' tp] | ]] eqn:Hf.
  - exfalso. revert Hf. unfold CA.filter_entry.
    rewrite !bool_decide_eq_true_2 by assumption. rewrite Hreg. cbn.
    rewrite Hres.
    repeat match goal with
           | |- context [if ?c then _ else _] => destruct c
           end; cbn; try discriminate.
    all: rewrite Htp in *; cbn in *; try discriminate; lia.
  - pose proof (filter_entry_keeps_tp _ _ _ _ Hf) as Hkeep.
    eexists. split; [reflexivity |]. cbn. rewrite Hkeep. auto.
  - exfalso. revert Hf. unfold CA.filter_entry.
    rewrite !bool_decide_eq_true_2 by assumption. rewrite Hreg. cbn.
    repeat match goal with
           | |- context [if ?c then _ else _] => destruct c
           | |- context [match ?c with _ => _ end] => destruct c
           end; discriminate.
Qed.

Lemma retained_entry_submitted_without_target_witness :
  exists call,
    CA.submitted_entries trader_three_resistances [entry_without_target]
      = inr [call]
    /\ CA.c_take_profit call = StrategySignal.tp entry_without_target
    /\ truthy_num (CA.c_take_profit call) = false.
Proof.
  apply (retained_entry_submitted_without_target trader_three_resistances
           entry_without_target (num 110) (num 120) (num 130) []).
  - by apply (bool_decide_unpack _).
  - by apply (bool_decide_unpack _).
  - reflexivity.
  - reflexivity.
  - reflexivity.
Defined.

(** ** Arithmetic helpers *)

Lemma pos_of_Some (q : Qc) : 0 < q -> pos_of (Some q) = Some q.
Proof. intros H. unfold pos_of. by rewrite decide_True. Qed.

Lemma truediv_ok (a b : Qc) : b <> 0 -> truediv a b = inr (a / b).
Proof. intros H. unfold truediv. by rewrite decide_False. Qed.

Lemma truediv_zero (a b : Qc) : b = 0 -> truediv a b = inl ZeroDivisionError.
Proof. intros H. unfold truediv. by rewrite decide_True. Qed.

Lemma Qc_pos_neq0 (a : Qc) : 0 < a -> a <> 0.
Proof. intros Ha Heq. by apply (Qclt_not_eq _ _ Ha). Qed.

Lemma Qcmult_neq0 (a b : Qc) : a <> 0 -> b <> 0 -> a * b <> 0.
Proof. intros Ha Hb Hab. by apply Qcmult_integral in Hab as [? | ?]. Qed.

Lemma Qcmult_neq0_inv (a b : Qc) : a * b <> 0 -> b <> 0 /\ a <> 0.
Proof.
  intros Hab. split; intros H0; apply Hab; rewrite H0; ring.
Qed.

Lemma Qc_of_Z_1 : Qc_of_Z 1 = 1.
Proof. by apply Qc_is_canon. Qed.

Lemma Qc_of_Z_m1 : Qc_of_Z (-1) = - (1).
Proof. by apply Qc_is_canon. Qed.

Lemma Qc_of_Z_0 : Qc_of_Z 0 = 0.
Proof. by apply Qc_is_canon. Qed.

(** ** Position deleted *)

(** The profit-loss statement shared by the two handlers, when its divisor
    [aep * e] is not zero: [pl] moves by [sign(dir)] times the ratio. *)
Lemma add_exec_pl_ok (self : IM.t) (p filled : Qc) :
  ST.aep self * ST.e self <> 0 ->
  IM.add_exec_pl self p filled
  = Returned tt
      (IM.upd (ST.set_pl
                 (ST.pl self
                  + Qc_of_Z (Z.sgn (ST.dir self))
                    * ((p * filled - ST.aep self * ST.e self)
                       / (ST.aep self * ST.e self)))) self).
Proof.
  intros Hdiv. unfold IM.add_exec_pl.
  destruct (decide (0 < ST.dir self)%Z) as [Hpos | Hnpos].
  - rewrite truediv_ok by exact Hdiv. cbn.
    rewrite Z.sgn_pos by exact Hpos. rewrite Qc_of_Z_1.
    do 3 f_equal. ring.
  - destruct (decide (ST.dir self < 0)%Z) as [Hneg | Hnneg].
    + rewrite truediv_ok by exact Hdiv. cbn.
      rewrite Z.sgn_neg by exact Hneg. rewrite Qc_of_Z_m1.
      do 3 f_equal. field. by apply Qcmult_neq0_inv.
    + replace (ST.dir self) with 0%Z by lia. cbn. rewrite Qc_of_Z_0.
      rewrite Qcmult_0_l, Qcplus_0_r. by destruct self as [[] ].
Qed.

(** C1 on the code: on [SIGNAL_POSITION_DELETED] with [0 <= x < e], a positive
    average entry price and a positive exec-price [p], the handler returns,
    sets the exit state to FILLED and moves [pl] by
    [dir * (p * (e - x) - aep * e) / (aep * e)] (for [dir] one of 1, 0, -1),
    but it never assigns [x]: the filled exit quantity stays below [e]. *)
Theorem position_deleted_leaves_exit_quantity (self : IM.t) (p : Qc) :
  0 <= ST.x self -> ST.x self < ST.e self -> 0 < ST.aep self -> 0 < p ->
  let r := IM.position_signal self
             (SIGNAL_POSITION_DELETED (mk_position (Some p))) in
  raised r = None
  /\ ST._exit_state (state_of r) = ST.STATE_FILLED
  /\ ST.pl (state_of r)
     = ST.pl self
       + Qc_of_Z (Z.sgn (ST.dir self))
         * ((p * (ST.e self - ST.x self) - ST.aep self * ST.e self)
            / (ST.aep self * ST.e self))
  /\ ST.x (state_of r) = ST.x self
  /\ ST.x (state_of r) < ST.e (state_of r).
Proof.
  intros Hx Hxe Haep Hp r. subst r.
  assert (He : 0 < ST.e self) by (eapply Qcle_lt_trans; eassumption).
  unfold IM.position_signal.
  cbn [p_exec_price]. rewrite pos_of_Some by exact Hp.
  set (self1 := IM.set_create_ref_oid None _).
  change (ST.x self1) with (ST.x self). change (ST.e self1) with (ST.e self).
  rewrite decide_True by exact Hxe.
  rewrite add_exec_pl_ok.
  - cbn. auto.
  - cbn. apply Qcmult_neq0; by apply Qc_pos_neq0.
Qed.

Lemma position_deleted_leaves_exit_quantity_witness :
  let r := IM.position_signal long_5_bought_2_sold
             (SIGNAL_POSITION_DELETED (mk_position (Some (num 120)))) in
  raised r = None
  /\ ST._exit_state (state_of r) = ST.STATE_FILLED
  /\ ST.pl (state_of r)
     = ST.pl long_5_bought_2_sold
       + Qc_of_Z (Z.sgn (ST.dir long_5_bought_2_sold))
         * ((num 120 * (ST.e long_5_bought_2_sold - ST.x long_5_bought_2_sold)
             - ST.aep long_5_bought_2_sold * ST.e long_5_bought_2_sold)
            / (ST.aep long_5_bought_2_sold * ST.e long_5_bought_2_sold))
  /\ ST.x (state_of r) = ST.x long_5_bought_2_sold
  /\ ST.x (state_of r) < ST.e (state_of r).
Proof.
  apply (position_deleted_leaves_exit_quantity long_5_bought_2_sold (num 120));
    by apply (bool_decide_unpack _).
Defined.

(** Scenario 4 of the specification on the code: after the position is
    deleted at 120 the trade still has [x = 2] of [e = 5], its exit state is
    FILLED, and [is_closed()] is false. *)
Example position_deleted_scenario :
  let r := IM.position_signal long_5_bought_2_sold
             (SIGNAL_POSITION_DELETED (mk_position (Some (num 120)))) in
  ST.x (state_of r) = num 2 /\ ST.e (state_of r) = num 5
  /\ ST._exit_state (state_of r) = ST.STATE_FILLED
  /\ ST.is_closed (state_of r) = false.
Proof.
  cbn zeta. repeat split; try (apply Qc_is_canon; reflexivity).
  all: by vm_compute.
Qed.

(** ** Fill accounting on [SIGNAL_ORDER_TRADED] *)

Lemma underscored_names_are_not_slots :
  IM.has_slot "_create_oid" = false /\ IM.has_slot "_create_ref_oid" = false
  /\ IM.has_slot "_limit_oid" = false /\ IM.has_slot "_limit_ref_oid" = false
  /\ IM.has_slot "_stop_oid" = false /\ IM.has_slot "_stop_ref_oid" = false.
Proof. by vm_compute. Qed.

Lemma fill_qty_cum (data : traded_data) (done c : Qc) :
  t_cumulative_filled data = Some c -> 0 < c ->
  IM.fill_qty data done = c - done.
Proof.
  intros Hc Hpos. unfold IM.fill_qty. rewrite Hc, pos_of_Some by exact Hpos.
  reflexivity.
Qed.

(** The entry branch on an event that carries a positive cumulative
    quantity [c]: no division by zero, [aep] and [e] assigned, and then the
    state, with the [AttributeError] of the cleanup when [e] reaches [oq]. *)
Lemma order_traded_entry_cum (self : IM.t) (data : traded_data) (c : Qc) :
  t_cumulative_filled data = Some c -> 0 < c ->
  IM.order_traded_entry self data
  = let self' :=
      IM.upd (ST.set_e c)
        (IM.upd (ST.set_aep (entry_price_after self data c)) self) in
    if decide (ST.oq self <= c) then
      Raised (AttributeError "_create_oid")
        (IM.upd (ST.set_entry_state ST.STATE_FILLED) self')
    else
      Returned tt (IM.upd (ST.set_entry_state ST.STATE_PARTIALLY_FILLED) self').
Proof.
  intros Hc Hpos. unfold IM.order_traded_entry, entry_price_after.
  rewrite (fill_qty_cum data _ c Hc Hpos), Hc.
  replace (ST.e self + (c - ST.e self)) with c by ring.
  destruct (pos_of (t_avg_price data)) as [a | ];
    [| destruct (pos_of (t_exec_price data)) as [p | ]].
  - reflexivity.
  - rewrite truediv_ok by (by apply Qc_pos_neq0). reflexivity.
  - reflexivity.
Qed.

(** No [TRADED] event changes an order id or a client reference id. *)
Lemma traded_keeps_order_ids (self : IM.t) (data : traded_data)
    (ref_order_id : option string) :
  let s' := state_of (IM.order_signal self (SIGNAL_ORDER_TRADED data)
                        ref_order_id) in
  IM.create_oid s' = IM.create_oid self
  /\ IM.create_ref_oid s' = IM.create_ref_oid self
  /\ IM.limit_oid s' = IM.limit_oid self
  /\ IM.limit_ref_oid s' = IM.limit_ref_oid self
  /\ IM.stop_oid s' = IM.stop_oid self
  /\ IM.stop_ref_oid s' = IM.stop_ref_oid self.
Proof.
  unfold IM.order_signal, IM.order_traded_entry, IM.order_traded_exit,
    IM.order_traded_exit_prices, IM.add_exec_pl, attempt, truediv.
  repeat (case_decide || case_match); subst; cbn in *; try done.
  all: simplify_eq; cbn; done.
Qed.

Lemma upd_pl_axp_id (self : IM.t) :
  IM.upd (ST.set_axp (ST.axp self)) (IM.upd (ST.set_pl (ST.pl self)) self) = self.
Proof. by destruct self as [[] ]. Qed.

Lemma upd_pl_id (self : IM.t) : IM.upd (ST.set_pl (ST.pl self)) self = self.
Proof. by destruct self as [[] ]. Qed.

(** With a positive average entry price, a positive filled entry quantity
    and a positive cumulative quantity, the price part of the exit branch
    returns, and assigns nothing but [pl] and [axp]. *)
Lemma order_traded_exit_prices_ok (self : IM.t) (data : traded_data) (c : Qc) :
  0 < ST.aep self -> 0 < ST.e self -> 0 < c ->
  exists pl' axp',
    IM.order_traded_exit_prices self data (c - ST.x self)
    = Returned tt (IM.upd (ST.set_axp axp') (IM.upd (ST.set_pl pl') self)).
Proof.
  intros Haep He Hc.
  assert (Haep0 : ST.aep self <> 0) by (by apply Qc_pos_neq0).
  assert (Hdiv : ST.aep self * ST.e self <> 0)
    by (apply Qcmult_neq0; by apply Qc_pos_neq0).
  unfold IM.order_traded_exit_prices.
  destruct (pos_of (t_avg_price data)) as [a | ].
  - destruct (decide (0 < ST.dir self)%Z);
      [| destruct (decide (ST.dir self < 0)%Z)].
    + rewrite truediv_ok by exact Haep0. cbn. eauto.
    + rewrite truediv_ok by exact Haep0. cbn. eauto.
    + exists (ST.pl self), a. by rewrite upd_pl_id.
  - destruct (pos_of (t_exec_price data)) as [p | ].
    + rewrite add_exec_pl_ok by exact Hdiv.
      set (self1 := IM.upd _ self).
      change (ST.x self1) with (ST.x self).
      replace (ST.x self + (c - ST.x self)) with c by ring.
      rewrite truediv_ok by (by apply Qc_pos_neq0). cbn. eauto.
    + exists (ST.pl self), (ST.axp self). by rewrite upd_pl_axp_id.
Qed.

(** C2 on the code: a fill that brings the entry to FILLED sets the state
    and then raises [AttributeError] on [self._create_oid = None]; the entry
    order id and its client reference id stay as they were.  The same holds
    for the limit and stop children when the exit reaches FILLED. *)
Theorem traded_fill_does_not_clear_order_ids :
  (forall (self : IM.t) (data : traded_data) (ref_order_id : option string)
          (c : Qc),
      IM.create_oid self = Some (t_id data) ->
      t_cumulative_filled data = Some c -> 0 < c -> ST.oq self <= c ->
      let r := IM.order_signal self (SIGNAL_ORDER_TRADED data) ref_order_id in
      raised r = Some (AttributeError "_create_oid")
      /\ ST._entry_state (state_of r) = ST.STATE_FILLED
      /\ IM.create_oid (state_of r) = Some (t_id data)
      /\ IM.create_ref_oid (state_of r) = IM.create_ref_oid self)
  /\ (forall (self : IM.t) (data : traded_data) (ref_order_id : option string)
             (c : Qc),
         IM.create_oid self <> Some (t_id data) ->
         IM.limit_oid self = Some (t_id data)
         \/ IM.stop_oid self = Some (t_id data) ->
         t_cumulative_filled data = Some c -> 0 < c -> ST.oq self <= c ->
         0 < ST.aep self -> 0 < ST.e self ->
         let r := IM.order_signal self (SIGNAL_ORDER_TRADED data) ref_order_id in
         (raised r = Some (AttributeError "_limit_oid")
          \/ raised r = Some (AttributeError "_stop_oid"))
         /\ ST._exit_state (state_of r) = ST.STATE_FILLED
         /\ IM.limit_oid (state_of r) = IM.limit_oid self
         /\ IM.limit_ref_oid (state_of r) = IM.limit_ref_oid self
         /\ IM.stop_oid (state_of r) = IM.stop_oid self
         /\ IM.stop_ref_oid (state_of r) = IM.stop_ref_oid self).
Proof.
  split.
  - intros self data ref_order_id c Hentry Hc Hpos Hoq r.
    subst r. unfold IM.order_signal.
    rewrite decide_True by congruence.
    rewrite (order_traded_entry_cum self data c Hc Hpos). cbn zeta.
    rewrite decide_True by exact Hoq. cbn. auto.
  - intros self data ref_order_id c Hentry Hchild Hc Hpos Hoq Haep He r.
    subst r. unfold IM.order_signal.
    rewrite decide_False by congruence.
    rewrite decide_True by (destruct Hchild; [left | right]; congruence).
    unfold IM.order_traded_exit.
    rewrite (fill_qty_cum data _ c Hc Hpos), Hc.
    destruct (order_traded_exit_prices_ok self data c Haep He Hpos)
      as (pl' & axp' & ->).
    cbn. rewrite decide_True by exact Hoq.
    destruct (decide (Some (t_id data) = IM.limit_oid self)) as [Hl | Hl].
    + cbn. auto 10.
    + rewrite decide_True by (destruct Hchild; congruence). cbn. auto 10.
Qed.

Lemma traded_fill_does_not_clear_order_ids_witness :
  (let r := IM.order_signal opened_entry_10
              (SIGNAL_ORDER_TRADED entry_filled_event) None in
   raised r = Some (AttributeError "_create_oid")
   /\ ST._entry_state (state_of r) = ST.STATE_FILLED
   /\ IM.create_oid (state_of r) = Some "E1"
   /\ IM.create_ref_oid (state_of r) = Some "rE1")
  /\ (let r := IM.order_signal trade_with_children
                 (SIGNAL_ORDER_TRADED limit_filled_event) None in
      (raised r = Some (AttributeError "_limit_oid")
       \/ raised r = Some (AttributeError "_stop_oid"))
      /\ ST._exit_state (state_of r) = ST.STATE_FILLED
      /\ IM.limit_oid (state_of r) = Some "L1"
      /\ IM.limit_ref_oid (state_of r) = Some "rL1"
      /\ IM.stop_oid (state_of r) = Some "S1"
      /\ IM.stop_ref_oid (state_of r) = Some "rS1").
Proof.
  destruct traded_fill_does_not_clear_order_ids as [Hentry Hexit].
  split.
  - apply (Hentry opened_entry_10 entry_filled_event None (num 10));
      first [reflexivity | by apply (bool_decide_unpack _)].
  - apply (Hexit trade_with_children limit_filled_event None (num 5));
      first [discriminate | by left | reflexivity
            | by apply (bool_decide_unpack _)].
Defined.

(** ** Division by zero in the fill accounting *)

(** C10: the fill accounting is partial.  The entry update raises
    [ZeroDivisionError] on an event with a positive exec-price and no
    positive quantity applied to a trade with [e = 0]; in the exec-price
    branches the error is raised exactly when a divisor is zero: [e + filled]
    for the entry, [aep * e] (when [dir] is not 0) or [x + filled] for an
    exit.  So a positive divisor excludes the error. *)
Theorem fill_accounting_divides_by_zero :
  ST.e opened_entry_10 = 0
  /\ IM.order_signal opened_entry_10 (SIGNAL_ORDER_TRADED exec_only_event) None
     = Raised ZeroDivisionError opened_entry_10
  /\ (forall (self : IM.t) (data : traded_data) (p : Qc),
         pos_of (t_avg_price data) = None ->
         pos_of (t_exec_price data) = Some p ->
         (raised (IM.order_traded_entry self data) = Some ZeroDivisionError
          <-> ST.e self + IM.fill_qty data (ST.e self) = 0))
  /\ (forall (self : IM.t) (data : traded_data) (p : Qc),
         pos_of (t_avg_price data) = None ->
         pos_of (t_exec_price data) = Some p ->
         (raised (IM.order_traded_exit self data) = Some ZeroDivisionError
          <-> (ST.dir self <> 0%Z /\ ST.aep self * ST.e self = 0)
              \/ ST.x self + IM.fill_qty data (ST.x self) = 0)).
Proof.
  split; [reflexivity |]. split; [reflexivity |]. split.
  - intros self data p Havg Hexec. unfold IM.order_traded_entry.
    rewrite Havg, Hexec. unfold truediv, attempt.
    destruct (decide (ST.e self + IM.fill_qty data (ST.e self) = 0))
      as [Hz | Hnz].
    + cbn. done.
    + cbn. repeat (case_decide || case_match); cbn; split; done.
  - intros self data p Havg Hexec.
    unfold IM.order_traded_exit, IM.order_traded_exit_prices.
    rewrite Havg, Hexec. unfold IM.add_exec_pl, truediv, attempt.
    repeat (case_decide || case_match); cbn in *; simplify_eq.
    all: split; [try done | intros [[Hd Hz] | Hz]; try done; try lia].
    all: intros _; first [left; split; [lia | done] | right; done].
Qed.

Lemma fill_accounting_divides_by_zero_witness :
  raised (IM.order_traded_entry opened_entry_10 exec_only_event)
    = Some ZeroDivisionError
  /\ raised (IM.order_traded_exit trade_with_children
               {| t_id := "L1"; t_filled := Some (num 2);
                  t_cumulative_filled := None; t_avg_price := None;
                  t_exec_price := Some (num 110) |})
     <> Some ZeroDivisionError.
Proof.
  destruct fill_accounting_divides_by_zero as (_ & _ & Hentry & Hexit).
  split.
  - apply (Hentry opened_entry_10 exec_only_event (num 100));
      [reflexivity | reflexivity | by apply Qc_is_canon].
  - intros Hraised.
    apply (Hexit trade_with_children _ (num 110)) in Hraised;
      [| reflexivity | reflexivity].
    destruct Hraised as [[_ Hz] | Hz]; by vm_compute in Hz.
Defined.

(** ** Replaying a fill *)

Lemma exit_prices_fail_raises (self : IM.t) (data : traded_data) (filled : Qc) :
  exit_prices_fail self data ->
  IM.order_traded_exit_prices self data filled = Raised ZeroDivisionError self.
Proof.
  unfold exit_prices_fail, IM.order_traded_exit_prices, IM.add_exec_pl.
  destruct (pos_of (t_avg_price data)) as [a | ];
    [| destruct (pos_of (t_exec_price data)) as [p | ]]; [| | done].
  - intros [Hdir Hz].
    destruct (decide (0 < ST.dir self)%Z);
      [| destruct (decide (ST.dir self < 0)%Z); [| lia]];
      by rewrite truediv_zero.
  - intros [Hdir Hz].
    destruct (decide (0 < ST.dir self)%Z);
      [| destruct (decide (ST.dir self < 0)%Z); [| lia]];
      by rewrite truediv_zero.
Qed.

Lemma exit_prices_ok (self : IM.t) (data : traded_data) (c : Qc) :
  0 < c -> ~ exit_prices_fail self data ->
  exists pl' axp',
    IM.order_traded_exit_prices self data (c - ST.x self)
    = Returned tt (IM.upd (ST.set_axp axp') (IM.upd (ST.set_pl pl') self)).
Proof.
  intros Hc. unfold exit_prices_fail, IM.order_traded_exit_prices, IM.add_exec_pl.
  destruct (pos_of (t_avg_price data)) as [a | ];
    [| destruct (pos_of (t_exec_price data)) as [p | ]]; intros Hok.
  - destruct (decide (0 < ST.dir self)%Z);
      [| destruct (decide (ST.dir self < 0)%Z)].
    + rewrite truediv_ok by (intros Hz; apply Hok; split; [lia | done]).
      cbn. eauto.
    + rewrite truediv_ok by (intros Hz; apply Hok; split; [lia | done]).
      cbn. eauto.
    + exists (ST.pl self), a. by rewrite upd_pl_id.
  - assert (Hdiv : forall n, truediv n (ST.x self + (c - ST.x self)) = inr (n / c)).
    { intros n. replace (ST.x self + (c - ST.x self)) with c by ring.
      by rewrite truediv_ok by (by apply Qc_pos_neq0). }
    destruct (decide (0 < ST.dir self)%Z);
      [| destruct (decide (ST.dir self < 0)%Z)].
    + rewrite truediv_ok by (intros Hz; apply Hok; split; [lia | done]).
      cbn. rewrite Hdiv. cbn. eauto.
    + rewrite truediv_ok by (intros Hz; apply Hok; split; [lia | done]).
      cbn. rewrite Hdiv. cbn. eauto.
    + cbn. rewrite Hdiv. cbn. eexists (ST.pl self), _. by rewrite upd_pl_id.
  - exists (ST.pl self), (ST.axp self). by rewrite upd_pl_axp_id.
Qed.

(** The condition is decidable. *)
Lemma exit_prices_fail_dec (self : IM.t) (data : traded_data) :
  exit_prices_fail self data \/ ~ exit_prices_fail self data.
Proof.
  unfold exit_prices_fail.
  destruct (pos_of (t_avg_price data)) as [a | ];
    [| destruct (pos_of (t_exec_price data)) as [p | ]]; [| | tauto].
  - destruct (decide (ST.dir self = 0%Z)), (decide (ST.aep self = 0)); tauto.
  - destruct (decide (ST.dir self = 0%Z)),
      (decide (ST.aep self * ST.e self = 0)); tauto.
Qed.

(** The exit branch on an event with a positive cumulative quantity [c]:
    either the price part divides by zero and the trade is untouched, or
    [pl], [axp], [x] and the exit state are assigned and nothing else. *)
Lemma order_traded_exit_cum (self : IM.t) (data : traded_data) (c : Qc) :
  t_cumulative_filled data = Some c -> 0 < c ->
  (exit_prices_fail self data
   /\ IM.order_traded_exit self data = Raised ZeroDivisionError self)
  \/ (~ exit_prices_fail self data
      /\ exists pl' axp',
          state_of (IM.order_traded_exit self data)
          = IM.upd (ST.set_exit_state
                      (if decide (ST.oq self <= c) then ST.STATE_FILLED
                       else ST.STATE_PARTIALLY_FILLED))
              (IM.upd (ST.set_x c)
                 (IM.upd (ST.set_axp axp') (IM.upd (ST.set_pl pl') self)))).
Proof.
  intros Hc Hpos. unfold IM.order_traded_exit.
  rewrite (fill_qty_cum data _ c Hc Hpos), Hc.
  destruct (exit_prices_fail_dec self data) as [Hfail | Hok]; [left | right].
  - split; [done |]. by rewrite exit_prices_fail_raises.
  - split; [done |].
    destruct (exit_prices_ok self data c Hpos Hok) as (pl' & axp' & ->).
    exists pl', axp'. cbn. repeat case_decide; done.
Qed.

(** In exact arithmetic (rounding left out), replaying a
    [SIGNAL_ORDER_TRADED] event that carries a positive cumulative filled
    quantity leaves [e], [aep], the entry state and the exit state as the
    first application left them.  In binary64 [aep] can move: see
    [traded_replay_in_binary64]. *)
Theorem traded_replay_idempotent (self : IM.t) (data : traded_data)
    (ref_order_id : option string) (c : Qc) :
  t_cumulative_filled data = Some c -> 0 < c ->
  let s1 := state_of (IM.order_signal self (SIGNAL_ORDER_TRADED data)
                        ref_order_id) in
  let s2 := state_of (IM.order_signal s1 (SIGNAL_ORDER_TRADED data)
                        ref_order_id) in
  ST.e s2 = ST.e s1 /\ ST.aep s2 = ST.aep s1
  /\ ST._entry_state s2 = ST._entry_state s1
  /\ ST._exit_state s2 = ST._exit_state s1.
Proof.
  intros Hc Hpos s1.
  destruct (decide (Some (t_id data) = IM.create_oid self)) as [Hentry | Hentry];
    [| destruct (decide (Some (t_id data) = IM.limit_oid self
                         \/ Some (t_id data) = IM.stop_oid self))
         as [Hexit | Hexit]].
  - (* the entry order *)
    assert (Hs1 : s1 = IM.upd (ST.set_entry_state
                                 (if decide (ST.oq self <= c)
                                  then ST.STATE_FILLED
                                  else ST.STATE_PARTIALLY_FILLED))
                         (IM.upd (ST.set_e c)
                            (IM.upd (ST.set_aep (entry_price_after self data c))
                               self))).
    { subst s1. unfold IM.order_signal. rewrite decide_True by exact Hentry.
      rewrite (order_traded_entry_cum self data c Hc Hpos). cbn zeta.
      repeat case_decide; done. }
    clearbody s1. subst s1. intros s2. subst s2.
    unfold IM.order_signal. cbn [IM.create_oid IM.upd].
    rewrite decide_True by exact Hentry.
    rewrite (order_traded_entry_cum _ data c Hc Hpos). cbn zeta.
    assert (Hprice : forall st,
      entry_price_after
        (IM.upd (ST.set_entry_state st)
           (IM.upd (ST.set_e c)
              (IM.upd (ST.set_aep (entry_price_after self data c)) self)))
        data c
      = entry_price_after self data c).
    { intros st. unfold entry_price_after. cbn.
      destruct (pos_of (t_avg_price data)) as [a | ];
        [| destruct (pos_of (t_exec_price data)) as [p | ]]; try done.
      field. by apply Qc_pos_neq0. }
    rewrite Hprice. cbn.
    repeat case_decide; cbn; done.
  - (* a child order *)
    assert (Hs1 : s1 = state_of (IM.order_traded_exit self data)).
    { subst s1. unfold IM.order_signal.
      rewrite decide_False by exact Hentry. by rewrite decide_True by exact Hexit. }
    assert (Hs2 : forall s : IM.t,
               IM.create_oid s = IM.create_oid self ->
               IM.limit_oid s = IM.limit_oid self ->
               IM.stop_oid s = IM.stop_oid self ->
               state_of (IM.order_signal s (SIGNAL_ORDER_TRADED data) ref_order_id)
               = state_of (IM.order_traded_exit s data)).
    { intros s Hce Hl Hs. unfold IM.order_signal. rewrite Hce, Hl, Hs.
      rewrite decide_False by exact Hentry. by rewrite decide_True by exact Hexit. }
    clearbody s1. subst s1. intros s2. subst s2.
    destruct (order_traded_exit_cum self data c Hc Hpos)
      as [[Hfail Hraise] | [Hok (pl' & axp' & Hs1)]].
    + rewrite Hraise. cbn [state_of]. rewrite Hs2 by done. by rewrite Hraise.
    + rewrite Hs1. set (s1 := IM.upd _ _). rewrite Hs2 by done.
      destruct (order_traded_exit_cum s1 data c Hc Hpos)
        as [[Hfail _] | [_ (pl'' & axp'' & ->)]]; [by destruct Hok |].
      subst s1. cbn. done.
  - (* no order of this trade *)
    assert (Hs1 : s1 = self).
    { subst s1. unfold IM.order_signal.
      rewrite decide_False by exact Hentry. by rewrite decide_False by exact Hexit. }
    clearbody s1. subst s1. intros s2. subst s2. unfold IM.order_signal.
    rewrite decide_False by exact Hentry. by rewrite decide_False by exact Hexit.
Qed.

Lemma traded_replay_idempotent_witness :
  let s1 := state_of (IM.order_signal opened_entry_10
                        (SIGNAL_ORDER_TRADED first_partial_fill) None) in
  let s2 := state_of (IM.order_signal s1
                        (SIGNAL_ORDER_TRADED first_partial_fill) None) in
  ST.e s2 = ST.e s1 /\ ST.aep s2 = ST.aep s1
  /\ ST._entry_state s2 = ST._entry_state s1
  /\ ST._exit_state s2 = ST._exit_state s1.
Proof.
  apply (traded_replay_idempotent opened_entry_10 first_partial_fill None
           (num 4)); [reflexivity | by apply (bool_decide_unpack _)].
Defined.

(** ** The average entry price of a sequence of fills *)

Lemma last_cum_last (prev : Qc) (evs : list traded_data) :
  evs <> [] -> list.last (cum_of <$> evs) = Some (last_cum prev evs).
Proof.
  revert prev. induction evs as [| d evs IH]; intros prev Hne; [done |].
  destruct evs as [| d' evs]; [done |].
  change (list.last (cum_of <$> d :: d' :: evs))
    with (list.last (cum_of <$> d' :: evs)).
  change (last_cum prev (d :: d' :: evs)) with (last_cum (cum_of d) (d' :: evs)).
  by apply IH.
Qed.

Lemma volume_from_telescopes (prev : Qc) (evs : list traded_data) :
  volume_from prev evs = last_cum prev evs - prev.
Proof.
  revert prev. induction evs as [| d evs IH]; intros prev; cbn.
  - ring.
  - rewrite IH. ring.
Qed.

Lemma increasing_last_cum (prev : Qc) (evs : list traded_data) :
  increasing_from prev evs -> prev <= last_cum prev evs.
Proof.
  revert prev. induction evs as [| d evs IH]; intros prev Hinc; cbn.
  - apply Qcle_refl.
  - destruct Hinc as [Hlt Hinc]. eapply Qcle_trans; [| by apply IH].
    by apply Qclt_le_weak.
Qed.

(** One fill of the kind above on the entry order of a trade. *)
Lemma entry_exec_fill_step (self : IM.t) (oid : string)
    (ref_order_id : option string) (d : traded_data) :
  IM.create_oid self = Some oid -> exec_fill_on oid d ->
  0 <= ST.e self -> ST.e self < cum_of d ->
  let s := state_of (IM.order_signal self (SIGNAL_ORDER_TRADED d) ref_order_id) in
  IM.create_oid s = Some oid
  /\ ST.e s = cum_of d
  /\ ST.aep s * ST.e s
     = ST.aep self * ST.e self + price_of d * (cum_of d - ST.e self).
Proof.
  intros Hoid (Hid & Havg & [c Hc] & (p & Hp & Hppos)) He Hlt s.
  assert (Hcum : cum_of d = c) by (unfold cum_of; by rewrite Hc).
  assert (Hprice : price_of d = p) by (unfold price_of; by rewrite Hp).
  rewrite Hcum in *. rewrite Hprice.
  assert (Hcpos : 0 < c) by (eapply Qcle_lt_trans; eassumption).
  subst s. unfold IM.order_signal.
  rewrite decide_True by congruence.
  rewrite (order_traded_entry_cum self d c Hc Hcpos). cbn zeta.
  unfold entry_price_after. rewrite Havg, Hp, pos_of_Some by exact Hppos.
  cbn [pos_of].
  case_decide; cbn; (split; [done | split; [done |]]);
    field; by apply Qc_pos_neq0.
Qed.

(** The invariant of a run of fills: [e] is the last cumulative quantity
    and [aep * e] is the notional accumulated so far. *)
Lemma entry_exec_fills (oid : string) (ref_order_id : option string)
    (evs : list traded_data) :
  forall self : IM.t,
    IM.create_oid self = Some oid -> 0 <= ST.e self ->
    Forall (exec_fill_on oid) evs -> increasing_from (ST.e self) evs ->
    let s := apply_traded self ref_order_id evs in
    ST.e s = last_cum (ST.e self) evs
    /\ ST.aep s * ST.e s
       = ST.aep self * ST.e self + notional_from (ST.e self) evs.
Proof.
  induction evs as [| d evs IH]; intros self Hoid He Hall Hinc.
  - cbn. split; [done | ring].
  - inversion Hall as [| ? ? Hd Hrest]; subst. destruct Hinc as [Hlt Hinc].
    destruct (entry_exec_fill_step self oid ref_order_id d Hoid Hd He Hlt)
      as (Hoid' & He' & Haep').
    cbn [apply_traded fold_left].
    set (s1 := state_of _) in *.
    destruct (IH s1) as [IHe IHaep].
    + exact Hoid'.
    + rewrite He'. eapply Qcle_trans; [exact He | by apply Qclt_le_weak].
    + exact Hrest.
    + by rewrite He'.
    + cbn zeta in *. fold (apply_traded s1 ref_order_id evs).
      split.
      * rewrite IHe, He'. done.
      * rewrite IHaep, Haep', He'. cbn [notional_from]. ring.
Qed.

(** In exact arithmetic (rounding left out), fills of the entry order with
    strictly increasing cumulative quantities, each with a positive
    exec-price and no avg-price, applied in order to a trade with nothing
    filled, leave [aep] equal to the quantity-weighted average of the exec
    prices and [e] equal to the last cumulative quantity.  In binary64
    [aep] is the rounded result of the same steps: see
    [entry_fills_follow_recurrence]. *)
Theorem entry_fills_weighted_average (self : IM.t) (oid : string)
    (ref_order_id : option string) (evs : list traded_data) :
  IM.create_oid self = Some oid -> ST.e self = 0 -> evs <> [] ->
  Forall (exec_fill_on oid) evs -> increasing_from 0 evs ->
  let s := apply_traded self ref_order_id evs in
  ST.aep s = weighted_average_price evs
  /\ list.last (cum_of <$> evs) = Some (ST.e s).
Proof.
  intros Hoid He Hne Hall Hinc s.
  destruct (entry_exec_fills oid ref_order_id evs self Hoid) as [Hes Haeps].
  - rewrite He. apply Qcle_refl.
  - exact Hall.
  - by rewrite He.
  - fold s in Hes, Haeps. rewrite He in Hes, Haeps.
    assert (Hpos : 0 < last_cum 0 evs).
    { destruct evs as [| d evs]; [done |]. destruct Hinc as [Hlt Hinc].
      cbn. eapply Qclt_le_trans; [exact Hlt | by apply increasing_last_cum]. }
    split.
    + unfold weighted_average_price. rewrite volume_from_telescopes.
      replace (notional_from 0 evs) with (ST.aep s * ST.e s)
        by (rewrite Haeps; ring).
      rewrite Hes. field. replace (last_cum 0 evs - 0) with (last_cum 0 evs) by ring.
      by apply Qc_pos_neq0.
    + rewrite Hes. by apply last_cum_last.
Qed.

Lemma entry_fills_weighted_average_witness :
  let s := apply_traded opened_entry_10 None [first_partial_fill; second_fill] in
  ST.aep s = weighted_average_price [first_partial_fill; second_fill]
  /\ list.last (cum_of <$> [first_partial_fill; second_fill]) = Some (ST.e s).
Proof.
  apply (entry_fills_weighted_average opened_entry_10 "E1" None
           [first_partial_fill; second_fill]).
  - reflexivity.
  - reflexivity.
  - discriminate.
  - repeat constructor; try (by eexists);
      (eexists; split; [reflexivity | by apply (bool_decide_unpack _)]).
  - repeat split; by apply (bool_decide_unpack _).
Defined.

(** The two fills of 4 units at 100 and 6 units at 103 give an average entry
    price of 101.8; the second one brings the entry to FILLED. *)
Example two_fills_average :
  let s := apply_traded opened_entry_10 None [first_partial_fill; second_fill] in
  ST.aep s = Qc_of_Z 509 / Qc_of_Z 5 /\ ST.e s = num 10
  /\ ST._entry_state s = ST.STATE_FILLED.
Proof.
  cbn zeta. repeat split; try (apply Qc_is_canon; reflexivity).
Qed.

(** * Further properties of the code *)

(** ** The life cycle tests of a trade ([StrategyTrade]) *)

Lemma is_active_true (self : ST.t) :
  ST.is_active self = Some true
  <-> ST._exit_state self <> ST.STATE_FILLED
      /\ 0 < ST.e self /\ ST.x self < ST.e self.
Proof.
  unfold ST.is_active. repeat case_decide; split; try done; try tauto.
Qed.

(** X1: a trade that [is_active()] reports active, and whose exit quantity is
    below the ordered quantity, cannot be deleted: [can_delete()] returns
    False whatever the entry and exit states are. *)
Theorem active_trade_cannot_be_deleted (self : ST.t) :
  ST.is_active self = Some true -> ST.x self < ST.oq self ->
  ST.can_delete self = false.
Proof.
  rewrite is_active_true. intros (Hexit & He & Hxe) Hx.
  unfold ST.can_delete.
  rewrite decide_False by tauto.
  rewrite decide_False.
  - by rewrite decide_True.
  - intros [_ [Hle | Hle]];
      [exact (Qclt_not_le _ _ Hxe Hle) | exact (Qclt_not_le _ _ Hx Hle)].
Qed.

Lemma active_trade_cannot_be_deleted_witness :
  ST.can_delete (IM.super long_5_bought_2_sold) = false.
Proof.
  apply (active_trade_cannot_be_deleted (IM.super long_5_bought_2_sold));
    [reflexivity | by apply (bool_decide_unpack _)].
Defined.

Lemma is_closed_true (self : ST.t) :
  ST.is_closed self = true
  <-> ST._exit_state self = ST.STATE_FILLED /\ ST.e self <= ST.x self.
Proof.
  unfold ST.is_closed. rewrite andb_true_iff, !bool_decide_eq_true. tauto.
Qed.

(** X2: a trade that [is_closed()] reports closed is not active
    ([is_active()] returns False, not None), and it can be deleted as soon
    as its entry state is neither NEW nor OPENED. *)
Theorem closed_trade_not_active_and_deletable (self : ST.t) :
  ST.is_closed self = true ->
  ST.is_active self = Some false
  /\ (ST._entry_state self <> ST.STATE_NEW ->
      ST._entry_state self <> ST.STATE_OPENED ->
      ST.can_delete self = true).
Proof.
  rewrite is_closed_true. intros [Hexit Hle]. split.
  - unfold ST.is_active. by rewrite decide_True.
  - intros Hnew Hopened. unfold ST.can_delete.
    repeat case_decide; try done; exfalso.
    all: destruct_and?; destruct_or?; try tauto; try congruence.
    all: try (eapply Qclt_not_le; eassumption).
    all: match goal with
         | H : ST._exit_state _ = ST.STATE_NEW |- _ => rewrite Hexit in H; discriminate H
         | H : ST._exit_state _ = ST.STATE_OPENED |- _ => rewrite Hexit in H; discriminate H
         end.
Qed.

Lemma closed_trade_not_active_and_deletable_witness :
  ST.is_active closed_trade = Some false /\ ST.can_delete closed_trade = true.
Proof.
  destruct (closed_trade_not_active_and_deletable closed_trade eq_refl)
    as [Hactive Hdelete].
  split; [exact Hactive | apply Hdelete; discriminate].
Defined.

(** ** The string helpers *)

(** [direction_from_str] after [direction_to_str] keeps the sign of the
    direction, and [direction_to_str] after [direction_from_str] keeps
    ['long'] and ['short'] and maps every other string to ['']. *)
Theorem direction_str_round_trip (self : ST.t) :
  ST.dir (ST.direction_from_str self (ST.direction_to_str self))
  = Z.sgn (ST.dir self)
  /\ (forall s : string,
         ST.direction_to_str (ST.direction_from_str self s)
         = if decide (s = "long") then "long"
           else if decide (s = "short") then "short" else "").
Proof.
  split.
  - unfold ST.direction_to_str.
    unfold ST.direction_from_str.
    destruct (decide (0 < ST.dir self)%Z);
      [| destruct (decide (ST.dir self < 0)%Z)];
      repeat case_decide; try done; cbn; lia.
  - intros s. unfold ST.direction_from_str.
    repeat case_decide; done.
Qed.

(** X3: [trade_type_from_str(trade_type_to_str())] gives back the trade type
    of an asset or a margin trade only: every other type, the indivisible
    margin type included, comes back as [TRADE_UNDEFINED]. *)
Theorem trade_type_str_round_trip (self : ST.t) (z : Z) :
  ST._trade_type self = VInt z ->
  ST.trade_type_from_str (ST.trade_type_to_str self)
  = (if decide (z = ST.TRADE_ASSET) then ST.TRADE_ASSET
     else if decide (z = ST.TRADE_MARGIN) then ST.TRADE_MARGIN
     else ST.TRADE_UNDEFINED).
Proof.
  intros Hz. unfold ST.trade_type_to_str. rewrite Hz. cbn.
  destruct (decide (z = ST.TRADE_ASSET)) as [-> | H0]; [done |].
  rewrite bool_decide_eq_false_2 by done.
  destruct (decide (z = ST.TRADE_MARGIN)) as [-> | H1]; [done |].
  rewrite bool_decide_eq_false_2 by done. done.
Qed.

Lemma trade_type_str_round_trip_witness :
  ST.trade_type_from_str
    (ST.trade_type_to_str (ST.__init__ ST.TRADE_IND_MARGIN (num 60)))
  = ST.TRADE_UNDEFINED.
Proof.
  exact (trade_type_str_round_trip (ST.__init__ ST.TRADE_IND_MARGIN (num 60))
           ST.TRADE_IND_MARGIN eq_refl).
Defined.

(** X4: on a trade whose type is an integer,
    [trade_state_from_str(trade, trade.trade_state_to_str(state))] gives
    back [STATE_NEW] for [STATE_NEW] and [STATE_UNDEFINED] for every other
    state: both helpers test [self._trade_type] after the first branch, the
    second one against strings. *)
Theorem trade_state_str_round_trip (self : ST.t) (z state : Z) :
  ST._trade_type self = VInt z ->
  ST.trade_state_from_str self (ST.trade_state_to_str self state)
  = (if decide (state = ST.STATE_NEW) then ST.STATE_NEW
     else ST.STATE_UNDEFINED).
Proof.
  intros Hz. unfold ST.trade_state_to_str, ST.trade_state_from_str.
  rewrite Hz. cbn.
  destruct (decide (state = ST.STATE_NEW)); [done |].
  repeat case_bool_decide; done.
Qed.

Lemma trade_state_str_round_trip_witness :
  ST.trade_state_from_str (ST.__init__ ST.TRADE_IND_MARGIN (num 60))
    (ST.trade_state_to_str (ST.__init__ ST.TRADE_IND_MARGIN (num 60))
       ST.STATE_FILLED)
  = ST.STATE_UNDEFINED.
Proof.
  exact (trade_state_str_round_trip (ST.__init__ ST.TRADE_IND_MARGIN (num 60))
           ST.TRADE_IND_MARGIN ST.STATE_FILLED eq_refl).
Defined.

(** ** The statistics of a trade *)

Lemma truthy_number (v : value) (q : Qc) :
  as_number v = Some q -> truthy v = bool_decide (q <> 0).
Proof.
  destruct v as [| b | z | q' | | |]; cbn; try done.
  - intros [= <-]. destruct b; symmetry.
    + by apply bool_decide_eq_true_2.
    + by apply bool_decide_eq_false_2; intros H; apply H.
  - intros [= <-]. apply bool_decide_ext. split.
    + intros Hz Hq. apply Hz. apply (f_equal this) in Hq. cbn in Hq.
      by injection Hq.
    + intros Hq ->. by apply Hq, Qc_is_canon.
  - by intros [= <-].
Qed.

(** [if last_price > self._stats[key]:] on a numeric entry. *)
Lemma stats_test_above {B} (stats : gmap string value) (key : string)
    (last_price : Qc) (v : value) (q : Qc) (k : bool -> error + B) :
  stats !! key = Some v -> as_number v = Some q ->
  (v0 <~ getitem stats key ;; above <~ gt_value last_price v0 ;; k above)
  = k (bool_decide (q < last_price)).
Proof.
  intros Hv Hq. unfold getitem, gt_value. rewrite Hv. cbn. by rewrite Hq.
Qed.

(** [if last_price < self._stats[key] or not self._stats[key]:] on a numeric
    entry. *)
Lemma stats_test_below_or_unset {B} (stats : gmap string value) (key : string)
    (last_price : Qc) (v : value) (q : Qc) (k : bool -> error + B) :
  stats !! key = Some v -> as_number v = Some q ->
  (v0 <~ getitem stats key ;;
   below <~ lt_value last_price v0 ;;
   unset <~ (if below then inr true
             else (v1 <~ getitem stats key ;; inr (negb (truthy v1)))) ;;
   k unset)
  = k (bool_decide (last_price < q) || bool_decide (q = 0)).
Proof.
  intros Hv Hq. unfold getitem, lt_value. rewrite Hv. cbn. rewrite Hq. cbn.
  destruct (bool_decide (last_price < q)); cbn; [done |].
  rewrite (truthy_number _ _ Hq). f_equal.
  destruct (decide (q = 0)) as [-> | Hne].
  - by rewrite bool_decide_eq_false_2, bool_decide_eq_true_2 by auto.
  - by rewrite bool_decide_eq_true_2, bool_decide_eq_false_2 by auto.
Qed.

Lemma record_price_same (key tkey : string) (p ts : Qc) (stats : gmap string value) :
  key <> tkey ->
  (record_price key tkey p ts stats !! key ≫= as_number) = Some p.
Proof.
  intros Hne. unfold record_price.
  by rewrite lookup_insert_ne, lookup_insert_eq by done.
Qed.

Lemma record_price_other (key tkey other : string) (p ts : Qc)
    (stats : gmap string value) :
  other <> key -> other <> tkey ->
  record_price key tkey p ts stats !! other = stats !! other.
Proof.
  intros H1 H2. unfold record_price. by rewrite !lookup_insert_ne by done.
Qed.

(** X5: [update_stats] on an active trade with a direction, whose best and
    worst prices are numbers, raises nothing, changes nothing but
    [_stats], and leaves a best and a worst price that bracket
    [last_price]: worst <= last_price <= best for a long trade, the reverse
    for a short one. *)
Theorem update_stats_brackets_last_price (self : ST.t) (last_price timestamp : Qc)
    (vbest vworst : value) (best worst : Qc) :
  ST.is_active self = Some true -> ST.dir self <> 0%Z ->
  ST._stats self !! "best-price" = Some vbest -> as_number vbest = Some best ->
  ST._stats self !! "worst-price" = Some vworst -> as_number vworst = Some worst ->
  exists stats,
    ST.update_stats self last_price timestamp = inr (ST.set_stats stats self)
    /\ stats_bracket (ST.dir self) stats last_price.
Proof.
  intros Hact Hdir Hb Hnb Hw Hnw. unfold ST.update_stats. rewrite Hact.
  fold (record_price "best-price" "best-timestamp" last_price timestamp
          (ST._stats self)).
  destruct (decide (0 < ST.dir self)%Z) as [Hpos | Hnpos].
  - rewrite (stats_test_above _ _ _ vbest best) by done.
    set (stats1 := if bool_decide (best < last_price) then _ else _).
    fold (record_price "worst-price" "worst-timestamp" last_price timestamp
            stats1).
    assert (Hw1 : stats1 !! "worst-price" = Some vworst).
    { subst stats1. case_bool_decide; [| done].
      by rewrite record_price_other by done. }
    rewrite (stats_test_below_or_unset _ _ _ vworst worst) by done.
    eexists. split; [reflexivity |].
    assert (Hb1 : exists b1, (stats1 !! "best-price" ≫= as_number) = Some b1
                             /\ last_price <= b1).
    { subst stats1. case_bool_decide as Habove.
      - exists last_price. split; [by apply record_price_same | apply Qcle_refl].
      - exists best. rewrite Hb. split; [done | by apply Qcnot_lt_le]. }
    destruct Hb1 as (b1 & Hb1 & Hle1).
    destruct (bool_decide (last_price < worst) || bool_decide (worst = 0))
      eqn:Hset.
    + exists b1, last_price. rewrite record_price_other by done.
      rewrite record_price_same by done.
      repeat split; try done; try lia; apply Qcle_refl.
    + apply orb_false_iff in Hset as [Hbelow _].
      apply bool_decide_eq_false_1, Qcnot_lt_le in Hbelow.
      exists b1, worst. rewrite Hw1. cbn. rewrite Hnw.
      repeat split; try done; lia.
  - rewrite decide_True by lia.
    rewrite (stats_test_below_or_unset _ _ _ vbest best) by done.
    set (stats1 := if _ || _ then _ else _).
    fold (record_price "worst-price" "worst-timestamp" last_price timestamp
            stats1).
    assert (Hw1 : stats1 !! "worst-price" = Some vworst).
    { subst stats1. destruct (_ || _); [| done].
      by rewrite record_price_other by done. }
    rewrite (stats_test_above _ _ _ vworst worst) by done.
    eexists. split; [reflexivity |].
    assert (Hb1 : exists b1, (stats1 !! "best-price" ≫= as_number) = Some b1
                             /\ b1 <= last_price).
    { subst stats1.
      destruct (bool_decide (last_price < best) || bool_decide (best = 0))
        eqn:Hset.
      - exists last_price. split; [by apply record_price_same | apply Qcle_refl].
      - apply orb_false_iff in Hset as [Hbelow _].
        apply bool_decide_eq_false_1, Qcnot_lt_le in Hbelow.
        exists best. rewrite Hb. split; done. }
    destruct Hb1 as (b1 & Hb1 & Hle1).
    case_bool_decide as Habove.
    + exists b1, last_price. rewrite record_price_other by done.
      rewrite record_price_same by done.
      repeat split; try done; try lia; apply Qcle_refl.
    + apply Qcnot_lt_le in Habove.
      exists b1, worst. rewrite Hw1. cbn. rewrite Hnw.
      repeat split; try done; lia.
Qed.

Lemma update_stats_brackets_last_price_witness :
  exists stats,
    ST.update_stats (IM.super long_5_bought_2_sold) (num 104) (num 2000)
    = inr (ST.set_stats stats (IM.super long_5_bought_2_sold))
    /\ stats_bracket (ST.dir (IM.super long_5_bought_2_sold)) stats (num 104).
Proof.
  apply (update_stats_brackets_last_price (IM.super long_5_bought_2_sold)
           (num 104) (num 2000) (VFloat 0) (VFloat 0) 0 0);
    [reflexivity | discriminate | reflexivity ..].
Defined.

(** [update_stats] on an active trade with a direction raises [KeyError]
    when [_stats] has no ['best-price']. *)
Theorem update_stats_missing_key (self : ST.t) (last_price timestamp : Qc) :
  ST.is_active self = Some true -> ST.dir self <> 0%Z ->
  ST._stats self !! "best-price" = None ->
  ST.update_stats self last_price timestamp = inl (KeyError "best-price").
Proof.
  intros Hact Hdir Hnone. unfold ST.update_stats, getitem.
  rewrite Hact, Hnone.
  destruct (decide (0 < ST.dir self)%Z); [done |].
  by rewrite decide_True by lia.
Qed.

(** X6: [add_condition(name, data)] on a trade whose [_stats['conditions']]
    is a dict raises nothing; afterwards [get_conditions()] is that dict
    with [name] bound to [data], its other keys are as before, and so are
    the other statistics and every other slot. *)
Theorem add_condition_lookup (self : ST.t) (name : string) (data : value)
    (conditions : gmap string value) :
  ST._stats self !! "conditions" = Some (VDict conditions) ->
  exists self',
    ST.add_condition self name data = inr self'
    /\ ST.get_conditions self' = inr (VDict (<[name := data]> conditions))
    /\ (<[name := data]> conditions) !! name = Some data
    /\ (forall other, other <> name ->
          (<[name := data]> conditions) !! other = conditions !! other)
    /\ (forall key, key <> "conditions" ->
          ST._stats self' !! key = ST._stats self !! key)
    /\ ST.set_stats (ST._stats self') self = self'.
Proof.
  intros Hc. unfold ST.add_condition, ST.get_conditions, getitem.
  rewrite Hc. cbn. eexists. split; [reflexivity |]. cbn.
  rewrite lookup_insert_eq. split; [done |].
  split; [by rewrite lookup_insert_eq |].
  split; [intros other Hne; by rewrite lookup_insert_ne |].
  split; [intros key Hne; by rewrite lookup_insert_ne | done].
Qed.

Lemma add_condition_lookup_witness :
  exists self',
    ST.add_condition (IM.super long_5_bought_2_sold) "rsi" (VInt 70) = inr self'
    /\ ST.get_conditions self' = inr (VDict (<[ "rsi" := VInt 70 ]> ∅))
    /\ (<[ "rsi" := VInt 70 ]> (∅ : gmap string value)) !! "rsi"
       = Some (VInt 70)
    /\ (forall other, other <> "rsi" ->
          (<[ "rsi" := VInt 70 ]> (∅ : gmap string value)) !! other
          = (∅ : gmap string value) !! other)
    /\ (forall key, key <> "conditions" ->
          ST._stats self' !! key
          = ST._stats (IM.super long_5_bought_2_sold) !! key)
    /\ ST.set_stats (ST._stats self') (IM.super long_5_bought_2_sold) = self'.
Proof.
  apply (add_condition_lookup (IM.super long_5_bought_2_sold) "rsi" (VInt 70) ∅).
  reflexivity.
Defined.

(** ** The methods that talk to the broker ([StrategyIndMarginTrade]) *)

(** The outcomes of [cancel_child]. *)
Lemma cancel_child_cases {broker} (trader : Trader broker)
    (oid : option string) (clear : IM.t -> IM.t) (self : IM.t) (b : broker) :
  (truthy_str oid = false
   /\ IM.cancel_child trader oid clear self b = (true, self, b))
  \/ (exists o, oid = Some o /\ o <> EmptyString
      /\ fst (cancel_order trader o b) = true
      /\ IM.cancel_child trader oid clear self b
         = (true, clear self, snd (cancel_order trader o b)))
  \/ (exists o, oid = Some o /\ o <> EmptyString
      /\ fst (cancel_order trader o b) = false
      /\ IM.cancel_child trader oid clear self b
         = (false, self, snd (cancel_order trader o b))).
Proof.
  unfold IM.cancel_child. destruct oid as [o |]; [| by left].
  cbn. case_bool_decide as Ho; [| by left].
  destruct (cancel_order trader o b) as [[] b'] eqn:Hc; cbn.
  - right; left. exists o. by rewrite Hc.
  - right; right. exists o. by rewrite Hc.
Qed.

Lemma cancel_child_preserves {broker} (trader : Trader broker)
    (P : IM.t -> Prop) (oid : option string) (clear : IM.t -> IM.t)
    (self : IM.t) (b : broker) :
  P self -> (forall s, P s -> P (clear s)) ->
  P (snd (fst (IM.cancel_child trader oid clear self b))).
Proof.
  intros HP Hclear.
  destruct (cancel_child_cases trader oid clear self b)
    as [[_ ->] | [(o & _ & _ & _ & ->) | (o & _ & _ & _ & ->)]]; cbn; auto.
Qed.

Lemma cancel_child_accepting {broker} (trader : Trader broker)
    (oid : option string) (clear : IM.t -> IM.t) (self : IM.t) (b : broker) :
  (forall o b, fst (cancel_order trader o b) = true) ->
  snd (fst (IM.cancel_child trader oid clear self b))
  = if truthy_str oid then clear self else self.
Proof.
  intros Hacc.
  destruct (cancel_child_cases trader oid clear self b)
    as [[Hf ->] | [(o & -> & Hne & _ & ->) | (o & _ & _ & Hno & _)]].
  - by rewrite Hf.
  - cbn. by rewrite bool_decide_eq_true_2.
  - by rewrite Hacc in Hno.
Qed.

Lemma same_accounting_refl (a : ST.t) : same_accounting a a.
Proof. by repeat split. Qed.

Lemma cancel_child_same_cancels {broker} (t1 t2 : Trader broker)
    (oid : option string) (clear : IM.t -> IM.t) (self : IM.t) (b : broker) :
  same_cancels t1 t2 ->
  IM.cancel_child t1 oid clear self b = IM.cancel_child t2 oid clear self b.
Proof.
  intros Hsame. unfold IM.cancel_child. destruct oid as [o |]; [| done].
  by rewrite Hsame.
Qed.

Lemma cancel_child_recorded (accept : bool) (P : IM.t -> Prop)
    (oid : option string) (clear : IM.t -> IM.t) (self : IM.t)
    (log0 log : list broker_call) :
  P self -> (forall s, P s -> P (clear s)) ->
  (exists cancels, log = log0 ++ cancels /\ Forall is_cancel cancels) ->
  let r := IM.cancel_child (recording_trader accept) oid clear self log in
  P (snd (fst r))
  /\ exists cancels, snd r = log0 ++ cancels /\ Forall is_cancel cancels.
Proof.
  intros HP Hclear (cs & -> & Hcs). cbn zeta.
  unfold IM.cancel_child. destruct oid as [o |]; [| cbn; eauto].
  destruct (truthy_str (Some o)); [| cbn; eauto].
  cbn. destruct accept; cbn.
  - split; [auto |]. exists (cs ++ [Cancel o]).
    rewrite app_assoc. split; [done |]. apply Forall_app. by repeat constructor.
  - split; [auto |]. exists (cs ++ [Cancel o]).
    rewrite app_assoc. split; [done |]. apply Forall_app. by repeat constructor.
Qed.

Ltac split_cancel :=
  match goal with
  | |- context [IM.cancel_child ?tr ?oid ?clear ?s ?b] =>
      let r := fresh "r" in let H := fresh "Hr" in
      destruct (IM.cancel_child tr oid clear s b) as [[? ?] ?] eqn:H
  end.

Ltac step_cancel P :=
  match goal with
  | |- context [IM.cancel_child ?tr ?oid ?clear ?s ?b] =>
      let H := fresh "Hkeep" in
      pose proof (cancel_child_preserves tr P oid clear s b) as H;
      destruct (IM.cancel_child tr oid clear s b) as [[? ?] ?];
      cbn [fst snd] in H;
      specialize (H ltac:(first [assumption | done])
                    ltac:(let s := fresh in let Hs := fresh in
                          intros s Hs; exact Hs))
  end.

Ltac step_recorded P log0 :=
  match goal with
  | Hlog : exists cancels, ?log = log0 ++ cancels /\ _
    |- context [IM.cancel_child (recording_trader ?acc) ?oid ?clear ?s ?log] =>
      let H := fresh "Hkeep" in
      let Hl := fresh "Hlog" in
      destruct (cancel_child_recorded acc P oid clear s log0 log) as [H Hl];
      [ first [assumption | done]
      | (let s := fresh in let Hs := fresh in intros s Hs; exact Hs)
      | exact Hlog
      | clear Hlog;
        destruct (IM.cancel_child (recording_trader acc) oid clear s log)
          as [[? ?] ?]; cbn [fst snd] in H, Hl ]
  end.

(** X7: [cancel_open(trader)] returns False only when the trade has an entry
    order id and then leaves the trade unchanged; when it returns True the
    trade has no entry order id, and if it had one the entry order id and
    reference are None and the entry state is CANCELED; quantities, prices,
    direction and profit-loss rate are never touched. *)
Theorem cancel_open_outcome {broker} (trader : Trader broker) (self : IM.t)
    (b : broker) :
  let '(ok, self', b') := IM.cancel_open trader self b in
  (ok = false -> self' = self /\ truthy_str (IM.create_oid self) = true)
  /\ (ok = true -> truthy_str (IM.create_oid self') = false)
  /\ (ok = true -> truthy_str (IM.create_oid self) = true ->
      IM.create_oid self' = None /\ IM.create_ref_oid self' = None
      /\ ST._entry_state self' = ST.STATE_CANCELED)
  /\ same_accounting self' self.
Proof.
  unfold IM.cancel_open.
  destruct (cancel_child_cases trader (IM.create_oid self)
    (fun self => IM.upd (ST.set_entry_state ST.STATE_CANCELED)
                   (IM.set_create_oid None (IM.set_create_ref_oid None self)))
    self b) as [[Hf ->] | [(o & Ho & Hne & Hok & ->) | (o & Ho & Hne & Hok & ->)]].
  - split; [done |]. split; [done |]. split; [| done].
    intros _ Ht. by rewrite Hf in Ht.
  - split; [done |]. split; [done |]. split; done.
  - split; [| done]. intros _. split; [done |].
    rewrite Ho. cbn. by apply bool_decide_eq_true_2.
Qed.

(** X8: after [remove(trader)], with a broker that accepts every cancel
    request, the trade holds no entry, stop or limit order id. *)
Theorem remove_accepted_leaves_no_order {broker} (trader : Trader broker)
    (self : IM.t) (b : broker) :
  (forall o b, fst (cancel_order trader o b) = true) ->
  let self' := fst (IM.remove trader self b) in
  truthy_str (IM.create_oid self') = false
  /\ truthy_str (IM.stop_oid self') = false
  /\ truthy_str (IM.limit_oid self') = false.
Proof.
  intros Hacc. unfold IM.remove.
  pose proof (cancel_child_accepting trader (IM.create_oid self)
    (fun self => IM.upd (ST.set_entry_state ST.STATE_CANCELED)
                   (IM.set_create_oid None (IM.set_create_ref_oid None self)))
    self b Hacc) as H1.
  split_cancel. cbn in H1. subst.
  match goal with |- context [IM.cancel_child _ _ _ ?s ?b0] =>
    pose proof (cancel_child_accepting trader (IM.stop_oid s)
      (fun self => IM.set_stop_order_qty 0
                     (IM.set_stop_oid None (IM.set_stop_ref_oid None self)))
      s b0 Hacc) as H2 end.
  split_cancel. cbn in H2. subst.
  match goal with |- context [IM.cancel_child _ _ _ ?s ?b0] =>
    pose proof (cancel_child_accepting trader (IM.limit_oid s)
      (fun self => IM.set_limit_order_qty 0
                     (IM.set_limit_oid None (IM.set_limit_ref_oid None self)))
      s b0 Hacc) as H3 end.
  split_cancel. cbn in H3. subst. cbn.
  destruct (truthy_str (IM.create_oid self)) eqn:Hc;
    destruct (truthy_str (IM.stop_oid self)) eqn:Hs;
    destruct (truthy_str (IM.limit_oid self)) eqn:Hl;
    cbn; rewrite ?Hs, ?Hl; cbn; rewrite ?Hl; cbn; rewrite ?Hc, ?Hs, ?Hl; done.
Qed.

Lemma remove_accepted_leaves_no_order_witness :
  let self' := fst (IM.remove (recording_trader true) trade_with_children []) in
  truthy_str (IM.create_oid self') = false
  /\ truthy_str (IM.stop_oid self') = false
  /\ truthy_str (IM.limit_oid self') = false.
Proof.
  apply (remove_accepted_leaves_no_order (recording_trader true)
           trade_with_children []).
  intros o b. reflexivity.
Defined.

(** X9: [remove], [cancel_open], [close], [modify_take_profit] and
    [modify_stop_loss] never change the filled quantities, the average
    prices, the ordered quantity, the direction or the profit-loss rate of
    the trade, whatever the broker answers. *)
Theorem broker_methods_keep_accounting {broker} (trader : Trader broker)
    (self : IM.t) (market_id : string) (price : Qc) (b : broker) :
  same_accounting (fst (IM.remove trader self b)) self
  /\ same_accounting (snd (fst (IM.cancel_open trader self b))) self
  /\ same_accounting (snd (fst (IM.close trader self market_id b))) self
  /\ same_accounting
       (snd (fst (IM.modify_take_profit trader self market_id price b))) self
  /\ same_accounting
       (snd (fst (IM.modify_stop_loss trader self market_id price b))) self.
Proof.
  pose proof (same_accounting_refl self) as Hrefl.
  repeat split.
  all: lazymatch goal with
       | |- context [IM.remove] => unfold IM.remove
       | |- context [IM.cancel_open] => unfold IM.cancel_open
       | |- context [IM.close] => unfold IM.close
       | |- context [IM.modify_take_profit] => unfold IM.modify_take_profit
       | |- context [IM.modify_stop_loss] => unfold IM.modify_stop_loss
       end.
  all: repeat step_cancel (fun s : IM.t => same_accounting s self).
  all: repeat case_decide; repeat case_match; cbn; try apply Hkeep;
    try apply Hkeep0; try apply Hkeep1.
Qed.

(** X10: [close(trader, market_id)] never changes [limit_oid] or the two
    child quantities, whatever the broker answers; when the broker accepts
    every cancel request, the cancel of a limit order clears
    [limit_ref_oid] only (the trade keeps the id of the canceled order),
    while the cancel of a stop order clears [stop_oid] (and [stop_ref_oid],
    until the market order takes it) and the cancel of the entry order
    clears both its id and its reference. *)
Theorem close_keeps_limit_order_id {broker} (trader : Trader broker)
    (self : IM.t) (market_id : string) (b : broker) :
  let self' := snd (fst (IM.close trader self market_id b)) in
  (IM.limit_oid self' = IM.limit_oid self
   /\ IM.limit_order_qty self' = IM.limit_order_qty self
   /\ IM.stop_order_qty self' = IM.stop_order_qty self)
  /\ ((forall o b, fst (cancel_order trader o b) = true) ->
      (truthy_str (IM.limit_oid self) = true ->
       IM.limit_ref_oid self' = None)
      /\ (truthy_str (IM.limit_oid self) = false ->
          IM.limit_ref_oid self' = IM.limit_ref_oid self)
      /\ (truthy_str (IM.stop_oid self) = true -> IM.stop_oid self' = None)
      /\ (truthy_str (IM.stop_oid self) = true -> ST.e self <= ST.x self ->
          IM.stop_ref_oid self' = None)
      /\ (truthy_str (IM.create_oid self) = true ->
          IM.create_oid self' = None /\ IM.create_ref_oid self' = None)).
Proof.
  cbn zeta. split.
  - unfold IM.close.
    repeat step_cancel (fun s : IM.t =>
      IM.limit_oid s = IM.limit_oid self
      /\ IM.limit_order_qty s = IM.limit_order_qty self
      /\ IM.stop_order_qty s = IM.stop_order_qty self).
    repeat case_decide; repeat case_match; cbn; done.
  - intros Hacc. unfold IM.close.
    pose proof (cancel_child_accepting trader (IM.create_oid self)
      (fun self => IM.upd (ST.set_entry_state ST.STATE_CANCELED)
                     (IM.set_create_oid None (IM.set_create_ref_oid None self)))
      self b Hacc) as H1.
    split_cancel. cbn in H1. subst.
    match goal with |- context [IM.cancel_child _ _ _ ?s ?b0] =>
      pose proof (cancel_child_accepting trader (IM.stop_oid s)
        (fun self => IM.set_stop_oid None (IM.set_stop_ref_oid None self))
        s b0 Hacc) as H2 end.
    split_cancel. cbn in H2. subst.
    match goal with |- context [IM.cancel_child _ _ _ ?s ?b0] =>
      pose proof (cancel_child_accepting trader (IM.limit_oid s)
        (fun self => IM.set_limit_ref_oid None self)
        s b0 Hacc) as H3 end.
    split_cancel. cbn in H3. subst.
    destruct (truthy_str (IM.create_oid self)) eqn:Hc;
      destruct (truthy_str (IM.stop_oid self)) eqn:Hs;
      destruct (truthy_str (IM.limit_oid self)) eqn:Hl;
      cbn; rewrite ?Hs, ?Hl; cbn; rewrite ?Hl; cbn.
    all: repeat case_decide; repeat case_match; cbn;
      repeat split; try done; intros; try done.
    all: exfalso;
      match goal with H : _ <= _ |- _ => destruct (Qcle_lt_or_eq _ _ H) end;
      done.
Qed.

Lemma close_keeps_limit_order_id_witness :
  let self' := snd (fst (IM.close (recording_trader true) trade_with_children
                           "BTCUSD" [])) in
  IM.limit_oid self' = Some "L1" /\ IM.limit_ref_oid self' = None
  /\ IM.stop_oid self' = None
  /\ IM.is_target_order self' (Some "L1") None = true
  /\ IM.is_target_order self' (Some "S1") None = false.
Proof.
  destruct (close_keeps_limit_order_id (recording_trader true)
              trade_with_children "BTCUSD" [])
    as [(Hoid & _) Hcleared].
  destruct Hcleared as (Hlimit & _ & Hstop & _); [intros o b; reflexivity |].
  cbn zeta. specialize (Hlimit eq_refl). specialize (Hstop eq_refl).
  split; [exact Hoid |]. split; [exact Hlimit |]. split; [exact Hstop |].
  unfold IM.is_target_order. rewrite Hoid, Hstop. split; reflexivity.
Defined.

(** X11: when nothing is left to sell ([e <= x]), [close] sends no new order:
    its result, the trade and the broker afterwards are the same for two
    traders that answer cancel requests alike, and it returns True exactly
    when [e == x]. *)
Theorem close_nothing_left_places_no_order {broker} (t1 t2 : Trader broker)
    (self : IM.t) (market_id : string) (b : broker) :
  same_cancels t1 t2 -> ST.e self <= ST.x self ->
  IM.close t1 self market_id b = IM.close t2 self market_id b
  /\ fst (fst (IM.close t1 self market_id b))
     = bool_decide (ST.e self = ST.x self).
Proof.
  intros Hsame Hle. unfold IM.close.
  do 3 (rewrite (cancel_child_same_cancels t1 t2 _ _ _ _ Hsame);
        step_cancel (fun s : IM.t => ST.e s = ST.e self /\ ST.x s = ST.x self)).
  destruct Hkeep1 as [He Hx]. rewrite He, Hx.
  destruct (decide (ST.e self = ST.x self)) as [Heq | Hne].
  - by rewrite bool_decide_eq_true_2.
  - rewrite bool_decide_eq_false_2 by done.
    destruct (decide (ST.e self < ST.x self)) as [Hlt | Hnlt]; [done |].
    apply Qcle_lt_or_eq in Hle as [? | ?]; done.
Qed.

Lemma close_nothing_left_places_no_order_witness :
  IM.close (recording_trader true) trade_with_children_sold "BTCUSD" []
  = IM.close cancel_only_trader trade_with_children_sold "BTCUSD" []
  /\ fst (fst (IM.close (recording_trader true) trade_with_children_sold
                 "BTCUSD" []))
     = bool_decide (ST.e trade_with_children_sold = ST.x trade_with_children_sold).
Proof.
  apply (close_nothing_left_places_no_order (recording_trader true)
           cancel_only_trader trade_with_children_sold "BTCUSD" []).
  - intros o b. reflexivity.
  - by apply (bool_decide_unpack _).
Defined.

(** X12: with a quantity left to sell ([x < e]), the requests [close] sends
    to the broker are cancel requests followed by the creation of one
    market order on [market_id], in the direction opposite to the trade,
    for the quantity [e - x]; this holds whether the broker accepts or
    refuses. *)
Theorem close_sends_market_order (accept : bool) (self : IM.t)
    (market_id : string) (log : list broker_call) :
  ST.x self < ST.e self ->
  exists cancels order,
    snd (IM.close (recording_trader accept) self market_id log)
    = log ++ cancels ++ [Create order]
    /\ Forall is_cancel cancels
    /\ Order.order_type_ order = Some Order.ORDER_MARKET
    /\ Order.direction order = (- ST.dir self)%Z
    /\ Order.quantity order = ST.e self - ST.x self
    /\ Order.market_id order = market_id.
Proof.
  intros Hlt. unfold IM.close.
  assert (Hlog : exists cancels, log = log ++ cancels /\ Forall is_cancel cancels)
    by (exists []; by rewrite app_nil_r).
  do 3 step_recorded (fun s : IM.t =>
    ST.e s = ST.e self /\ ST.x s = ST.x self /\ ST.dir s = ST.dir self) log.
  destruct Hkeep1 as (He & Hx & Hd). rewrite He, Hx, Hd.
  match goal with H : exists cancels, _ = log ++ cancels /\ _ |- _ =>
    destruct H as (cs & -> & Hcs) end.
  rewrite decide_False
    by (intros Heq; apply (Qclt_not_eq _ _ Hlt); by symmetry).
  rewrite decide_False
    by (intros Hgt; apply (Qclt_not_le _ _ Hlt); by apply Qclt_le_weak).
  cbn. exists cs. eexists.
  destruct accept; cbn; rewrite <- app_assoc; split; try done; repeat split; done.
Qed.

Lemma close_sends_market_order_witness :
  exists cancels order,
    snd (IM.close (recording_trader true) trade_with_children "BTCUSD" [])
    = [] ++ cancels ++ [Create order]
    /\ Forall is_cancel cancels
    /\ Order.order_type_ order = Some Order.ORDER_MARKET
    /\ Order.direction order = (- ST.dir trade_with_children)%Z
    /\ Order.quantity order = ST.e trade_with_children - ST.x trade_with_children
    /\ Order.market_id order = "BTCUSD".
Proof.
  apply (close_sends_market_order true trade_with_children "BTCUSD" []).
  by apply (bool_decide_unpack _).
Defined.

(** X13: with a quantity left ([x < e], [0 < e]) and a broker that records
    and accepts every request, and may adjust the order it creates,
    [modify_take_profit] returns True after sending cancel requests and one
    take-profit limit order at [price] for [e - x] in the direction of the
    trade; it records [tp = price], the reference of the order, and as
    limit order id and quantity those of the order as the broker left it.
    [modify_stop_loss] does the same with a reduce-only stop order, [sl] and
    the stop slots. *)
Theorem modify_sends_child_order (adjust : Order.t -> Order.t) (self : IM.t)
    (market_id : string) (price : Qc) (log : list broker_call) :
  ST.x self < ST.e self -> 0 < ST.e self ->
  (exists cancels order self',
      IM.modify_take_profit (adjusting_trader adjust) self market_id price log
      = (true, self', log ++ cancels ++ [Create order])
      /\ Forall is_cancel cancels
      /\ Order.market_id order = market_id
      /\ Order.order_type_ order = Some Order.ORDER_TAKE_PROFIT_LIMIT
      /\ Order.direction order = ST.dir self
      /\ Order.quantity order = ST.e self - ST.x self
      /\ Order.order_price order = Some price
      /\ Order.ref_order_id order = Some "ref"
      /\ ST.tp self' = Some price
      /\ IM.limit_ref_oid self' = Some "ref"
      /\ IM.limit_oid self' = Order.order_id (adjust order)
      /\ IM.limit_order_qty self' = Order.quantity (adjust order))
  /\ (exists cancels order self',
         IM.modify_stop_loss (adjusting_trader adjust) self market_id price log
         = (true, self', log ++ cancels ++ [Create order])
         /\ Forall is_cancel cancels
         /\ Order.market_id order = market_id
         /\ Order.order_type_ order = Some Order.ORDER_STOP
         /\ Order.reduce_only order = true
         /\ Order.direction order = ST.dir self
         /\ Order.quantity order = ST.e self - ST.x self
         /\ Order.order_price order = Some price
         /\ Order.ref_order_id order = Some "ref"
         /\ ST.sl self' = Some price
         /\ IM.stop_ref_oid self' = Some "ref"
         /\ IM.stop_oid self' = Order.order_id (adjust order)
         /\ IM.stop_order_qty self' = Order.quantity (adjust order)).
Proof.
  intros Hlt Hpos.
  assert (Hne : ST.e self <> ST.x self)
    by (intros Heq; apply (Qclt_not_eq _ _ Hlt); by symmetry).
  assert (Hnlt : ~ ST.e self < ST.x self)
    by (intros Hgt; apply (Qclt_not_le _ _ Hlt); by apply Qclt_le_weak).
  split.
  - unfold IM.modify_take_profit, IM.cancel_child.
    destruct (IM.limit_oid self) as [o |] eqn:Ho;
      [destruct (truthy_str (Some o)) |]; cbn.
    all: rewrite decide_False by exact Hne.
    all: rewrite decide_False by exact Hnlt.
    all: rewrite decide_True by exact Hpos.
    all: cbn.
    + exists [Cancel o]. eexists. eexists. rewrite <- app_assoc.
      split; [reflexivity |]. cbn. repeat split; try done. by repeat constructor.
    + exists []. eexists. eexists. split; [reflexivity |]. by cbn.
    + exists []. eexists. eexists. split; [reflexivity |]. by cbn.
  - unfold IM.modify_stop_loss, IM.cancel_child.
    destruct (IM.stop_oid self) as [o |] eqn:Ho;
      [destruct (truthy_str (Some o)) |]; cbn.
    all: rewrite decide_False by exact Hne.
    all: rewrite decide_False by exact Hnlt.
    all: rewrite decide_True by exact Hpos.
    all: cbn.
    + exists [Cancel o]. eexists. eexists. rewrite <- app_assoc.
      split; [reflexivity |]. cbn. repeat split; try done. by repeat constructor.
    + exists []. eexists. eexists. split; [reflexivity |]. by cbn.
    + exists []. eexists. eexists. split; [reflexivity |]. by cbn.
Qed.

Lemma modify_sends_child_order_witness :
  (exists cancels order self',
      IM.modify_take_profit (adjusting_trader halve_quantity)
        trade_with_children "BTCUSD" (num 112) []
      = (true, self', [] ++ cancels ++ [Create order])
      /\ Forall is_cancel cancels
      /\ Order.market_id order = "BTCUSD"
      /\ Order.order_type_ order = Some Order.ORDER_TAKE_PROFIT_LIMIT
      /\ Order.direction order = ST.dir trade_with_children
      /\ Order.quantity order
         = ST.e trade_with_children - ST.x trade_with_children
      /\ Order.order_price order = Some (num 112)
      /\ Order.ref_order_id order = Some "ref"
      /\ ST.tp self' = Some (num 112)
      /\ IM.limit_ref_oid self' = Some "ref"
      /\ IM.limit_oid self' = Order.order_id (halve_quantity order)
      /\ IM.limit_order_qty self' = Order.quantity (halve_quantity order))
  /\ (exists cancels order self',
         IM.modify_stop_loss (adjusting_trader halve_quantity)
           trade_with_children "BTCUSD" (num 112) []
         = (true, self', [] ++ cancels ++ [Create order])
         /\ Forall is_cancel cancels
         /\ Order.market_id order = "BTCUSD"
         /\ Order.order_type_ order = Some Order.ORDER_STOP
         /\ Order.reduce_only order = true
         /\ Order.direction order = ST.dir trade_with_children
         /\ Order.quantity order
            = ST.e trade_with_children - ST.x trade_with_children
         /\ Order.order_price order = Some (num 112)
         /\ Order.ref_order_id order = Some "ref"
         /\ ST.sl self' = Some (num 112)
         /\ IM.stop_ref_oid self' = Some "ref"
         /\ IM.stop_oid self' = Order.order_id (halve_quantity order)
         /\ IM.stop_order_qty self' = Order.quantity (halve_quantity order)).
Proof.
  apply (modify_sends_child_order halve_quantity trade_with_children
           "BTCUSD" (num 112) []);
    by apply (bool_decide_unpack _).
Defined.

(** The order is read back after the broker has created it. *)
Example modify_take_profit_reads_order_back :
  let r := IM.modify_take_profit (adjusting_trader halve_quantity)
             trade_with_children "BTCUSD" (num 112) [] in
  fst (fst r) = true
  /\ IM.limit_oid (snd (fst r)) = Some "L2"
  /\ IM.limit_order_qty (snd (fst r)) = Qc_of_Z 5 / Qc_of_Z 2
  /\ ST.tp (snd (fst r)) = Some (num 112).
Proof. cbn zeta. repeat split; vm_compute; reflexivity. Qed.

(** X14: when the broker cancels the previous limit order and then refuses
    the new one, [modify_take_profit] returns False and the trade is left
    without a limit order: no limit order id, no reference, quantity 0; the
    take-profit price is the previous one. *)
Theorem modify_take_profit_refused_create {broker} (trader : Trader broker)
    (self : IM.t) (market_id : string) (price : Qc) (b : broker) :
  (forall o b, fst (cancel_order trader o b) = true) ->
  (forall o b, fst (fst (create_order trader o b)) = false) ->
  ST.x self < ST.e self -> 0 < ST.e self ->
  let r := IM.modify_take_profit trader self market_id price b in
  fst (fst r) = false
  /\ truthy_str (IM.limit_oid (snd (fst r))) = false
  /\ IM.limit_ref_oid (snd (fst r)) = None
  /\ IM.limit_order_qty (snd (fst r)) = 0
  /\ ST.tp (snd (fst r)) = ST.tp self.
Proof.
  intros Hacc Hrefuse Hlt Hpos.
  assert (Hne : ST.e self <> ST.x self)
    by (intros Heq; apply (Qclt_not_eq _ _ Hlt); by symmetry).
  assert (Hnlt : ~ ST.e self < ST.x self)
    by (intros Hgt; apply (Qclt_not_le _ _ Hlt); by apply Qclt_le_weak).
  cbn zeta. unfold IM.modify_take_profit.
  pose proof (cancel_child_accepting trader (IM.limit_oid self)
    (fun self => IM.set_limit_order_qty 0
                   (IM.set_limit_oid None (IM.set_limit_ref_oid None self)))
    self b Hacc) as Hs.
  destruct (cancel_child_cases trader (IM.limit_oid self)
    (fun self => IM.set_limit_order_qty 0
                   (IM.set_limit_oid None (IM.set_limit_ref_oid None self)))
    self b) as [[Hf Hc] | [(o & Ho & Hno & Hok & Hc) | (o & _ & _ & Hno & _)]];
    [| | by rewrite Hacc in Hno].
  all: rewrite Hc; cbn.
  all: rewrite decide_False by exact Hne.
  all: rewrite decide_False by exact Hnlt.
  all: rewrite decide_True by exact Hpos.
  all: destruct (set_ref_order_id trader _ _) as [order b1].
  all: pose proof (Hrefuse order b1) as Hcr.
  all: destruct (create_order trader order b1) as [[ok order'] b2].
  all: cbn in Hcr; subst ok; cbn.
  all: repeat split; done.
Qed.

Lemma modify_take_profit_refused_create_witness :
  let r := IM.modify_take_profit cancel_only_trader trade_with_children
             "BTCUSD" (num 112) [] in
  fst (fst r) = false
  /\ truthy_str (IM.limit_oid (snd (fst r))) = false
  /\ IM.limit_ref_oid (snd (fst r)) = None
  /\ IM.limit_order_qty (snd (fst r)) = 0
  /\ ST.tp (snd (fst r)) = ST.tp trade_with_children.
Proof.
  apply (modify_take_profit_refused_create cancel_only_trader
           trade_with_children "BTCUSD" (num 112) []).
  - intros o b. reflexivity.
  - intros o b. reflexivity.
  - by apply (bool_decide_unpack _).
  - by apply (bool_decide_unpack _).
Defined.

(** ** Order and position signals *)

(** X15: an [OPENED] signal whose reference the trade recognises (by
    [is_target_order] with no order id) raises nothing, and afterwards the
    trade recognises the order by the id the signal carries. *)
Theorem opened_hands_over_to_order_id (self : IM.t) (data : opened_data)
    (ref_order_id : option string) :
  IM.is_target_order self None ref_order_id = true ->
  o_id data <> EmptyString ->
  let r := IM.order_signal self (SIGNAL_ORDER_OPENED data) ref_order_id in
  raised r = None
  /\ IM.is_target_order (state_of r) (Some (o_id data)) None = true.
Proof.
  intros Htarget Hid. cbn zeta.
  unfold IM.is_target_order in Htarget. cbn in Htarget.
  destruct (truthy_str ref_order_id) eqn:Href; [| done]. cbn in Htarget.
  unfold IM.order_signal.
  assert (Hgoal : forall s : IM.t,
    IM.create_oid s = Some (o_id data)
    \/ IM.stop_oid s = Some (o_id data)
    \/ IM.limit_oid s = Some (o_id data) ->
    IM.is_target_order s (Some (o_id data)) None = true).
  { intros s Hs. unfold IM.is_target_order. cbn.
    rewrite (bool_decide_eq_true_2 _ Hid). cbn.
    destruct Hs as [-> | [-> | ->]];
      rewrite (bool_decide_eq_true_2 (Some (o_id data) = Some (o_id data)))
        by done;
      by rewrite ?orb_true_r. }
  destruct (decide (ref_order_id = IM.create_ref_oid self));
    [| destruct (decide (ref_order_id = IM.stop_ref_oid self));
       [| destruct (decide (ref_order_id = IM.limit_ref_oid self))]].
  - split; [done |]. apply Hgoal. left.
    repeat case_match; done.
  - split; [done |]. apply Hgoal. right; left. done.
  - split; [done |]. apply Hgoal. right; right. done.
  - exfalso. repeat case_bool_decide; done.
Qed.

Lemma opened_hands_over_to_order_id_witness :
  let r := IM.order_signal submitted_entry_10
             (SIGNAL_ORDER_OPENED entry_opened_event) (Some "rE1") in
  raised r = None
  /\ IM.is_target_order (state_of r) (Some (o_id entry_opened_event)) None
     = true.
Proof.
  apply (opened_hands_over_to_order_id submitted_entry_10 entry_opened_event
           (Some "rE1")); [reflexivity | discriminate].
Defined.

(** X16: after a [DELETED] or a [CANCELED] signal for an order id, the trade
    no longer recognises that id, provided the id is held by one order of
    the trade only. *)
Theorem order_gone_is_no_longer_target (self : IM.t) (oid : string)
    (ref_order_id : option string) :
  (IM.create_oid self = Some oid ->
   IM.limit_oid self <> Some oid /\ IM.stop_oid self <> Some oid) ->
  (IM.limit_oid self = Some oid -> IM.stop_oid self <> Some oid) ->
  IM.is_target_order
    (state_of (IM.order_signal self (SIGNAL_ORDER_DELETED oid) ref_order_id))
    (Some oid) None = false
  /\ IM.is_target_order
       (state_of (IM.order_signal self (SIGNAL_ORDER_CANCELED oid) ref_order_id))
       (Some oid) None = false.
Proof.
  intros Hc Hl. unfold IM.order_signal, IM.is_target_order.
  split.
  all: repeat case_decide; cbn.
  all: try (destruct (Hc ltac:(done)) as [? ?]).
  all: try (pose proof (Hl ltac:(done))).
  all: rewrite ?andb_false_r; try done.
  all: rewrite !bool_decide_eq_false_2 by done.
  all: by rewrite ?andb_false_r.
Qed.

Lemma order_gone_is_no_longer_target_witness :
  IM.is_target_order
    (state_of (IM.order_signal trade_with_children
                 (SIGNAL_ORDER_DELETED "L1") None))
    (Some "L1") None = false
  /\ IM.is_target_order
       (state_of (IM.order_signal trade_with_children
                    (SIGNAL_ORDER_CANCELED "L1") None))
       (Some "L1") None = false.
Proof.
  apply (order_gone_is_no_longer_target trade_with_children "L1" None);
    discriminate.
Defined.

(** X17: an order signal other than [TRADED] raises nothing and changes
    neither the filled quantities, the average prices, the ordered
    quantity, the direction nor the profit-loss rate. *)
Theorem only_traded_moves_accounting (self : IM.t) (sig : signal)
    (ref_order_id : option string) :
  ~ is_traded sig ->
  let r := IM.order_signal self sig ref_order_id in
  raised r = None /\ same_accounting (state_of r) self.
Proof.
  intros Hsig. cbn zeta. unfold IM.order_signal, same_accounting.
  destruct sig; try (by destruct Hsig); repeat case_decide;
    repeat case_match; cbn; done.
Qed.

Lemma only_traded_moves_accounting_witness :
  let r := IM.order_signal trade_with_children (SIGNAL_ORDER_DELETED "L1")
             None in
  raised r = None /\ same_accounting (state_of r) trade_with_children.
Proof.
  apply (only_traded_moves_accounting trade_with_children
           (SIGNAL_ORDER_DELETED "L1") None).
  intros H. exact H.
Defined.

(** X18: after a [TRADED] signal on the entry order that does not divide by
    zero, the entry state is FILLED exactly when the filled entry quantity
    has reached the ordered quantity, and PARTIALLY_FILLED exactly when it
    has not; the ordered quantity is unchanged. *)
Theorem entry_state_follows_quantity (self : IM.t) (data : traded_data)
    (ref_order_id : option string) :
  Some (t_id data) = IM.create_oid self ->
  let r := IM.order_signal self (SIGNAL_ORDER_TRADED data) ref_order_id in
  raised r <> Some ZeroDivisionError ->
  ST.oq (state_of r) = ST.oq self
  /\ (ST._entry_state (state_of r) = ST.STATE_FILLED
      <-> ST.oq self <= ST.e (state_of r))
  /\ (ST._entry_state (state_of r) = ST.STATE_PARTIALLY_FILLED
      <-> ST.e (state_of r) < ST.oq self).
Proof.
  intros Hid. cbn zeta. unfold IM.order_signal.
  rewrite decide_True by exact Hid.
  unfold IM.order_traded_entry, attempt.
  destruct (match pos_of (t_avg_price data) with
            | Some a => inr a
            | None => _
            end) as [ex | aep'] eqn:Hprice.
  - (* only a division raises there *)
    assert (ex = ZeroDivisionError) as ->.
    { destruct (pos_of (t_avg_price data)); [done |].
      destruct (pos_of (t_exec_price data)); [| done].
      unfold truediv in Hprice. by case_decide; simplify_eq. }
    cbn. done.
  - intros _. destruct (t_cumulative_filled data) as [c |]; cbn.
    all: case_decide as Hoq; cbn in *.
    all: split; [done |]; split; split; intros H; try done.
    all: try (by apply Qcnot_le_lt).
    all: exfalso; by eapply Qclt_not_le.
Qed.

Lemma entry_state_follows_quantity_witness :
  let r := IM.order_signal opened_entry_10
             (SIGNAL_ORDER_TRADED first_partial_fill) None in
  ST.oq (state_of r) = ST.oq opened_entry_10
  /\ (ST._entry_state (state_of r) = ST.STATE_FILLED
      <-> ST.oq opened_entry_10 <= ST.e (state_of r))
  /\ (ST._entry_state (state_of r) = ST.STATE_PARTIALLY_FILLED
      <-> ST.e (state_of r) < ST.oq opened_entry_10).
Proof.
  apply (entry_state_follows_quantity opened_entry_10 first_partial_fill None);
    [reflexivity | by vm_compute].
Defined.

Lemma add_exec_pl_outcome (self : IM.t) (p filled : Qc) :
  IM.add_exec_pl self p filled = Raised ZeroDivisionError self
  \/ exists pl', IM.add_exec_pl self p filled
                 = Returned tt (IM.upd (ST.set_pl pl') self).
Proof.
  unfold IM.add_exec_pl, attempt, truediv.
  repeat case_decide; eauto.
  right. exists (ST.pl self). by rewrite upd_pl_id.
Qed.

(** The price part of the exit branch raises nothing but
    [ZeroDivisionError], and assigns nothing but [pl] and [axp]. *)
Lemma order_traded_exit_prices_outcome (self : IM.t) (data : traded_data)
    (filled : Qc) :
  (exists self', IM.order_traded_exit_prices self data filled
                 = Raised ZeroDivisionError self')
  \/ exists pl' axp',
       IM.order_traded_exit_prices self data filled
       = Returned tt (IM.upd (ST.set_axp axp') (IM.upd (ST.set_pl pl') self)).
Proof.
  unfold IM.order_traded_exit_prices.
  destruct (pos_of (t_avg_price data)) as [a |].
  - unfold attempt, truediv. repeat case_decide; eauto.
  - destruct (pos_of (t_exec_price data)) as [p |].
    + destruct (add_exec_pl_outcome self p filled) as [-> | [pl' ->]]; [eauto |].
      unfold attempt, truediv. case_decide; eauto.
    + right. exists (ST.pl self), (ST.axp self). by rewrite upd_pl_axp_id.
Qed.

(** X19: after a [TRADED] signal on the limit or the stop order that does
    not divide by zero, the exit state is FILLED exactly when the filled
    exit quantity has reached the ordered quantity [oq] (not the filled
    entry quantity [e]), and PARTIALLY_FILLED exactly when it has not; [oq]
    and [e] are unchanged. *)
Theorem exit_state_follows_ordered_quantity (self : IM.t) (data : traded_data)
    (ref_order_id : option string) :
  Some (t_id data) <> IM.create_oid self ->
  Some (t_id data) = IM.limit_oid self \/ Some (t_id data) = IM.stop_oid self ->
  let r := IM.order_signal self (SIGNAL_ORDER_TRADED data) ref_order_id in
  raised r <> Some ZeroDivisionError ->
  ST.oq (state_of r) = ST.oq self /\ ST.e (state_of r) = ST.e self
  /\ (ST._exit_state (state_of r) = ST.STATE_FILLED
      <-> ST.oq self <= ST.x (state_of r))
  /\ (ST._exit_state (state_of r) = ST.STATE_PARTIALLY_FILLED
      <-> ST.x (state_of r) < ST.oq self).
Proof.
  intros Hentry Hchild. cbn zeta. unfold IM.order_signal.
  rewrite decide_False by exact Hentry.
  rewrite decide_True by exact Hchild.
  unfold IM.order_traded_exit.
  destruct (order_traded_exit_prices_outcome self data
              (IM.fill_qty data (ST.x self)))
    as [[self' ->] | (pl' & axp' & ->)]; [done |].
  intros _. destruct (t_cumulative_filled data) as [c |]; cbn.
  all: case_decide as Hoq; cbn in *.
  all: repeat case_decide; cbn.
  all: split; [done |]; split; [done |]; split; split; intros Hst; try done.
  all: try (by apply Qcnot_le_lt).
  all: exfalso; by eapply Qclt_not_le.
Qed.

Lemma exit_state_follows_ordered_quantity_witness :
  let r := IM.order_signal trade_with_children
             (SIGNAL_ORDER_TRADED limit_filled_event) None in
  ST.oq (state_of r) = ST.oq trade_with_children
  /\ ST.e (state_of r) = ST.e trade_with_children
  /\ (ST._exit_state (state_of r) = ST.STATE_FILLED
      <-> ST.oq trade_with_children <= ST.x (state_of r))
  /\ (ST._exit_state (state_of r) = ST.STATE_PARTIALLY_FILLED
      <-> ST.x (state_of r) < ST.oq trade_with_children).
Proof.
  apply (exit_state_follows_ordered_quantity trade_with_children
           limit_filled_event None);
    [discriminate | by left | by vm_compute].
Defined.

(** X20: a [TRADED] signal on the limit or the stop order that carries a
    positive avg-price [a], on a trade with a non-zero average entry price,
    sets [axp = a], sets the profit-loss rate to [(a - aep) / aep] signed by
    the direction (and leaves it when the direction is 0), and sets [x] to
    the cumulative filled quantity when the signal carries one. *)
Theorem exit_fill_with_average_price (self : IM.t) (data : traded_data)
    (ref_order_id : option string) (a : Qc) :
  Some (t_id data) <> IM.create_oid self ->
  Some (t_id data) = IM.limit_oid self \/ Some (t_id data) = IM.stop_oid self ->
  t_avg_price data = Some a -> 0 < a -> ST.aep self <> 0 ->
  let s' := state_of (IM.order_signal self (SIGNAL_ORDER_TRADED data)
                        ref_order_id) in
  ST.axp s' = a
  /\ (ST.dir self <> 0%Z ->
      ST.pl s' = Qc_of_Z (Z.sgn (ST.dir self)) * ((a - ST.aep self) / ST.aep self))
  /\ (ST.dir self = 0%Z -> ST.pl s' = ST.pl self)
  /\ (forall c, t_cumulative_filled data = Some c -> ST.x s' = c).
Proof.
  intros Hentry Hchild Havg Ha Haep. cbn zeta. unfold IM.order_signal.
  rewrite decide_False by exact Hentry.
  rewrite decide_True by exact Hchild.
  unfold IM.order_traded_exit, IM.order_traded_exit_prices.
  rewrite Havg, pos_of_Some by exact Ha.
  destruct (decide (0 < ST.dir self)%Z) as [Hpos | Hnpos];
    [| destruct (decide (ST.dir self < 0)%Z) as [Hneg | Hnneg]].
  - rewrite truediv_ok by exact Haep. cbn.
    rewrite Z.sgn_pos, Qc_of_Z_1 by exact Hpos.
    destruct (t_cumulative_filled data) as [c |]; cbn;
      repeat case_decide; cbn;
      (split; [done |]; split; [intros _; ring |]; split; [lia |]);
      by intros ? [= <-].
  - rewrite truediv_ok by exact Haep. cbn.
    rewrite Z.sgn_neg, Qc_of_Z_m1 by exact Hneg.
    destruct (t_cumulative_filled data) as [c |]; cbn;
      repeat case_decide; cbn;
      (split; [done |]; split; [intros _; by field |]; split; [lia |]);
      by intros ? [= <-].
  - destruct (t_cumulative_filled data) as [c |]; cbn;
      repeat case_decide; cbn;
      (split; [done |]; split; [lia |]; split; [done |]);
      by intros ? [= <-].
Qed.

Lemma exit_fill_with_average_price_witness :
  let s' := state_of (IM.order_signal trade_with_children
                        (SIGNAL_ORDER_TRADED limit_filled_event) None) in
  ST.axp s' = num 110
  /\ (ST.dir trade_with_children <> 0%Z ->
      ST.pl s' = Qc_of_Z (Z.sgn (ST.dir trade_with_children))
                 * ((num 110 - ST.aep trade_with_children)
                    / ST.aep trade_with_children))
  /\ (ST.dir trade_with_children = 0%Z -> ST.pl s' = ST.pl trade_with_children)
  /\ (forall c, t_cumulative_filled limit_filled_event = Some c -> ST.x s' = c).
Proof.
  apply (exit_fill_with_average_price trade_with_children limit_filled_event
           None (num 110)).
  - discriminate.
  - by left.
  - reflexivity.
  - by apply (bool_decide_unpack _).
  - discriminate.
Defined.

(** X21: once the [OPENED] signal of the entry order has been handled, for
    a trade with nothing filled and a signal timestamp above 0,
    [is_entry_timeout(timestamp, timeout)] holds exactly when [timeout] has
    elapsed since the timestamp the signal carries. *)
Theorem opened_starts_timeout_clock (self : IM.t) (data : opened_data)
    (ref_order_id : option string) (timestamp timeout : Qc) :
  ref_order_id = IM.create_ref_oid self -> ST.e self = 0 ->
  0 < o_timestamp data ->
  let s' := state_of (IM.order_signal self (SIGNAL_ORDER_OPENED data)
                        ref_order_id) in
  ST.is_entry_timeout s' timestamp timeout = true
  <-> timeout <= timestamp - o_timestamp data.
Proof.
  intros Href He Hts. cbn zeta. unfold IM.order_signal.
  rewrite decide_True by exact Href.
  unfold ST.is_entry_timeout.
  rewrite !andb_true_iff, !bool_decide_eq_true.
  repeat case_match; cbn; rewrite He; tauto.
Qed.

Lemma opened_starts_timeout_clock_witness :
  let s' := state_of (IM.order_signal submitted_entry_10
                        (SIGNAL_ORDER_OPENED entry_opened_event)
                        (Some "rE1")) in
  ST.is_entry_timeout s' (num 1100) (num 60) = true
  <-> num 60 <= num 1100 - o_timestamp entry_opened_event.
Proof.
  apply (opened_starts_timeout_clock submitted_entry_10 entry_opened_event
           (Some "rE1") (num 1100) (num 60));
    [reflexivity | reflexivity | by apply (bool_decide_unpack _)].
Defined.

(** X22: after a [POSITION_DELETED] signal the trade recognises no position
    any more ([is_target_position] returns None for every pair of ids): the
    position id and the entry order id and reference are None, also when
    the profit-loss update divides by zero. *)
Theorem position_deleted_targets_no_position (self : IM.t)
    (data : position_data) (position_id ref_order_id : option string) :
  let r := IM.position_signal self (SIGNAL_POSITION_DELETED data) in
  IM.is_target_position (state_of r) position_id ref_order_id = None
  /\ IM.position_id (state_of r) = None
  /\ IM.create_oid (state_of r) = None
  /\ IM.create_ref_oid (state_of r) = None.
Proof.
  cbn zeta. unfold IM.position_signal.
  assert (Hgoal : forall s : IM.t,
    IM.position_id s = None -> IM.create_ref_oid s = None ->
    IM.is_target_position s position_id ref_order_id = None).
  { intros s Hp Hc. unfold IM.is_target_position. rewrite Hp, Hc.
    destruct position_id as [p |], ref_order_id as [r |]; cbn;
      rewrite ?andb_false_r; done. }
  destruct (decide (ST.x _ < ST.e _)) as [Hlt | Hnlt];
    [destruct (pos_of _) as [p |] |].
  - destruct (add_exec_pl_outcome
                (IM.set_create_ref_oid None
                   (IM.set_create_oid None (IM.set_position_id None self)))
                p (ST.e self - ST.x self)) as [Hr | [pl' Hr]].
    + cbn in Hr |- *. rewrite Hr. cbn. split; [by apply Hgoal | done].
    + cbn in Hr |- *. rewrite Hr. cbn. split; [by apply Hgoal | done].
  - cbn. split; [by apply Hgoal | done].
  - cbn. split; [by apply Hgoal | done].
Qed.

(** ** The strategy trader ([CryptoAlphaStrategyTrader]) *)

Lemma update_stop_loss_cases (self : CA.t) (trade : ST.t) :
  let atr := CA.atr_stop_loss self (CA.parent_timeframe self (ST._timeframe trade))
               (ST.dir trade) in
  match ST.sl trade with
  | None => CA.update_stop_loss self trade = inl TypeError
  | Some q =>
      exists q', CA.update_stop_loss self trade = inr (ST.set_sl (Some q') trade)
                 /\ q <= q' /\ (q' = q \/ q' = atr)
                 /\ (q' = atr <-> atr = q \/
                       ((q = 0 \/ ST.aep trade < CA.last_price self) /\ q < atr))
  end.
Proof.
  unfold CA.update_stop_loss. cbn zeta.
  destruct (ST.sl trade) as [q |] eqn:Hsl; [| reflexivity].
  assert (Hid : ST.set_sl (Some q) trade = trade).
  { clear -Hsl. destruct trade. cbn in Hsl. by subst. }
  set (atr := CA.atr_stop_loss _ _ _).
  cbn [truthy_num gt_opt].
  assert (Hirr : forall z : Qc, bool_decide (z < z) = false).
  { intros z. apply bool_decide_eq_false_2. intros Hz.
    by apply Qclt_not_eq in Hz. }
  destruct (negb (bool_decide (q <> 0))
            || bool_decide (ST.aep trade < CA.last_price self)) eqn:Hcond.
  - cbn [and_then]. destruct (bool_decide (q < atr)) eqn:Hgt; cbn.
    + rewrite Hgt. apply bool_decide_eq_true_1 in Hgt.
      exists atr. split; [done |]. split; [by apply Qclt_le_weak |].
      split; [by right |]. split; [intros _ | done]. right. split; [| done].
      apply orb_true_iff in Hcond as [Hz | Hp].
      * left. apply negb_true_iff, bool_decide_eq_false_1 in Hz.
        by destruct (decide (q = 0)).
      * right. by apply bool_decide_eq_true_1 in Hp.
    + rewrite Hirr. apply bool_decide_eq_false_1 in Hgt.
      exists q. rewrite Hid. split; [done |]. split; [apply Qcle_refl |].
      split; [by left |]. split.
      * intros ->. by left.
      * intros [-> | [_ Hlt]]; done.
  - cbn [and_then CA.gt_opts]. rewrite Hirr.
    exists q. rewrite Hid. split; [done |]. split; [apply Qcle_refl |].
    split; [by left |]. split.
    + intros ->. by left.
    + intros [-> | [Hc Hlt]]; [done |]. exfalso.
      apply orb_false_iff in Hcond as [Hz Hp].
      apply negb_false_iff, bool_decide_eq_true_1 in Hz.
      apply bool_decide_eq_false_1 in Hp. destruct Hc; done.
Qed.

(** X23: the stop-loss update of [process] never lowers the stop of a trade
    that has one: the trade is unchanged but for [sl], the new stop is the
    old one or the ATR stop of the parent timeframe, and it is the ATR stop
    exactly when that one is higher and the trade had a stop of 0 or the
    last price is above the average entry price. *)
Theorem stop_loss_update_never_lowers (self : CA.t) (trade : ST.t) (q : Qc) :
  ST.sl trade = Some q ->
  let atr := CA.atr_stop_loss self
               (CA.parent_timeframe self (ST._timeframe trade))
               (ST.dir trade) in
  exists q', CA.update_stop_loss self trade = inr (ST.set_sl (Some q') trade)
             /\ q <= q' /\ (q' = q \/ q' = atr)
             /\ (q' = atr <-> atr = q \/
                   ((q = 0 \/ ST.aep trade < CA.last_price self) /\ q < atr)).
Proof.
  intros Hsl. pose proof (update_stop_loss_cases self trade) as H.
  rewrite Hsl in H. exact H.
Qed.

Lemma stop_loss_update_never_lowers_witness :
  let atr := CA.atr_stop_loss trader_three_resistances
               (CA.parent_timeframe trader_three_resistances
                  (ST._timeframe (IM.super trade_with_children)))
               (ST.dir (IM.super trade_with_children)) in
  exists q', CA.update_stop_loss trader_three_resistances
               (IM.super trade_with_children)
             = inr (ST.set_sl (Some q') (IM.super trade_with_children))
             /\ num 90 <= q' /\ (q' = num 90 \/ q' = atr)
             /\ (q' = atr <-> atr = num 90 \/
                   ((num 90 = 0
                     \/ ST.aep (IM.super trade_with_children)
                        < CA.last_price trader_three_resistances)
                    /\ num 90 < atr)).
Proof.
  apply (stop_loss_update_never_lowers trader_three_resistances
           (IM.super trade_with_children) (num 90)).
  reflexivity.
Defined.

Lemma filter_market_sound (cache : CA.filter_cache) (view : CA.filter_view)
    (timestamp : Qc) :
  sound_answer (snd (fst cache), snd cache) ->
  let r := CA.filter_market cache view timestamp in
  sound_answer (fst r)
  /\ fst r = (snd (fst (snd r)), snd (snd r)).
Proof.
  destruct cache as [[cached_at accept] compute]. cbn.
  intros Hsound. unfold CA.filter_market.
  repeat (case_decide || case_match); cbn; done.
Qed.

(** X26: from the initial cache, no call of [filter_market] ever answers
    (False, True): a market that is not accepted is never computed,
    whatever the trader and the market look like at each call. *)
Theorem filter_market_never_computes_rejected
    (calls : list (CA.filter_view * Qc)) :
  Forall sound_answer (run_filter CA.initial_filter_cache calls).
Proof.
  assert (H : forall cache, sound_answer (snd (fst cache), snd cache) ->
                            Forall sound_answer (run_filter cache calls)).
  { induction calls as [| [view timestamp] calls IH]; intros cache Hsound.
    - constructor.
    - cbn. pose proof (filter_market_sound cache view timestamp Hsound) as Hr.
      destruct (CA.filter_market cache view timestamp) as [answer cache'].
      cbn in Hr. destruct Hr as [Ha Hc]. constructor; [done |].
      apply IH. by rewrite <- Hc. }
  apply H. done.
Qed.

(** X27: a call of [filter_market] made less than one hour after the
    timestamp a previous call left in the cache returns the answer of
    that call and leaves the cache as it is, whatever has happened to the
    trader and the market since. *)
Theorem filter_market_answer_is_cached (cache : CA.filter_cache)
    (view view' : CA.filter_view) (timestamp timestamp' : Qc) :
  timestamp' - fst (fst (snd (CA.filter_market cache view timestamp)))
  < Qc_of_Z 3600 ->
  CA.filter_market (snd (CA.filter_market cache view timestamp)) view'
    timestamp'
  = CA.filter_market cache view timestamp.
Proof.
  destruct cache as [[cached_at accept] compute].
  assert (H : exists accept' compute' cached_at',
             CA.filter_market (cached_at, accept, compute) view timestamp
             = ((accept', compute'), (cached_at', accept', compute'))).
  { unfold CA.filter_market. repeat (case_decide || case_match); eauto. }
  destruct H as (accept' & compute' & cached_at' & ->). cbn. intros Hlt.
  unfold CA.filter_market. by rewrite decide_True by exact Hlt.
Qed.

Lemma filter_market_answer_is_cached_witness :
  CA.filter_market
    (snd (CA.filter_market CA.initial_filter_cache view_liquid_market
            (num 7200)))
    (CA.mk_filter_view None false 0 0) (num 9000)
  = CA.filter_market CA.initial_filter_cache view_liquid_market (num 7200).
Proof.
  apply (filter_market_answer_is_cached CA.initial_filter_cache
           view_liquid_market (CA.mk_filter_view None false 0 0)
           (num 7200) (num 9000)).
  by apply (bool_decide_unpack _).
Defined.

Lemma same_timeframe_loop (timeframe : Qc) (trades : list ST.t) (init : bool) :
  fold_left
    (fun do_order trade =>
       if decide (ST._timeframe trade = timeframe) then false else do_order)
    trades init = true
  <-> init = true /\ Forall (fun trade => ST._timeframe trade <> timeframe) trades.
Proof.
  revert init. induction trades as [| trade trades IH]; intros init; cbn.
  - split; [intros ->; by split | by intros [-> _]].
  - rewrite IH, Forall_cons_iff. case_decide as Htf; [| tauto].
    split; [by intros [? _] | tauto].
Qed.

(** X28: [process_entry] executes the order exactly when the trader is
    active, the quantity is positive, the notional reaches the minimum of
    the market and, if trades are held, there are fewer than [max_trades]
    of them, none has the timeframe of the signal, and the last one is not
    a trade of the same direction opened less than one timeframe before. *)
Theorem entry_do_order_iff (activity : bool) (max_trades : Z)
    (min_notional : Qc) (trades : list ST.t) (order_quantity price : Qc)
    (direction : Z) (timestamp timeframe : Qc) :
  CA.entry_do_order activity max_trades min_notional trades order_quantity
    price direction timestamp timeframe = true
  <-> activity = true
      /\ 0 < order_quantity /\ min_notional <= order_quantity * price
      /\ (trades = []
          \/ ((Z.of_nat (length trades) < max_trades)%Z
              /\ Forall (fun trade => ST._timeframe trade <> timeframe) trades
              /\ forall trade, list.last trades = Some trade ->
                   ~ (ST.dir trade = direction
                      /\ timestamp - ST.eot trade < timeframe))).
Proof.
  unfold CA.entry_do_order.
  set (base := if decide (order_quantity <= 0 \/ _) then false else activity).
  assert (Hbase : base = true
                  <-> activity = true /\ 0 < order_quantity
                      /\ min_notional <= order_quantity * price).
  { subst base. case_decide as Hq.
    - split; [done |]. intros (_ & Hpos & Hmin). destruct Hq as [Hq | Hq].
      + by apply Qclt_not_le in Hpos.
      + by apply Qclt_not_le in Hq.
    - split; [| tauto]. intros ->. split; [done |].
      split; apply Qcnot_le_lt || apply Qcnot_lt_le; tauto. }
  destruct trades as [| trade0 trades0].
  - rewrite Hbase. split; [intros (? & ? & ?); auto | tauto].
  - remember (trade0 :: trades0) as trades eqn:Htrades.
    assert (Hne : trades <> []) by (by subst).
    destruct (list.last trades) as [tl |] eqn:Htl;
      [| by apply last_None in Htl].
    destruct (decide (ST.dir tl = direction
                      /\ timestamp - ST.eot tl < timeframe)) as [Hsame | Hsame].
    + split; [done |]. intros (_ & _ & _ & [Hnil | (_ & _ & Hl)]); [done |].
      by destruct (Hl tl).
    + rewrite same_timeframe_loop.
      destruct (decide (max_trades <= Z.of_nat (length trades))%Z)
        as [Hmax | Hmax].
      * split; [by intros [? _] |].
        intros (_ & _ & _ & [Hnil | (Hlen & _)]); [done | lia].
      * rewrite Hbase. split.
        -- intros ((Ha & Hq & Hn) & Hall). repeat split; try done.
           right. repeat split; [lia | done |]. by intros ? [= <-].
        -- intros (Ha & Hq & Hn & [Hnil | (_ & Hall & _)]); done.
Qed.

Lemma filter_entry_cases (self : CA.t) (entry : StrategySignal.t) :
  (CA.filter_entry self entry = inl IndexError
   /\ accepted_without_target self entry
   /\ (0 < length (CA.last_resistances self) <= 2)%nat)
  \/ (CA.filter_entry self entry = inr None
      /\ ~ (CA.min_traded_timeframe self <= StrategySignal.timeframe entry
            /\ StrategySignal.timeframe entry <= CA.max_traded_timeframe self
            /\ CA.check_regions self entry = true))
  \/ (exists retained tp,
        CA.filter_entry self entry = inr (Some (retained, tp))
        /\ retained_from self entry retained
        /\ ~ (accepted_without_target self entry
              /\ (0 < length (CA.last_resistances self) <= 2)%nat)).
Proof.
  unfold CA.filter_entry, accepted_without_target, retained_from.
  destruct (bool_decide (CA.min_traded_timeframe self <= _)) eqn:Hmin; cbn;
    [| right; left; split; [done |];
       apply bool_decide_eq_false_1 in Hmin; tauto].
  destruct (bool_decide (_ <= CA.max_traded_timeframe self)) eqn:Hmax; cbn;
    [| right; left; split; [done |];
       apply bool_decide_eq_false_1 in Hmax; tauto].
  apply bool_decide_eq_true_1 in Hmin, Hmax.
  destruct (CA.check_regions self entry) eqn:Hreg; cbn;
    [| right; left; split; [done |]; intros (_ & _ & ?); done].
  set (atr := CA.atr_stop_loss self _ _).
  set (entry' := if negb _ then _ else entry).
  assert (Hfrom : (entry' = entry
      \/ (truthy_num (StrategySignal.sl entry) = false
          /\ atr < CA.last_price self
          /\ entry' = StrategySignal.set_sl (Some atr) entry))).
  { subst entry'. destruct (truthy_num (StrategySignal.sl entry)); cbn;
      [by left |]. case_decide; [right | left]; done. }
  assert (Htp : StrategySignal.tp entry' = StrategySignal.tp entry).
  { by destruct Hfrom as [-> | (_ & _ & ->)]. }
  rewrite Htp. clearbody entry'.
  destruct (truthy_num (StrategySignal.tp entry)) eqn:Htruthy; cbn.
  { right; right. exists entry', None. repeat split; try done.
    by intros [(_ & _ & _ & ?) _]. }
  case_decide as Hlen.
  - unfold index. destruct (CA.last_resistances self !! 2%nat) as [tp |] eqn:Hl.
    + right; right. exists entry', (Some tp). repeat split; try done.
      apply lookup_lt_Some in Hl. intros [_ ?]. lia.
    + left. apply lookup_ge_None in Hl. repeat split; try done; lia.
  - right; right. exists entry', None. repeat split; try done.
    intros [_ ?]. lia.
Qed.

(** With the timeframes and indicators in place, an index out of range is
    the one way in which the filter stops. *)
Lemma retain_entries_inl (self : CA.t) (entries : list StrategySignal.t)
    (ex : exn) :
  CA.retain_entries self entries = inl ex -> ex = IndexError.
Proof.
  induction entries as [| entry entries IH]; cbn; [done |].
  destruct (filter_entry_cases self entry)
    as [(-> & _) | [(-> & _) | (retained & tp & -> & _)]].
  - by intros [= <-].
  - destruct (CA.retain_entries self entries) as [ex' | kept]; [| done].
    intros [= <-]. by apply IH.
  - destruct (CA.retain_entries self entries) as [ex' | kept]; [| done].
    intros [= <-]. by apply IH.
Qed.

(** X29: for a trader whose timeframe table holds the parent and the
    take-profit timeframes, the entry filter of [process] raises
    [IndexError] exactly when the take-profit timeframe shows one or two
    resistances and some candidate is accepted (timeframe in range, regions
    passed) without a take-profit; with no resistance, or three and more,
    it does not. *)
Theorem retain_entries_index_error_iff (self : CA.t)
    (entries : list StrategySignal.t) :
  CA.retain_entries self entries = inl IndexError
  <-> (0 < length (CA.last_resistances self) <= 2)%nat
      /\ Exists (accepted_without_target self) entries.
Proof.
  induction entries as [| entry entries IH]; cbn.
  { split; [done |]. intros [_ H]. by apply Exists_nil in H. }
  rewrite Exists_cons.
  pose proof (retain_entries_inl self entries) as Hinl.
  destruct (filter_entry_cases self entry)
    as [(-> & Hacc & Hlen) | [(-> & Hrej) | (retained & tp & -> & _ & Hnot)]].
  - split; [tauto | done].
  - destruct (CA.retain_entries self entries) as [ex | kept].
    + rewrite (Hinl ex eq_refl) in *. split; [intros _ | done].
      destruct IH as [IH _]. destruct (IH eq_refl). tauto.
    + split; [done |]. intros [Hlen [Hacc | Hin]].
      * unfold accepted_without_target in Hacc. tauto.
      * destruct IH as [_ IH]. by specialize (IH (conj Hlen Hin)).
  - destruct (CA.retain_entries self entries) as [ex | kept].
    + rewrite (Hinl ex eq_refl) in *. split; [intros _ | done].
      destruct IH as [IH _]. destruct (IH eq_refl). tauto.
    + split; [done |]. intros [Hlen [Hacc | Hin]].
      * tauto.
      * destruct IH as [_ IH]. by specialize (IH (conj Hlen Hin)).
Qed.

(** X30: every entry the filter of [process] retains comes from a candidate
    whose timeframe is in the traded range and that passes the region
    check, unchanged but for a missing stop-loss replaced by an ATR stop
    below the last price; no more entries are retained than there are
    candidates. *)
Theorem retained_entries_come_from_candidates (self : CA.t)
    (entries retained : list StrategySignal.t) :
  CA.retain_entries self entries = inr retained ->
  Forall (fun r => exists entry, entry ∈ entries /\ retained_from self entry r)
    retained
  /\ (length retained <= length entries)%nat.
Proof.
  revert retained.
  induction entries as [| entry entries IH]; cbn; intros retained.
  { intros [= <-]. split; [constructor | done]. }
  destruct (filter_entry_cases self entry)
    as [(-> & _) | [(-> & _) | (r & tp & -> & Hfrom & _)]]; [done | |].
  - destruct (CA.retain_entries self entries) as [ex | kept]; [done |].
    intros [= <-]. destruct (IH kept eq_refl) as [Hall Hlen]. split; [| lia].
    eapply List.Forall_impl; [| exact Hall]. intros r (e & Hin & Hr).
    exists e. split; [by apply list_elem_of_further | done].
  - destruct (CA.retain_entries self entries) as [ex | kept]; [done |].
    intros [= <-]. destruct (IH kept eq_refl) as [Hall Hlen].
    split; [| cbn; lia]. constructor.
    + exists entry. split; [apply list_elem_of_here | done].
    + eapply List.Forall_impl; [| exact Hall]. intros r' (e & Hin & Hr).
      exists e. split; [by apply list_elem_of_further | done].
Qed.

Lemma retained_entries_come_from_candidates_witness :
  Forall (fun r => exists entry, entry ∈ [entry_without_target]
                                 /\ retained_from trader_three_resistances entry r)
    [entry_without_target]
  /\ (length [entry_without_target] <= length [entry_without_target])%nat.
Proof.
  apply (retained_entries_come_from_candidates trader_three_resistances
           [entry_without_target] [entry_without_target]).
  reflexivity.
Defined.

(** * A closed trade that [is_closed] misses *)

Example partial_entry_sold_out_state :
  ST.e partial_entry_sold_out = num 5 /\ ST.x partial_entry_sold_out = num 5
  /\ ST.oq partial_entry_sold_out = num 10
  /\ ST._entry_state partial_entry_sold_out = ST.STATE_CANCELED
  /\ ST._exit_state partial_entry_sold_out = ST.STATE_PARTIALLY_FILLED
  /\ ST.is_closed partial_entry_sold_out = false
  /\ ST.state_to_str partial_entry_sold_out = "closed".
Proof. repeat split; vm_compute; reflexivity. Qed.

(** C6: [is_closed()] returns False on every trade that the claim (and the
    comment of the ['closed'] case of [state_to_str]) counts as closed
    unless its exit state is FILLED and [x >= e] both hold: a trade whose
    units are all sold ([e > 0], [x >= e]) with another exit state, or a
    trade with both states FILLED and [x < e].  For such a trade with a
    FILLED or CANCELED entry, [state_to_str()] says ['closed']. *)
Theorem is_closed_misses_closed_trades (self : ST.t) :
  spec_closed self ->
  ~ (ST._exit_state self = ST.STATE_FILLED /\ ST.e self <= ST.x self) ->
  ST.is_closed self = false
  /\ (ST._entry_state self = ST.STATE_FILLED
      \/ ST._entry_state self = ST.STATE_CANCELED ->
      ST.state_to_str self = "closed").
Proof.
  intros Hspec Hnot. split.
  - unfold ST.is_closed. apply not_true_is_false. intros H.
    apply andb_bool_decide in H. done.
  - intros Hentry. unfold ST.state_to_str, spec_closed in *.
    repeat case_decide; try done; exfalso.
    all: destruct_and?; destruct_or?; destruct_and?.
    all: unfold ST.STATE_NEW, ST.STATE_OPENED, ST.STATE_REJECTED,
           ST.STATE_CANCELED, ST.STATE_PARTIALLY_FILLED, ST.STATE_FILLED in *.
    all: try lia; try (eapply Qclt_not_le; eassumption); tauto.
Qed.

Lemma is_closed_misses_closed_trades_witness :
  ST.is_closed partial_entry_sold_out = false
  /\ ST.state_to_str partial_entry_sold_out = "closed".
Proof.
  destruct (is_closed_misses_closed_trades partial_entry_sold_out)
    as [Hclosed Hstr].
  - right. split; [vm_compute; reflexivity | vm_compute; discriminate].
  - intros [Hexit _]. vm_compute in Hexit. discriminate Hexit.
  - split; [exact Hclosed | apply Hstr; right; vm_compute; reflexivity].
Defined.


(** * The fill accounting in binary64 *)

Section Float64Proofs.

Import PrimFloat.
Local Open Scope float_scope.

(* A decimal literal is the nearest binary64 number, as in Python. *)
Local Set Warnings "-inexact-float".

Lemma f64_pos_of_Some (q : float) :
  (0 <? q) = true -> F.pos_of (Some q) = Some q.
Proof. intros H. unfold F.pos_of. by rewrite H. Qed.





(** 4 units at 100, then 6 more at 103, of 10 ordered. *)
Example two_fills_in_binary64 :
  FF.run_traded FF.fresh_entry_10 [FF.exec_fill 4 100; FF.exec_fill 10 103]
  = ([None; Some (AttributeError "_create_oid")],
     F.set_entry_state StrategyTrade.STATE_FILLED
       (F.set_e 10 (F.set_aep 101.8 FF.fresh_entry_10))).
Proof. vm_compute. reflexivity. Qed.


(** One fill of 0.7 at 103.3 on a fresh trade. *)
Example one_fill_in_binary64 :
  F.aep (snd (FF.run_traded FF.fresh_entry_10 [FF.exec_fill 0.7 103.3]))
  = 103.29999999999998.
Proof. vm_compute. reflexivity. Qed.


(** One call for the entry order with a positive cumulative quantity:
    either the division raises and the trade is as before, or [aep], [e] and
    the entry state are assigned. *)
Lemma f64_entry_call (self : F.t) (data : F.traded_data) (c : float) :
  F.t_cumulative_filled data = Some c -> (0 <? c) = true ->
  Some (F.t_id data) = F.create_oid self ->
  let s := state_of (F.order_signal_traded self data) in
  s = self
  \/ s = F.set_entry_state (FF.state_after (F.oq self) c)
           (F.set_e c (F.set_aep (FF.entry_price_after self data c) self)).
Proof.
  intros Hc Hpos Hentry. cbn zeta. unfold F.order_signal_traded.
  rewrite decide_True by exact Hentry.
  unfold F.order_traded_entry, F.fill_qty, FF.entry_price_after,
    FF.state_after, attempt, F.truediv.
  rewrite Hc, f64_pos_of_Some by exact Hpos.
  repeat case_match; simplify_eq; cbn in *; auto; congruence.
Qed.

(** The price part of the exit branch assigns nothing but [pl] and [axp],
    and [axp] last. *)
Lemma f64_exit_prices_frame (self : F.t) (data : F.traded_data) (filled : float) :
  let r := F.order_traded_exit_prices self data filled in
  F.e (state_of r) = F.e self /\ F.aep (state_of r) = F.aep self
  /\ F.x (state_of r) = F.x self
  /\ F.oq (state_of r) = F.oq self /\ F.dir (state_of r) = F.dir self
  /\ F._entry_state (state_of r) = F._entry_state self
  /\ F._exit_state (state_of r) = F._exit_state self
  /\ F.create_oid (state_of r) = F.create_oid self
  /\ F.limit_oid (state_of r) = F.limit_oid self
  /\ F.stop_oid (state_of r) = F.stop_oid self
  /\ (raised r <> None -> F.axp (state_of r) = F.axp self).
Proof.
  cbn zeta. unfold F.order_traded_exit_prices, F.add_exec_pl, attempt, F.truediv.
  repeat (case_match || case_decide); simplify_eq; cbn; done.
Qed.

(** Whether the price part raises is decided by the event and by [dir],
    [aep], [e], [axp] and [x]. *)
Lemma f64_exit_prices_raised (s1 s2 : F.t) (data : F.traded_data)
    (filled : float) :
  F.dir s1 = F.dir s2 -> F.aep s1 = F.aep s2 -> F.e s1 = F.e s2 ->
  F.axp s1 = F.axp s2 -> F.x s1 = F.x s2 ->
  raised (F.order_traded_exit_prices s1 data filled)
  = raised (F.order_traded_exit_prices s2 data filled).
Proof.
  destruct s1, s2. cbn. intros -> -> -> -> ->.
  unfold F.order_traded_exit_prices, F.add_exec_pl, attempt, F.truediv. cbn.
  repeat (case_match || case_decide); simplify_eq; cbn in *;
    try done; congruence.
Qed.

(** One call for the limit or the stop order with a positive cumulative
    quantity: either the price part raises and nothing else is assigned,
    or [x] and the exit state are assigned after it. *)
Lemma f64_exit_call (self : F.t) (data : F.traded_data) (c : float) :
  F.t_cumulative_filled data = Some c -> (0 <? c) = true ->
  Some (F.t_id data) <> F.create_oid self ->
  Some (F.t_id data) = F.limit_oid self \/ Some (F.t_id data) = F.stop_oid self ->
  let p := F.order_traded_exit_prices self data (c - F.x self) in
  let s := state_of (F.order_signal_traded self data) in
  (raised p <> None /\ s = state_of p)
  \/ (raised p = None
      /\ s = F.set_exit_state (FF.state_after (F.oq self) c)
               (F.set_x c (state_of p))).
Proof.
  intros Hc Hpos Hentry Hexit. cbn zeta. unfold F.order_signal_traded.
  rewrite decide_False by exact Hentry. rewrite decide_True by exact Hexit.
  unfold F.order_traded_exit, F.fill_qty, FF.state_after.
  rewrite Hc, f64_pos_of_Some by exact Hpos.
  pose proof (f64_exit_prices_frame self data (c - F.x self)) as Hframe.
  cbn zeta in Hframe. destruct Hframe as (_ & _ & _ & Hoq & _).
  destruct (F.order_traded_exit_prices self data (c - F.x self))
    as [[] s' | ex s']; cbn in *.
  - right. split; [done |]. rewrite Hoq.
    repeat (case_match || case_decide); done.
  - left. done.
Qed.

(** C5, amended: replaying a [SIGNAL_ORDER_TRADED] event that carries a
    positive cumulative quantity leaves [e], the entry state and the exit
    state as the first call left them.  It leaves [aep] too, unless the
    event is a fill of the entry order priced by exec-price only: then the
    second call recomputes [aep] as [(aep * e + p * (c - e)) / (e + (c - e))]
    with [e = c], which rounding can move ([traded_replay_moves_aep]). *)
Theorem traded_replay_in_binary64 (self : F.t) (data : F.traded_data)
    (c : float) :
  F.t_cumulative_filled data = Some c -> (0 <? c) = true ->
  let s1 := state_of (F.order_signal_traded self data) in
  let s2 := state_of (F.order_signal_traded s1 data) in
  F.e s2 = F.e s1
  /\ F._entry_state s2 = F._entry_state s1
  /\ F._exit_state s2 = F._exit_state s1
  /\ (F.aep s2 = F.aep s1
      \/ exists p,
           Some (F.t_id data) = F.create_oid self
           /\ F.pos_of (F.t_avg_price data) = None
           /\ F.pos_of (F.t_exec_price data) = Some p
           /\ F.e s1 = c
           /\ F.aep s2 = (F.aep s1 * c + p * (c - c)) / (c + (c - c))).
Proof.
  intros Hc Hpos s1 s2.
  destruct (decide (Some (F.t_id data) = F.create_oid self)) as [Hentry | Hentry].
  - (* the entry order *)
    destruct (f64_entry_call self data c Hc Hpos Hentry) as [H1 | H1];
      fold s1 in H1.
    { (* the first call divides by zero, and so does the second *)
      assert (s2 = s1) as -> by (subst s2; rewrite H1; exact H1). auto. }
    assert (Hentry1 : Some (F.t_id data) = F.create_oid s1)
      by (by rewrite H1).
    destruct (f64_entry_call s1 data c Hc Hpos Hentry1) as [H2 | H2];
      fold s2 in H2.
    { rewrite H2. auto. }
    rewrite H2. cbn. split; [by rewrite H1 |].
    split; [by rewrite H1 |]. split; [done |].
    unfold FF.entry_price_after.
    destruct (F.pos_of (F.t_avg_price data)) as [a |] eqn:Ha;
      [| destruct (F.pos_of (F.t_exec_price data)) as [p |] eqn:Hp].
    + left. rewrite H1. cbn. unfold FF.entry_price_after. by rewrite Ha.
    + assert (He1 : F.e s1 = c) by (by rewrite H1).
      right. exists p. repeat split; try done. by rewrite !He1.
    + left. rewrite H1. cbn. unfold FF.entry_price_after. by rewrite Ha, Hp.
  - destruct (decide (Some (F.t_id data) = F.limit_oid self
                      \/ Some (F.t_id data) = F.stop_oid self))
      as [Hexit | Hexit].
    + (* the limit or the stop order *)
      pose proof (f64_exit_prices_frame self data (c - F.x self)) as Hf1.
      cbn zeta in Hf1.
      destruct Hf1 as (He1 & Ha1 & Hx1 & Hoq1 & Hd1 & Hen1 & Hex1 & Hc1 & Hl1
                       & Hs1 & Haxp1).
      destruct (f64_exit_call self data c Hc Hpos Hentry Hexit) as [[Hr H1] | [Hr H1]];
        fold s1 in H1.
      * (* the price part raises, and raises again *)
        assert (Hentry1 : Some (F.t_id data) <> F.create_oid s1)
          by (by rewrite H1, Hc1).
        assert (Hexit1 : Some (F.t_id data) = F.limit_oid s1
                         \/ Some (F.t_id data) = F.stop_oid s1)
          by (by rewrite H1, Hl1, Hs1).
        pose proof (f64_exit_prices_frame s1 data (c - F.x s1)) as Hf2.
        cbn zeta in Hf2.
        destruct Hf2 as (He2 & Ha2 & _ & _ & _ & Hen2 & Hex2 & _).
        destruct (f64_exit_call s1 data c Hc Hpos Hentry1 Hexit1)
          as [[_ H2] | [Hr2 H2]]; fold s2 in H2.
        -- rewrite H2. auto.
        -- exfalso. apply Hr. rewrite <- Hr2.
           assert (Hx : F.x s1 = F.x self) by (by rewrite H1).
           rewrite Hx. symmetry. apply f64_exit_prices_raised.
           all: rewrite H1; auto.
      * assert (Hentry1 : Some (F.t_id data) <> F.create_oid s1)
          by (by rewrite H1; cbn; rewrite Hc1).
        assert (Hexit1 : Some (F.t_id data) = F.limit_oid s1
                         \/ Some (F.t_id data) = F.stop_oid s1)
          by (by rewrite H1; cbn; rewrite Hl1, Hs1).
        pose proof (f64_exit_prices_frame s1 data (c - F.x s1)) as Hf2.
        cbn zeta in Hf2.
        destruct Hf2 as (He2 & Ha2 & _ & Hoq2 & _ & Hen2 & Hex2 & _).
        assert (Hoq : F.oq s1 = F.oq self) by (by rewrite H1; cbn).
        destruct (f64_exit_call s1 data c Hc Hpos Hentry1 Hexit1)
          as [[_ H2] | [_ H2]]; fold s2 in H2.
        -- rewrite H2. auto.
        -- rewrite H2. cbn. rewrite He2, Ha2, Hen2, Hoq.
           repeat split; auto. rewrite H1. done.
    + (* another order *)
      assert (s1 = self) as H1.
      { subst s1. unfold F.order_signal_traded.
        rewrite decide_False by exact Hentry.
        by rewrite decide_False by exact Hexit. }
      assert (s2 = s1) as -> by (subst s2; rewrite H1; exact H1). auto.
Qed.


Lemma traded_replay_in_binary64_witness :
  let s1 := state_of (F.order_signal_traded FF.entry_10_bought_07
                        (FF.exec_fill 2.9 103.3)) in
  let s2 := state_of (F.order_signal_traded s1 (FF.exec_fill 2.9 103.3)) in
  F.e s2 = F.e s1
  /\ F._entry_state s2 = F._entry_state s1
  /\ F._exit_state s2 = F._exit_state s1
  /\ (F.aep s2 = F.aep s1
      \/ exists p,
           Some (F.t_id (FF.exec_fill 2.9 103.3))
           = F.create_oid FF.entry_10_bought_07
           /\ F.pos_of (F.t_avg_price (FF.exec_fill 2.9 103.3)) = None
           /\ F.pos_of (F.t_exec_price (FF.exec_fill 2.9 103.3)) = Some p
           /\ F.e s1 = 2.9
           /\ F.aep s2 = (F.aep s1 * 2.9 + p * (2.9 - 2.9)) / (2.9 + (2.9 - 2.9))).
Proof.
  apply (traded_replay_in_binary64 FF.entry_10_bought_07
           (FF.exec_fill 2.9 103.3) 2.9); reflexivity.
Defined.

(** The fill of 2.9 at 103.3 on 0.7 bought at 100.1, twice. *)
Example replayed_fill_in_binary64 :
  let s1 := state_of (F.order_signal_traded FF.entry_10_bought_07
                        (FF.exec_fill 2.9 103.3)) in
  let s2 := state_of (F.order_signal_traded s1 (FF.exec_fill 2.9 103.3)) in
  F.aep s1 = 102.52758620689656 /\ F.aep s2 = 102.52758620689654.
Proof. split; vm_compute; reflexivity. Qed.

(** C5, as stated, fails in binary64: on a trade with 0.7 bought at 100.1
    the event [{cumulative-filled: 2.9, exec-price: 103.3}] gives
    [aep = 102.52758620689656], and the same event once more
    [102.52758620689654]. *)
Lemma traded_replay_moves_aep :
  ~ (forall (self : F.t) (data : F.traded_data) (c : float),
        F.t_cumulative_filled data = Some c -> (0 <? c) = true ->
        let s1 := state_of (F.order_signal_traded self data) in
        let s2 := state_of (F.order_signal_traded s1 data) in
        F.e s2 = F.e s1 /\ F.aep s2 = F.aep s1
        /\ F._entry_state s2 = F._entry_state s1
        /\ F._exit_state s2 = F._exit_state s1).
Proof.
  intros H.
  destruct (H FF.entry_10_bought_07 (FF.exec_fill 2.9 103.3) 2.9
              eq_refl eq_refl) as (_ & Haep & _).
  apply (f_equal FloatOps.Prim2SF) in Haep. vm_compute in Haep.
  discriminate Haep.
Qed.

End Float64Proofs.

(** ** The update of the specification in exact arithmetic *)

Section ExactRecurrence.

Local Open Scope Qc_scope.

(** The update keeps [aep * e] equal to the sum of the prices weighted by
    the increments. *)
Lemma incremental_average_exact (steps : list (Qc * Qc)) (aep e c p : Qc) :
  0 <= e -> e < c -> steps_increasing c steps ->
  incremental_average Qcplus Qcminus Qcmult Qcdiv aep e ((c, p) :: steps)
  = (aep * e + steps_notional e ((c, p) :: steps))
    / steps_last e ((c, p) :: steps).
Proof.
  revert aep e c p. induction steps as [| [c' p'] steps IH];
    intros aep e c p He Hlt Hinc.
  - cbn. assert (Hc : c <> 0).
    { apply Qc_pos_neq0. eapply Qcle_lt_trans; eassumption. }
    replace (e + (c - e)) with c by ring. f_equal. ring.
  - destruct Hinc as [Hlt' Hinc].
    assert (Hc : 0 < c) by (eapply Qcle_lt_trans; eassumption).
    change (incremental_average Qcplus Qcminus Qcmult Qcdiv aep e
              ((c, p) :: (c', p') :: steps))
      with (incremental_average Qcplus Qcminus Qcmult Qcdiv
              ((aep * e + p * (c - e)) / (e + (c - e))) c
              ((c', p') :: steps)).
    rewrite IH by (try apply Qclt_le_weak; done).
    cbn [steps_notional steps_last]. f_equal.
    replace (e + (c - e)) with c by ring.
    field. by apply Qc_pos_neq0.
Qed.

(** From nothing filled, the steps with strictly increasing cumulative
    quantities give the quantity-weighted average of their prices. *)
Lemma incremental_average_is_weighted_average (steps : list (Qc * Qc)) :
  steps <> [] -> steps_increasing 0 steps ->
  incremental_average Qcplus Qcminus Qcmult Qcdiv 0 0 steps
  = steps_notional 0 steps / steps_last 0 steps.
Proof.
  destruct steps as [| [c p] steps]; [done |]. intros _ [Hc Hinc].
  rewrite incremental_average_exact by (try apply Qcle_refl; done).
  f_equal. ring.
Qed.

End ExactRecurrence.
